(** * Prism backend (src/backend/main.py): a shallow embedding of the
    retrieval pipeline and of the structured-output handling, with the
    properties its specification states about them.

    Python values are modelled as follows.
    - [str] is a list of characters ([pystr]); characters are the code
      points below 256.
    - [int] is [Z]; list lengths and loop counters that cannot be negative
      are [nat].
    - [float] is the binary64 type of the kernel ([PrimFloat.float]).
    - A [dict] decoded from JSON is an association list inside [Json]; the
      process-local stores and the vector index are [gmap]s.
    - An exception is a value of [exn]; code that can raise returns
      [result].
    - A [while] loop that the source does not bound runs on fuel and
      returns [None] when the fuel is gone. *)

From Stdlib Require Import ZArith Ascii String Floats.
From Stdlib Require Import DecimalString DecimalFacts DecimalNat.
From stdpp Require Import base option list strings gmap.



(** ** Strings *)

Abbreviation pystr := (list ascii).

Definition str (s : string) : pystr := list_ascii_of_string s.

(** The double quote and the line feed, which a literal cannot hold. *)
Definition DQ : pystr := ["034"%char].
Definition LF : pystr := ["010"%char].

(** [seq[start:stop]] for a sequence and two integers: a negative index
    counts from the end, and both are then clamped to [0, len]. *)
Definition slice_index (len i : Z) : Z :=
  if (i <? 0)%Z then Z.max (i + len) 0 else Z.min i len.

Definition py_slice {A} (l : list A) (start stop : Z) : list A :=
  let len := Z.of_nat (length l) in
  let lo := slice_index len start in
  let hi := slice_index len stop in
  take (Z.to_nat (hi - lo)) (drop (Z.to_nat lo) l).

(** ** Chunker: [chunk_text] *)

Module Chunker.
Local Open Scope Z_scope.

(** The body of [while start < text_length], run at most [fuel] times.
    [None]: the loop test was still true when the fuel ran out. *)
Fixpoint chunk_loop (fuel : nat) (text : pystr) (chunk_size overlap : Z)
    (start : Z) (chunks : list pystr) : option (list pystr) :=
  match fuel with
  | O => None
  | S fuel' =>
      if start <? Z.of_nat (length text) then
        let end_ := start + chunk_size in
        let chunk := py_slice text start end_ in
        chunk_loop fuel' text chunk_size overlap
          (start + (chunk_size - overlap)) (chunks ++ [chunk])
      else Some chunks
  end.

Definition chunk_text (fuel : nat) (text : pystr) (chunk_size overlap : Z)
    : option (list pystr) :=
  chunk_loop fuel text chunk_size overlap 0 [].

(** The state of the loop after [n] rounds, as long as the test held. *)
Fixpoint loop_state (n : nat) (text : pystr) (chunk_size overlap : Z)
    (start : Z) (chunks : list pystr) : option (Z * list pystr) :=
  match n with
  | O => Some (start, chunks)
  | S n' =>
      if start <? Z.of_nat (length text) then
        loop_state n' text chunk_size overlap
          (start + (chunk_size - overlap))
          (chunks ++ [py_slice text start (start + chunk_size)])
      else None
  end.

(** The call sites pass no sizes: [chunk_text(text)] is
    [chunk_text(text, 1000, 200)]. *)
Definition default_chunk_size : Z := 1000.
Definition default_overlap : Z := 200.

(** The window the loop cuts in round [k], in closed form. *)
Definition window {A} (text : list A) (chunk_size overlap : Z) (k : nat) : list A :=
  py_slice text (Z.of_nat k * (chunk_size - overlap))
                (Z.of_nat k * (chunk_size - overlap) + chunk_size).

(** Number of rounds for a positive stride: ceil(len / stride). *)
Definition rounds (len stride : Z) : nat :=
  Z.to_nat ((len + stride - 1) / stride).

(** Putting the windows back together: the first one whole, every later
    one without its first [overlap] characters. *)
Definition reassemble {A} (overlap : Z) (chunks : list (list A)) : list A :=
  match chunks with
  | [] => []
  | c :: cs => c ++ concat (map (drop (Z.to_nat overlap)) cs)
  end.

(** [chunk_text(text)]: the defaults leave a stride of 800, so the loop
    ends within [len(text)] rounds, and this fuel is enough. *)
Definition chunk_text_default (text : pystr) : list pystr :=
  match chunk_text (S (length text)) text default_chunk_size default_overlap with
  | Some chunks => chunks
  | None => []
  end.

End Chunker.

(** ** Whitespace and [str.strip] *)

(** [str.isspace] on one character, which is also the class [\s] of a
    [str] pattern: the code points 9-13, 28-32, 133 and 160. *)
Definition py_isspace (a : ascii) : bool :=
  let n := nat_of_ascii a in
  ((9 <=? n) && (n <=? 13)) || ((28 <=? n) && (n <=? 32))
  || (n =? 133) || (n =? 160).

Fixpoint lstrip (s : pystr) : pystr :=
  match s with
  | a :: s' => if py_isspace a then lstrip s' else s
  | [] => []
  end.

Definition rstrip (s : pystr) : pystr := reverse (lstrip (reverse s)).

Definition strip (s : pystr) : pystr := rstrip (lstrip s).

(** ** The patterns of [re] that main.py uses *)

Module Re.

(** A pattern is a sequence of items. A backtracking matcher tries them
    left to right; a starred class takes as many characters as it can and
    gives them back one at a time. *)
Inductive item :=
| Bol                          (* ^ : only at the start of the string      *)
| Eol                          (* $ : at the end, or before a last newline *)
| One (c : ascii -> bool)      (* a literal or a class, once               *)
| Star (c : ascii -> bool).    (* a class under a greedy star              *)

Definition regex := list item.

Definition lit (c : ascii) : item := One (Ascii.eqb c).
Definition space : ascii -> bool := py_isspace.
(** The class [[\s\S]]. *)
Definition any (a : ascii) : bool := py_isspace a || negb (py_isspace a).

Definition at_end (s : pystr) : bool :=
  match s with
  | [] => true
  | [a] => Ascii.eqb a "010"
  | _ => false
  end.

(** A match of [r] that starts at the head of [s]: its length. [bos] says
    that nothing of the string lies before [s]. *)
Fixpoint match_here (r : regex) (bos : bool) (s : pystr) {struct r} : option nat :=
  match r with
  | [] => Some 0%nat
  | Bol :: r' => if bos then match_here r' bos s else None
  | Eol :: r' => if at_end s then match_here r' bos s else None
  | One c :: r' =>
      match s with
      | a :: s' => if c a then S <$> match_here r' false s' else None
      | [] => None
      end
  | Star c :: r' =>
      (fix star (bos : bool) (s : pystr) {struct s} : option nat :=
         match s with
         | a :: s' =>
             if c a then
               match star false s' with
               | Some n => Some (S n)
               | None => match_here r' bos s
               end
             else match_here r' bos s
         | [] => match_here r' bos s
         end) bos s
  end.

(** [re.search]: the leftmost position with a match, as (start, length). *)
Fixpoint search_from (r : regex) (bos : bool) (s : pystr) : option (nat * nat) :=
  match match_here r bos s with
  | Some n => Some (0%nat, n)
  | None =>
      match s with
      | [] => None
      | _ :: s' => (fun m : nat * nat => (S m.1, m.2)) <$> search_from r false s'
      end
  end.

Definition search (r : regex) (s : pystr) : option (nat * nat) :=
  search_from r true s.

(** [match.group()] *)
Definition group (s : pystr) (m : nat * nat) : pystr := take m.2 (drop m.1 s).

(** [re.sub(r, '', s)]: every match, found left to right, is deleted.
    [skip] counts the characters of a match still to be dropped. A match
    of length zero deletes nothing. *)
Fixpoint sub_from (r : regex) (bos : bool) (skip : nat) (s : pystr) : pystr :=
  match s with
  | [] => []
  | a :: s' =>
      match skip with
      | S k => sub_from r false k s'
      | O =>
          match match_here r bos s with
          | Some (S n) => sub_from r false n s'
          | _ => a :: sub_from r false 0 s'
          end
      end
  end.

Definition sub (r : regex) (s : pystr) : pystr := sub_from r true 0 s.

Definition lits (s : string) : regex := lit <$> str s.

(** [r'^```json\s*'], [r'^```\s*'], [r'\s*```$'] *)
Definition fence_json_open : regex := Bol :: lits "```json" ++ [Star space].
Definition fence_open : regex := Bol :: lits "```" ++ [Star space].
Definition fence_close : regex := Star space :: lits "```" ++ [Eol].
(** [r'\{[\s\S]*\}'] and [r'\[[\s\S]*\]'] *)
Definition json_object : regex := [lit "{"; Star any; lit "}"].
Definition json_array : regex := [lit "["; Star any; lit "]"].

End Re.

(** ** Locating the JSON text in a model response *)

(** [submit_mock_test], theory and coding answers alike: from
    [eval_text = ....content.strip()] to [eval_text = json_match.group()]. *)
Definition strip_code_fence (content : pystr) : pystr :=
  let eval_text := strip content in
  let eval_text := Re.sub Re.fence_json_open eval_text in
  let eval_text := Re.sub Re.fence_open eval_text in
  let eval_text := Re.sub Re.fence_close eval_text in
  strip eval_text.

Definition clean_eval_text (content : pystr) : pystr :=
  let eval_text := strip_code_fence content in
  match Re.search Re.json_object eval_text with
  | Some json_match => Re.group eval_text json_match
  | None => eval_text
  end.

(** [end_interview]: [re.search(r'\{[\s\S]*\}', scoring_text)] and, on a
    match, [json_match.group()]; no fence is removed on this path. *)
Definition scoring_json_text (scoring_text : pystr) : option pystr :=
  Re.group scoring_text <$> Re.search Re.json_object scoring_text.

(** What the specification asks for, by bracket scanning: the text from
    the first opening brace to the brace that closes it. *)
Fixpoint scan_balanced (depth : nat) (s : pystr) : option nat :=
  match s with
  | [] => None
  | a :: s' =>
      if Ascii.eqb a "{" then S <$> scan_balanced (S depth) s'
      else if Ascii.eqb a "}" then
        match depth with
        | O => Some 1%nat
        | S d => S <$> scan_balanced d s'
        end
      else S <$> scan_balanced depth s'
  end.

Fixpoint spec_first_balanced_object (s : pystr) : option pystr :=
  match s with
  | [] => None
  | a :: s' =>
      if Ascii.eqb a "{" then
        match scan_balanced 0 s' with
        | Some n => Some (take (S n) s)
        | None => None
        end
      else spec_first_balanced_object s'
  end.

(** What the pattern amounts to: from the first opening brace to the last
    closing brace after it. *)
Fixpoint find_first (p : ascii -> bool) (s : pystr) : option nat :=
  match s with
  | [] => None
  | a :: s' => if p a then Some 0%nat else S <$> find_first p s'
  end.

Fixpoint find_last (p : ascii -> bool) (s : pystr) : option nat :=
  match s with
  | [] => None
  | a :: s' =>
      match find_last p s' with
      | Some j => Some (S j)
      | None => if p a then Some 0%nat else None
      end
  end.

Definition first_to_last_brace (s : pystr) : option pystr :=
  i ← find_first (Ascii.eqb "{") s;
  j ← find_last (Ascii.eqb "}") (drop (S i) s);
  Some (take (S (S j)) (drop i s)).

(** The response of the specification's example, the object in it, and a
    reply in which a second pair of braces follows the object. *)
Definition example_object : pystr :=
  str "{" ++ DQ ++ str "score" ++ DQ ++ str ": 80, "
    ++ DQ ++ str "feedback" ++ DQ ++ str ": " ++ DQ ++ str "ok" ++ DQ ++ str "}".

Definition example_response : pystr :=
  str "Sure! ```json" ++ LF ++ example_object ++ LF ++ str "```".

Definition trailing_braces_response : pystr :=
  example_object ++ str " Rubric: {clarity}".

(** ** Exceptions and results *)

Inductive exn :=
| HTTPException (status_code : Z) (detail : pystr)
| JSONDecodeError
| ValueError (msg : pystr)
| TypeError
| KeyError (key : pystr)
| IndexError
| AttributeError
| ZeroDivisionError
| InvalidId
| OtherError (msg : pystr).

Inductive result (A : Type) :=
| Ok (a : A)
| Raise (e : exn).
Arguments Ok {A} a.
Arguments Raise {A} e.

#[global] Instance result_ret : MRet result := fun A a => Ok a.
#[global] Instance result_bind : MBind result := fun A B f r =>
  match r with
  | Ok a => f a
  | Raise e => Raise e
  end.

#[global] Instance result_fmap : FMap result := fun A B f r =>
  match r with
  | Ok a => Ok (f a)
  | Raise e => Raise e
  end.

Definition status_of (e : exn) : option Z :=
  match e with
  | HTTPException status_code _ => Some status_code
  | _ => None
  end.

(** ** JSON values as Python holds them after [json.loads] *)

#[local] Unset Elimination Schemes.
Inductive Json :=
| JNull
| JBool (b : bool)
| JInt (z : Z)
| JFloat (f : float)
| JStr (s : pystr)
| JList (l : list Json)
| JDict (kv : list (pystr * Json)).
#[local] Set Elimination Schemes.

Definition pystr_eqb (s t : pystr) : bool := bool_decide (s = t).

(** [d.get(key)] on the items of a dict. *)
Fixpoint dict_lookup (key : pystr) (kv : list (pystr * Json)) : option Json :=
  match kv with
  | [] => None
  | (k, v) :: kv' => if pystr_eqb k key then Some v else dict_lookup key kv'
  end.

(** [needle in hay] for two strings. *)
Fixpoint is_prefix (p s : pystr) : bool :=
  match p, s with
  | [], _ => true
  | a :: p', b :: s' => Ascii.eqb a b && is_prefix p' s'
  | _ :: _, [] => false
  end.

Fixpoint is_substring (needle hay : pystr) : bool :=
  is_prefix needle hay
  || match hay with
     | [] => false
     | _ :: hay' => is_substring needle hay'
     end.

(** [x == v] for a string [x]. *)
Definition str_equals (x : pystr) (v : Json) : bool :=
  match v with
  | JStr s => pystr_eqb x s
  | _ => false
  end.

(** [key in v] for a string [key]: a key of a dict, an element of a list,
    a substring of a string; a [TypeError] on anything else. *)
Definition py_in (key : pystr) (v : Json) : result bool :=
  match v with
  | JDict kv => Ok (bool_decide (is_Some (dict_lookup key kv)))
  | JList l => Ok (existsb (str_equals key) l)
  | JStr s => Ok (is_substring key s)
  | _ => Raise TypeError
  end.

(** [v[key]] for a string [key]. *)
Definition py_getitem (v : Json) (key : pystr) : result Json :=
  match v with
  | JDict kv =>
      match dict_lookup key kv with
      | Some x => Ok x
      | None => Raise (KeyError key)
      end
  | _ => Raise TypeError
  end.

(** [v.get(key, default)] *)
Definition py_get (v : Json) (key : pystr) (dflt : Json) : result Json :=
  match v with
  | JDict kv => Ok (default dflt (dict_lookup key kv))
  | _ => Raise AttributeError
  end.

(** [len(v)] *)
Definition py_len (v : Json) : result nat :=
  match v with
  | JList l => Ok (length l)
  | JDict kv => Ok (length kv)
  | JStr s => Ok (length s)
  | _ => Raise TypeError
  end.

(** [l[i]] for a list and an integer: a negative [i] counts from the end. *)
Definition list_index {A} (l : list A) (i : Z) : result A :=
  let j := if (i <? 0)%Z then (i + Z.of_nat (length l))%Z else i in
  if (j <? 0)%Z then Raise IndexError
  else match l !! Z.to_nat j with
       | Some x => Ok x
       | None => Raise IndexError
       end.

(** [v[i]] for an integer [i]. No key of a decoded object is an integer. *)
Definition py_index (v : Json) (i : Z) : result Json :=
  match v with
  | JList l => list_index l i
  | JStr s => (fun a => JStr [a]) <$> list_index s i
  | JDict _ => Raise (KeyError [])
  | _ => Raise TypeError
  end.

(** [enumerate(l)] *)
Definition enumerate {A} (l : list A) : list (nat * A) := zip (seq 0 (length l)) l.

(** An [int] as the [float] that true division and [int * float] make of
    it; exact below 2^53, which every length is. *)
Definition float_of_nat (n : nat) : float :=
  PrimFloat.of_uint63 (Uint63.of_Z (Z.of_nat n)).

(** ** Grading a mock test: [submit_mock_test] *)

Module MockTest.

Record TheoryAnswer := {
  ta_question_index : Z;
  ta_answer_text : pystr }.

Record CodingAnswer := {
  ca_question_index : Z;
  ca_code : pystr;
  ca_language : pystr }.

Record ReorderAnswer := {
  ra_question_index : Z;
  ra_ordered_items : list pystr }.

Record TheoryResult := {
  tr_question_index : Z;
  tr_question : Json;
  tr_user_answer : pystr;
  tr_score : Json;
  tr_feedback : Json;
  tr_covered_points : Json;
  tr_missing_points : Json;
  tr_topic : Json }.

Record CodingResult := {
  cr_question_index : Z;
  cr_question : Json;
  cr_user_code : pystr;
  cr_score : Json;
  cr_correctness : Json;
  cr_code_quality : Json;
  cr_feedback : Json;
  cr_suggestions : Json;
  cr_topic : Json }.

Record ReorderResult := {
  rr_question_index : Z;
  rr_question : Json;
  rr_user_order : list pystr;
  rr_correct_order : Json;
  rr_score : float;
  rr_correct_positions : nat;
  rr_total_items : nat;
  rr_topic : Json }.

(** The fallback evaluations, as the two [except] blocks build them. *)
Definition theory_fallback : Json :=
  JDict [
    (str "score", JInt 50);
    (str "feedback", JStr (str "Your answer has been recorded but could not be fully evaluated. Consider providing more detail and covering the key concepts."));
    (str "covered_points", JList []);
    (str "missing_points", JList []) ].

Definition coding_fallback : Json :=
  JDict [
    (str "score", JInt 50);
    (str "correctness", JStr (str "Code has syntax errors or incomplete implementation"));
    (str "code_quality", JStr (str "Needs improvement"));
    (str "test_results", JList []);
    (str "feedback", JStr (str "The code appears incomplete or has errors. Please review the function signature and ensure proper implementation."));
    (str "suggestions", JList [
       JStr (str "Complete the function implementation");
       JStr (str "Fix any syntax errors");
       JStr (str "Test with provided test cases") ]) ].

Section Evaluation.
(** [json.loads] on a string; [None] stands for [json.JSONDecodeError]. *)
Variable json_loads : pystr -> option Json.

Definition loads (s : pystr) : result Json :=
  match json_loads s with
  | Some v => Ok v
  | None => Raise JSONDecodeError
  end.

(** [if "score" not in evaluation or "feedback" not in evaluation:
       raise ValueError("Missing required fields in evaluation")] *)
Definition validate_required (evaluation : Json) : result unit :=
  has_score ← py_in (str "score") evaluation;
  if negb has_score
  then Raise (ValueError (str "Missing required fields in evaluation"))
  else
    has_feedback ← py_in (str "feedback") evaluation;
    if negb has_feedback
    then Raise (ValueError (str "Missing required fields in evaluation"))
    else Ok ().

(** The [try] block and its [except (json.JSONDecodeError, ValueError)]:
    the value of [evaluation] after them. Any other exception leaves
    the loop. *)
Definition parse_evaluation (fallback : Json) (eval_text : pystr) : result Json :=
  match (evaluation ← loads eval_text;
         _ ← validate_required evaluation;
         Ok evaluation) with
  | Raise JSONDecodeError | Raise (ValueError _) => Ok fallback
  | r => r
  end.

(** One round of the theory loop, from the model's reply on. *)
Definition evaluate_theory_reply (question : Json) (answer : TheoryAnswer)
    (content : pystr) : result TheoryResult :=
  let eval_text := clean_eval_text content in
  evaluation ← parse_evaluation theory_fallback eval_text;
  q ← py_getitem question (str "question");
  score ← py_getitem evaluation (str "score");
  feedback ← py_getitem evaluation (str "feedback");
  covered_points ← py_get evaluation (str "covered_points") (JList []);
  missing_points ← py_get evaluation (str "missing_points") (JList []);
  topic ← py_get question (str "topic") (JStr (str "General"));
  Ok {| tr_question_index := ta_question_index answer;
        tr_question := q;
        tr_user_answer := ta_answer_text answer;
        tr_score := score;
        tr_feedback := feedback;
        tr_covered_points := covered_points;
        tr_missing_points := missing_points;
        tr_topic := topic |}.

(** One round of the coding loop, from the model's reply on. *)
Definition evaluate_coding_reply (question : Json) (answer : CodingAnswer)
    (content : pystr) : result CodingResult :=
  let eval_text := clean_eval_text content in
  evaluation ← parse_evaluation coding_fallback eval_text;
  q ← py_getitem question (str "question");
  score ← py_getitem evaluation (str "score");
  correctness ← py_get evaluation (str "correctness") (JStr []);
  code_quality ← py_get evaluation (str "code_quality") (JStr []);
  feedback ← py_getitem evaluation (str "feedback");
  suggestions ← py_get evaluation (str "suggestions") (JList []);
  topic ← py_get question (str "topic") (JStr (str "Coding"));
  Ok {| cr_question_index := ca_question_index answer;
        cr_question := q;
        cr_user_code := ca_code answer;
        cr_score := score;
        cr_correctness := correctness;
        cr_code_quality := code_quality;
        cr_feedback := feedback;
        cr_suggestions := suggestions;
        cr_topic := topic |}.
End Evaluation.

(** The reorder loop calls no model: a round is a function of the stored
    question and the submitted answer alone. *)

(** [sum(1 for i, item in enumerate(user_order)
          if i < len(correct_order) and item == correct_order[i])] *)
Fixpoint count_correct (correct_order : Json) (items : list (nat * pystr))
    : result nat :=
  match items with
  | [] => Ok 0%nat
  | (i, item) :: items' =>
      n ← py_len correct_order;
      hit ← (if (i <? n)%nat
             then str_equals item <$> py_index correct_order (Z.of_nat i)
             else Ok false);
      rest ← count_correct correct_order items';
      Ok ((if hit : bool then 1 else 0) + rest)%nat
  end.

(** [(correct_count / len(correct_order)) * 100] *)
Definition reorder_score (correct_count : nat) (correct_order : Json) : result float :=
  n ← py_len correct_order;
  match n with
  | O => Raise ZeroDivisionError
  | S _ =>
      Ok (PrimFloat.mul (PrimFloat.div (float_of_nat correct_count) (float_of_nat n))
                        (float_of_nat 100))
  end.

(** One round of the reorder loop, after the range check. *)
Definition evaluate_reorder_answer (question : Json) (answer : ReorderAnswer)
    : result ReorderResult :=
  correct_order ← py_getitem question (str "correct_order");
  let user_order := ra_ordered_items answer in
  correct_count ← count_correct correct_order (enumerate user_order);
  score ← reorder_score correct_count correct_order;
  q ← py_getitem question (str "question");
  total_items ← py_len correct_order;
  topic ← py_get question (str "topic") (JStr (str "General"));
  Ok {| rr_question_index := ra_question_index answer;
        rr_question := q;
        rr_user_order := user_order;
        rr_correct_order := correct_order;
        rr_score := score;
        rr_correct_positions := correct_count;
        rr_total_items := total_items;
        rr_topic := topic |}.

(** [for answer in request.reorder_answers: ...], with its [continue] on
    an index at or beyond the number of stored questions. *)
Fixpoint reorder_results (reorder_questions : Json) (answers : list ReorderAnswer)
    : result (list ReorderResult) :=
  match answers with
  | [] => Ok []
  | answer :: answers' =>
      n ← py_len reorder_questions;
      if (Z.of_nat n <=? ra_question_index answer)%Z
      then reorder_results reorder_questions answers'
      else
        question ← py_index reorder_questions (ra_question_index answer);
        r ← evaluate_reorder_answer question answer;
        rs ← reorder_results reorder_questions answers';
        Ok (r :: rs)
  end.

(** The specification's count: the positions at which the submitted order
    and the canonical order hold the same item. *)
Definition spec_matching_positions (user_order correct_order : list pystr) : nat :=
  length (filter (fun p : pystr * pystr => p.1 = p.2)
                 (zip user_order correct_order)).

(** [total items] of the specification's quotient. *)
Definition spec_reorder_score (user_order correct_order : list pystr) : float :=
  PrimFloat.mul
    (PrimFloat.div (float_of_nat (spec_matching_positions user_order correct_order))
                   (float_of_nat (length correct_order)))
    (float_of_nat 100).

(** A decoder that knows two texts, for the examples below: the object of
    the specification's example, and an object without its feedback. *)
Definition score_only_text : pystr :=
  str "{" ++ DQ ++ str "score" ++ DQ ++ str ": 80}".

Definition example_json_loads (s : pystr) : option Json :=
  if pystr_eqb s example_object
  then Some (JDict [(str "score", JInt 80); (str "feedback", JStr (str "ok"))])
  else if pystr_eqb s score_only_text
  then Some (JDict [(str "score", JInt 80)])
  else None.

(** The question and the answer of the specification's reorder example. *)
Definition example_reorder_question : Json :=
  JDict [
    (str "question", JStr (str "Put these steps in the correct order:"));
    (str "topic", JStr (str "Topic name"));
    (str "items", JList (JStr <$> [str "B"; str "A"; str "C"; str "D"]));
    (str "correct_order", JList (JStr <$> [str "A"; str "B"; str "C"; str "D"])) ].

Definition example_reorder_answer : ReorderAnswer :=
  {| ra_question_index := 0;
     ra_ordered_items := [str "B"; str "A"; str "C"; str "D"] |}.

End MockTest.

(** ** The stores *)

(** [str(n)] for an [int]. *)
Definition py_str_nat (n : nat) : pystr := str (NilZero.string_of_uint (Nat.to_uint n)).
Definition py_str_int (z : Z) : pystr := str (NilZero.string_of_int (Z.to_int z)).

(** A record of the [notebooks] collection. [_id] is the [ObjectId], held
    as its 24-digit string [str(_id)]; the fields that [notebook_helper]
    reads with [.get] may be absent. *)
Record Notebook := {
  n__id : pystr;
  n_name : pystr;
  n_color : option pystr;
  n_icon : option pystr;
  n_created_at : pystr;
  n_document_count : option Z }.

(** A record of the [documents] collection, read with [.get] by
    [ensure_document_chunks]: any field may be absent or null. *)
Record Document := {
  d__id : option pystr;
  d_doc_id : option pystr;
  d_notebook_id : option pystr;
  d_filename : option pystr;
  d_uploaded_at : option pystr;
  d_chunks_count : option nat;
  d_chunks : option (list pystr);
  d_file_path : option pystr }.

(** A record of the vector index: [{"id", "values", "metadata"}]. *)
Record VectorMetadata := {
  vm_doc_id : pystr;
  vm_notebook_id : pystr;
  vm_filename : pystr;
  vm_chunk_index : nat;
  vm_text : pystr }.

Record Vector := {
  v_id : pystr;
  v_values : list float;
  v_metadata : VectorMetadata }.

(** An entry of [quizzes_store]. *)
Record Quiz := {
  qz_id : pystr;
  qz_questions : Json;
  qz_created_at : pystr;
  qz_document_ids : option (list pystr);
  qz_num_questions : nat }.

(** The two collections, the vector index by record id, the files under
    [uploads/] by path, and the process-local quiz store. *)
Record State := {
  notebooks : list Notebook;
  documents : list Document;
  index : gmap pystr Vector;
  disk : gmap pystr pystr;
  quizzes_store : gmap pystr Quiz }.

(** [documents_collection.count_documents({"notebook_id": notebook_id})] *)
Definition count_documents (docs : list Document) (notebook_id : pystr) : nat :=
  length (filter (fun d => d_notebook_id d = Some notebook_id) docs).

(** [notebooks_collection.find_one({"_id": oid})] *)
Definition find_notebook (nbs : list Notebook) (oid : pystr) : option Notebook :=
  list_find (fun nb => n__id nb = oid) nbs ≫= fun p => Some p.2.

(** What [index.upsert(vectors=batch)] does to the index when the service
    carries it out: a record replaces the one of the same id. *)
Definition index_upsert (idx : gmap pystr Vector) (batch : list Vector)
    : gmap pystr Vector :=
  foldl (fun m v => <[v_id v := v]> m) idx batch.

(** [except Exception as e: raise HTTPException(status_code=500,
    detail=str(e))], the only handler of most endpoints. [HTTPException]
    is an [Exception], so it is caught and wrapped like any other. *)
Section Handlers.
(** [str(e)] *)
Variable exn_str : exn -> pystr.

Definition wrap_500 {A} (r : result A) : result A :=
  match r with
  | Ok a => Ok a
  | Raise e => Raise (HTTPException 500 (exn_str e))
  end.

(** The handlers of [get_pdf], [submit_mock_test], [end_interview]:
    [except HTTPException: raise] comes first. *)
Definition reraise_http_wrap_500 {A} (r : result A) : result A :=
  match r with
  | Ok a => Ok a
  | Raise (HTTPException status_code detail) =>
      Raise (HTTPException status_code detail)
  | Raise e => Raise (HTTPException 500 (exn_str e))
  end.
End Handlers.

(** ** Notebooks: [notebook_helper], [get_notebooks], [get_notebook] *)

Module Notebooks.

Record NotebookView := {
  nv_id : pystr;
  nv_name : pystr;
  nv_color : pystr;
  nv_icon : pystr;
  nv_created_at : pystr;
  nv_document_count : Z }.

(** The default icon is the book emoji, held here as its UTF-8 bytes. *)
Definition notebook_helper (notebook : Notebook) : NotebookView :=
  {| nv_id := n__id notebook;
     nv_name := n_name notebook;
     nv_color := default (str "#2f5bea") (n_color notebook);
     nv_icon := default (str "📚") (n_icon notebook);
     nv_created_at := n_created_at notebook;
     nv_document_count := default 0%Z (n_document_count notebook) |}.

(** [notebook["document_count"] = doc_count] *)
Definition set_document_count (notebook : Notebook) (doc_count : nat) : Notebook :=
  {| n__id := n__id notebook;
     n_name := n_name notebook;
     n_color := n_color notebook;
     n_icon := n_icon notebook;
     n_created_at := n_created_at notebook;
     n_document_count := Some (Z.of_nat doc_count) |}.

Section Endpoints.
Variable exn_str : exn -> pystr.
(** [ObjectId(s)]: the id as its string, or [None] for [InvalidId]. *)
Variable ObjectId : pystr -> option pystr.
(** The order in which [find().sort("created_at", -1)] yields. *)
Variable sort_created_at_desc : list Notebook -> list Notebook.

Definition get_notebooks (st : State) : result (list NotebookView) :=
  wrap_500 exn_str
    (Ok ((fun notebook =>
            let doc_count := count_documents (documents st) (n__id notebook) in
            notebook_helper (set_document_count notebook doc_count))
         <$> sort_created_at_desc (notebooks st))).

Definition get_notebook (st : State) (notebook_id : pystr) : result NotebookView :=
  wrap_500 exn_str
    (match ObjectId notebook_id with
     | None => Raise InvalidId
     | Some oid =>
         match find_notebook (notebooks st) oid with
         | None => Raise (HTTPException 404 (str "Notebook not found"))
         | Some notebook =>
             let doc_count := count_documents (documents st) notebook_id in
             Ok (notebook_helper (set_document_count notebook doc_count))
         end
     end).
End Endpoints.

End Notebooks.

(** ** Paths under [uploads/] *)

Definition UPLOADS_DIR : pystr := str "uploads".

(** [a / b] of [pathlib] for a relative [b], as the string of the path. *)
Definition path_div (a b : pystr) : pystr := a ++ str "/" ++ b.

(** A string in a condition: empty is false. *)
Definition truthy {A} (l : list A) : bool :=
  match l with
  | [] => false
  | _ :: _ => true
  end.

(** ** Chunk cache: [ensure_document_chunks] *)

Module ChunkCache.

Section Ensure.
(** [Path(p).exists()] *)
Variable path_exists : pystr -> bool.
(** [open(p, "rb")] followed by [extract_text_from_pdf]: the text, or
    the exception that either of them raised. *)
Variable read_pdf_text : pystr -> result pystr.
(** [documents_collection.update_one({"_id": _id}, {"$set": {"chunks":
    chunks, "chunks_count": len(chunks)}})]: the collection after it,
    or the exception of the driver. *)
Variable update_one : list Document -> pystr -> list pystr -> result (list Document).

(** [UPLOADS_DIR / notebook_id / f"{doc_id}.pdf"], taken when both ids
    are there and not empty. *)
Definition convention_path (doc : Document) : option pystr :=
  match d_notebook_id doc, d_doc_id doc with
  | Some notebook_id, Some doc_id =>
      if truthy notebook_id && truthy doc_id
      then Some (path_div (path_div UPLOADS_DIR notebook_id)
                          (doc_id ++ str ".pdf"))
      else None
  | _, _ => None
  end.

(** The path that the function settles on before it tests existence:
    [None] when [pdf_path] is still empty or null at that test. *)
Definition resolve_pdf_path (doc : Document) : option pystr :=
  match d_file_path doc with
  | Some pdf_path =>
      if truthy pdf_path then Some pdf_path else convention_path doc
  | None => convention_path doc
  end.

(** The collection after the call, and what the call returns. *)
Definition ensure_document_chunks (docs : list Document) (doc : Document)
    : list Document * result (list pystr) :=
  let chunks := default [] (d_chunks doc) in
  if truthy chunks then (docs, Ok chunks)
  else
    match resolve_pdf_path doc with
    | None => (docs, Ok [])
    | Some pdf_path =>
        if negb (path_exists pdf_path) then (docs, Ok [])
        else
          match read_pdf_text pdf_path with
          | Raise _ => (docs, Ok [])
          | Ok text =>
              let chunks := Chunker.chunk_text_default text in
              if negb (truthy chunks) then (docs, Ok [])
              else
                match d__id doc with
                | Some doc_id =>
                    match update_one docs doc_id chunks with
                    | Ok docs' => (docs', Ok chunks)
                    | Raise _ => (docs, Ok chunks)
                    end
                | None => (docs, Ok chunks)
                end
          end
    end.
End Ensure.

End ChunkCache.

(** ** Ingestion: [get_embedding], [upload_pdfs] *)

Module Upload.

Record UploadFile := {
  uf_filename : pystr;
  uf_content : pystr }.

Record UploadedDoc := {
  ud_id : pystr;
  ud_filename : pystr;
  ud_uploaded_at : pystr;
  ud_chunks_count : nat }.

Record UploadResponse := {
  ur_message : pystr;
  ur_documents : list UploadedDoc }.

(** [s.endswith(suffix)] *)
Definition endswith (s suffix : pystr) : bool :=
  bool_decide (drop (length s - length suffix) s = suffix).

(** [f"{doc_id}_{i}"] *)
Definition vector_id (doc_id : pystr) (i : nat) : pystr :=
  doc_id ++ str "_" ++ py_str_nat i.

(** [range(0, n, batch_size)] for [batch_size = 100] *)
Definition batch_size : Z := 100.
Definition batch_starts (n : nat) : list nat :=
  (fun k => k * Z.to_nat batch_size)%nat <$> seq 0 (Chunker.rounds (Z.of_nat n) batch_size).

Definition upsert_in_batches (idx : gmap pystr Vector) (vectors : list Vector)
    : gmap pystr Vector :=
  foldl (fun m i =>
           let batch := py_slice vectors (Z.of_nat i) (Z.of_nat i + batch_size) in
           index_upsert m batch)
        idx (batch_starts (length vectors)).

(** [{"$inc": {"document_count": n}}] on the notebook of id [oid]. *)
Fixpoint inc_document_count (nbs : list Notebook) (oid : pystr) (n : Z)
    : list Notebook :=
  match nbs with
  | [] => []
  | nb :: nbs' =>
      if pystr_eqb (n__id nb) oid
      then {| n__id := n__id nb; n_name := n_name nb; n_color := n_color nb;
              n_icon := n_icon nb; n_created_at := n_created_at nb;
              n_document_count := Some (default 0 (n_document_count nb) + n)%Z |}
           :: nbs'
      else nb :: inc_document_count nbs' oid n
  end.

(** The calls with which a request writes to the disk, to the documents
    collection, to the index and to the notebooks collection:
    [notebook_dir.mkdir(exist_ok=True)]; for the [k]-th file
    [open(pdf_path, "wb")] with [f.write(content)], [insert_one(doc_data)]
    and [index.upsert] of the batch that starts at [i]; and the closing
    [update_one] of the counter. *)
Inductive store_call :=
| make_dir
| write_file (k : nat)
| insert_document (k : nat)
| upsert_batch (k i : nat)
| update_count.

Section Ingest.
Variable exn_str : exn -> pystr.
Variable ObjectId : pystr -> option pystr.
(** [extract_text_from_pdf(io.BytesIO(content))] *)
Variable extract_text_from_pdf : pystr -> result pystr.
(** [embedding_model.encode(text).tolist()] *)
Variable encode : pystr -> result (list float).
(** The values that the [k]-th file of a request draws:
    [str(uuid.uuid4())], [datetime.now().isoformat()] and the [_id]
    that [insert_one] gives the record. *)
Variable uuid4 : nat -> pystr.
Variable now : nat -> pystr.
Variable new_object_id : nat -> pystr.
(** The exception that a call to a store raises, [None] for a call that
    is carried out. A call that raises leaves its store as it was. *)
Variable fault : store_call -> option exn.

(** The loop over [range(0, len(vectors), batch_size)] for the [k]-th
    file: the index after the batches that were carried out, and the
    exception of the batch that was not. *)
Fixpoint upsert_batches (k : nat) (idx : gmap pystr Vector) (vectors : list Vector)
    (starts : list nat) : gmap pystr Vector * option exn :=
  match starts with
  | [] => (idx, None)
  | i :: starts' =>
      match fault (upsert_batch k i) with
      | Some e => (idx, Some e)
      | None =>
          let batch := py_slice vectors (Z.of_nat i) (Z.of_nat i + batch_size) in
          upsert_batches k (index_upsert idx batch) vectors starts'
      end
  end.

(** [get_embedding]: [None] on any exception of the model. *)
Definition get_embedding (text : pystr) : option (list float) :=
  match encode text with
  | Ok embedding => Some embedding
  | Raise _ => None
  end.

(** The record appended for chunk [i]. *)
Definition vector_record (doc_id notebook_id filename : pystr) (i : nat)
    (chunk : pystr) (embedding : list float) : Vector :=
  {| v_id := vector_id doc_id i;
     v_values := embedding;
     v_metadata :=
       {| vm_doc_id := doc_id;
          vm_notebook_id := notebook_id;
          vm_filename := filename;
          vm_chunk_index := i;
          vm_text := chunk |} |}.

(** The loop over [enumerate(chunks)]: a chunk gets a record only
    [if embedding:], that is when the list came back and is not empty. *)
Definition make_vectors (doc_id notebook_id filename : pystr)
    (chunks : list (nat * pystr)) : list Vector :=
  flat_map (fun ic : nat * pystr =>
              match get_embedding ic.2 with
              | Some embedding =>
                  if truthy embedding
                  then [vector_record doc_id notebook_id filename ic.1 ic.2 embedding]
                  else []
              | None => []
              end) chunks.

(** [doc_data], with the [_id] that [insert_one] adds. *)
Definition document_of (notebook_id : pystr) (k : nat) (file : UploadFile)
    (chunks : list pystr) : Document :=
  {| d__id := Some (new_object_id k);
     d_doc_id := Some (uuid4 k);
     d_notebook_id := Some notebook_id;
     d_filename := Some (uf_filename file);
     d_uploaded_at := Some (now k);
     d_chunks_count := Some (length chunks);
     d_chunks := Some chunks;
     d_file_path :=
       Some (path_div (path_div UPLOADS_DIR notebook_id) (uuid4 k ++ str ".pdf")) |}.

(** The body of [for file in files], for the [k]-th file: the file is
    written, then the record is stored, then the vectors are sent; what
    was done before a call failed stays. *)
Definition upload_one (notebook_id : pystr) (k : nat) (file : UploadFile)
    (st : State) : State * result UploadedDoc :=
  if negb (endswith (uf_filename file) (str ".pdf"))
  then (st, Raise (HTTPException 400 (uf_filename file ++ str " is not a PDF file")))
  else
    match extract_text_from_pdf (uf_content file) with
    | Raise e => (st, Raise e)
    | Ok text =>
        let chunks := Chunker.chunk_text_default text in
        let doc_id := uuid4 k in
        let pdf_path :=
          path_div (path_div UPLOADS_DIR notebook_id) (doc_id ++ str ".pdf") in
        match fault (write_file k) with
        | Some e => (st, Raise e)
        | None =>
            let files := <[pdf_path := uf_content file]> (disk st) in
            let doc_data := document_of notebook_id k file chunks in
            match fault (insert_document k) with
            | Some e =>
                ({| notebooks := notebooks st;
                    documents := documents st;
                    index := index st;
                    disk := files;
                    quizzes_store := quizzes_store st |},
                 Raise e)
            | None =>
                let vectors :=
                  make_vectors doc_id notebook_id (uf_filename file)
                               (enumerate chunks) in
                let '(idx, failed) :=
                  upsert_batches k (index st) vectors
                                 (batch_starts (length vectors)) in
                ({| notebooks := notebooks st;
                    documents := documents st ++ [doc_data];
                    index := idx;
                    disk := files;
                    quizzes_store := quizzes_store st |},
                 match failed with
                 | Some e => Raise e
                 | None =>
                     Ok {| ud_id := doc_id;
                           ud_filename := uf_filename file;
                           ud_uploaded_at := now k;
                           ud_chunks_count := length chunks |}
                 end)
            end
        end
    end.

Fixpoint upload_loop (notebook_id : pystr) (k : nat) (files : list UploadFile)
    (st : State) (uploaded_docs : list UploadedDoc)
    : State * result (list UploadedDoc) :=
  match files with
  | [] => (st, Ok uploaded_docs)
  | file :: files' =>
      match upload_one notebook_id k file st with
      | (st', Raise e) => (st', Raise e)
      | (st', Ok d) =>
          upload_loop notebook_id (S k) files' st' (uploaded_docs ++ [d])
      end
  end.

Definition upload_pdfs (st : State) (notebook_id : pystr) (files : list UploadFile)
    : State * result UploadResponse :=
  let '(st', r) :=
    match ObjectId notebook_id with
    | None => (st, Raise InvalidId)
    | Some oid =>
        match find_notebook (notebooks st) oid with
        | None => (st, Raise (HTTPException 404 (str "Notebook not found")))
        | Some _ =>
            match fault make_dir with
            | Some e => (st, Raise e)
            | None =>
                match upload_loop notebook_id 0 files st [] with
                | (st', Raise e) => (st', Raise e)
                | (st', Ok uploaded_docs) =>
                    match fault update_count with
                    | Some e => (st', Raise e)
                    | None =>
                        ({| notebooks :=
                              inc_document_count (notebooks st') oid
                                                 (Z.of_nat (length files));
                            documents := documents st';
                            index := index st';
                            disk := disk st';
                            quizzes_store := quizzes_store st' |},
                         Ok {| ur_message :=
                                 str "Successfully uploaded "
                                 ++ py_str_nat (length files) ++ str " PDF(s)";
                               ur_documents := uploaded_docs |})
                    end
                end
            end
        end
    end in
  (st', wrap_500 exn_str r).

(** Where the [k]-th file can fail: before its record is stored, or at a
    batch of its vectors, after it. *)
Definition fails_before_record (k : nat) (file : UploadFile) (e : exn) : Prop :=
  (endswith (uf_filename file) (str ".pdf") = false /\
   e = HTTPException 400 (uf_filename file ++ str " is not a PDF file")) \/
  extract_text_from_pdf (uf_content file) = Raise e \/
  fault (write_file k) = Some e \/
  fault (insert_document k) = Some e.

Definition fails_after_record (k : nat) (e : exn) : Prop :=
  exists i, fault (upsert_batch k i) = Some e.

(** The records that the [k]-th file of a request sends to the index,
    and those of the files from the [k]-th on. *)
Definition file_vectors (notebook_id : pystr) (k : nat) (file : UploadFile)
    : list Vector :=
  match extract_text_from_pdf (uf_content file) with
  | Ok text =>
      make_vectors (uuid4 k) notebook_id (uf_filename file)
                   (enumerate (Chunker.chunk_text_default text))
  | Raise _ => []
  end.

Fixpoint request_vectors (notebook_id : pystr) (k : nat) (files : list UploadFile)
    : list Vector :=
  match files with
  | [] => []
  | file :: files' =>
      file_vectors notebook_id k file ++ request_vectors notebook_id (S k) files'
  end.
End Ingest.

(** Collaborators for the examples: a document id per file that holds no
    underscore, a model that embeds every text, one that fails on every
    text, an extractor that reads the bytes as the text, stores that
    carry out every call, and an index that is not reachable. *)
Definition example_uuid4 (k : nat) : pystr := replicate (S k) "a"%char.
Definition example_now (k : nat) : pystr := str "2024-03-01T10:05:00".
Definition example_object_id (k : nat) : pystr := str "65f0c0ffee65f0c0ffee00aa".
Definition embeds_all (text : pystr) : result (list float) := Ok [1%float].
Definition embeds_none (text : pystr) : result (list float) :=
  Raise (OtherError (str "CUDA out of memory")).
Definition bytes_as_text (content : pystr) : result pystr := Ok content.
Definition no_fault (call : store_call) : option exn := None.
Definition index_down (call : store_call) : option exn :=
  match call with
  | upsert_batch _ _ => Some (OtherError (str "index unavailable"))
  | _ => None
  end.

Definition example_file : UploadFile :=
  {| uf_filename := str "notes.pdf"; uf_content := str "Binary search halves the range." |}.

End Upload.

(** ** Quizzes: [generate_quiz], [submit_quiz] *)

Module QuizApi.

Record QuizGenerateRequest := {
  g_notebook_id : pystr;
  g_document_ids : option (list pystr);
  g_num_questions : Z;
  g_difficulty : pystr }.

Record QuizAnswer := {
  a_question_index : Z;
  a_selected_option : Z }.

Record QuizSubmitRequest := {
  s_quiz_id : pystr;
  s_answers : list QuizAnswer }.

(** [filter_dict]: the notebook, and the documents when some are named. *)
Record QueryFilter := {
  f_notebook_id : pystr;
  f_doc_id_in : option (list pystr) }.

(** One call of [index.query(vector=..., top_k=..., include_metadata=True,
    filter=...)]. *)
Record QueryCall := {
  qc_vector : list float;
  qc_top_k : Z;
  qc_filter : QueryFilter }.

(** A match, with the two metadata fields that are read, and an element
    of [all_chunks]. *)
Record Match := {
  m_text : pystr;
  m_filename : pystr }.

Record Chunk := {
  c_text : pystr;
  c_filename : pystr }.

(** The inner loop: a match is appended unless its text is already the
    text of a collected chunk. *)
Fixpoint add_matches (all_chunks : list Chunk) (matches : list Match) : list Chunk :=
  match matches with
  | [] => all_chunks
  | m :: matches' =>
      if bool_decide (m_text m ∈ c_text <$> all_chunks)
      then add_matches all_chunks matches'
      else add_matches
             (all_chunks ++ [{| c_text := m_text m; c_filename := m_filename m |}])
             matches'
  end.

(** [sep.join(parts)] *)
Fixpoint join (sep : pystr) (parts : list pystr) : pystr :=
  match parts with
  | [] => []
  | [p] => p
  | p :: parts' => p ++ sep ++ join sep parts'
  end.

(** What iterating a decoded value yields. *)
Definition py_iter (v : Json) : result (list Json) :=
  match v with
  | JList l => Ok l
  | JDict kv => Ok ((fun p : pystr * Json => JStr p.1) <$> kv)
  | JStr s => Ok ((fun a => JStr [a]) <$> s)
  | _ => Raise TypeError
  end.

(** [{"question": q["question"], "options": q["options"],
      "topic": q.get("topic", "General")}] *)
Definition question_for_user (q : Json) : result Json :=
  question ← py_getitem q (str "question");
  options ← py_getitem q (str "options");
  topic ← py_get q (str "topic") (JStr (str "General"));
  Ok (JDict [(str "question", question); (str "options", options);
             (str "topic", topic)]).

Fixpoint questions_for_user (qs : list Json) : result (list Json) :=
  match qs with
  | [] => Ok []
  | q :: qs' =>
      x ← question_for_user q;
      xs ← questions_for_user qs';
      Ok (x :: xs)
  end.

Record QuizResponse := {
  r_quiz_id : pystr;
  r_questions : list Json;
  r_total_questions : nat }.

(** The specification's deduplication: by exact text, first seen first. *)
Fixpoint spec_first_seen (seen texts : list pystr) : list pystr :=
  match texts with
  | [] => []
  | t :: texts' =>
      if bool_decide (t ∈ seen) then spec_first_seen seen texts'
      else t :: spec_first_seen (seen ++ [t]) texts'
  end.

Section Generate.
Variable exn_str : exn -> pystr.
Variable json_loads : pystr -> option Json.
(** [embedding_model.encode(text).tolist()] *)
Variable encode : pystr -> result (list float).
(** [random.randint(1, 10000)], by the number of the draw. *)
Variable randint : nat -> Z.
(** [index.query(...).matches] *)
Variable index_query : QueryCall -> list Match.
(** The prompt of lines 854-878, from the number of questions, the
    difficulty and the context. *)
Variable quiz_prompt : Z -> pystr -> pystr -> pystr.
(** [groq_client.chat.completions.create(...)] for a system and a user
    message: [choices[0].message.content]. *)
Variable chat_completion : pystr -> pystr -> result pystr.
Variable uuid4 : pystr.
Variable now : pystr.

Definition quiz_system_message : pystr :=
  str "You are a helpful educational assistant that creates high-quality quiz questions. Always respond with valid JSON only.".

(** [for _ in range(num_queries)], from round [k] on: the chunks
    collected and the calls made to the index, in order. *)
Fixpoint sample_loop (rounds : nat) (k : nat) (filter_dict : QueryFilter)
    (all_chunks : list Chunk) (calls : list QueryCall)
    : result (list Chunk * list QueryCall) :=
  match rounds with
  | O => Ok (all_chunks, calls)
  | S rounds' =>
      let random_text := str "question " ++ py_str_int (randint k) in
      query_embedding ← encode random_text;
      let call := {| qc_vector := query_embedding;
                     qc_top_k := 3;
                     qc_filter := filter_dict |} in
      sample_loop rounds' (S k) filter_dict
                  (add_matches all_chunks (index_query call))
                  (calls ++ [call])
  end.

(** Lines 815-851: the filter, the sampling loop and the cut to
    [num_questions * 2] chunks. *)
Definition select_chunks (request : QuizGenerateRequest)
    : result (list Chunk * list QueryCall) :=
  let filter_dict :=
    {| f_notebook_id := g_notebook_id request;
       f_doc_id_in :=
         match g_document_ids request with
         | Some ids => if truthy ids then Some ids else None
         | None => None
         end |} in
  let num_queries := Z.min (g_num_questions request * 2) 10 in
  '(all_chunks, calls) ← sample_loop (Z.to_nat num_queries) 0 filter_dict [] [];
  let selected_chunks :=
    py_slice all_chunks 0
      (Z.min (Z.of_nat (length all_chunks)) (g_num_questions request * 2)) in
  Ok (selected_chunks, calls).

(** The body of the [try] block. *)
Definition generate_quiz_body (st : State) (request : QuizGenerateRequest)
    : State * result QuizResponse :=
  let doc_count := count_documents (documents st) (g_notebook_id request) in
  if (doc_count =? 0)%nat
  then (st, Raise (HTTPException 400
                     (str "No documents uploaded. Please upload documents first.")))
  else
    match select_chunks request with
    | Raise e => (st, Raise e)
    | Ok (selected_chunks, _) =>
        if negb (truthy selected_chunks)
        then (st, Raise (HTTPException 400
                (str "Could not retrieve content from documents. Please ensure documents are properly uploaded.")))
        else
          let context := join (LF ++ LF) (c_text <$> selected_chunks) in
          let prompt :=
            quiz_prompt (g_num_questions request) (g_difficulty request) context in
          match chat_completion quiz_system_message prompt with
          | Raise e => (st, Raise e)
          | Ok content =>
              let response_text := strip content in
              let response_text :=
                match Re.search Re.json_array response_text with
                | Some json_match => Re.group response_text json_match
                | None => response_text
                end in
              match json_loads response_text with
              | None => (st, Raise JSONDecodeError)
              | Some questions =>
                  let quiz_id := uuid4 in
                  match py_len questions with
                  | Raise e => (st, Raise e)
                  | Ok n =>
                      let st' :=
                        {| notebooks := notebooks st;
                           documents := documents st;
                           index := index st;
                           disk := disk st;
                           quizzes_store :=
                             <[quiz_id :=
                                 {| qz_id := quiz_id;
                                    qz_questions := questions;
                                    qz_created_at := now;
                                    qz_document_ids := g_document_ids request;
                                    qz_num_questions := n |}]>
                             (quizzes_store st) |} in
                      (st',
                       qs ← py_iter questions;
                       for_user ← questions_for_user qs;
                       Ok {| r_quiz_id := quiz_id;
                             r_questions := for_user;
                             r_total_questions := n |})
                  end
              end
          end
    end.

(** [except json.JSONDecodeError as e: raise HTTPException(500,
    f"Failed to parse quiz questions: {str(e)}")] and then
    [except Exception as e: raise HTTPException(500, str(e))]. *)
Definition generate_quiz (st : State) (request : QuizGenerateRequest)
    : State * result QuizResponse :=
  let '(st', r) := generate_quiz_body st request in
  (st',
   match r with
   | Ok a => Ok a
   | Raise JSONDecodeError =>
       Raise (HTTPException 500
                (str "Failed to parse quiz questions: " ++ exn_str JSONDecodeError))
   | Raise e => Raise (HTTPException 500 (exn_str e))
   end).
End Generate.

Section Submit.
Variable exn_str : exn -> pystr.
(** Lines 946-1035, the grading of the answers against the stored quiz
    and the analysis asked of the model: the response, as a decoded
    value, or the exception raised on the way. *)
Variable grade_quiz : Quiz -> QuizSubmitRequest -> result Json.

Definition submit_quiz (st : State) (request : QuizSubmitRequest) : result Json :=
  wrap_500 exn_str
    (match quizzes_store st !! s_quiz_id request with
     | None => Raise (HTTPException 404 (str "Quiz not found"))
     | Some quiz => grade_quiz quiz request
     end).
End Submit.

End QuizApi.

(** ** Concrete stores and collaborators for the examples *)

Module Examples.

(** [str(e)] as recent releases of the web framework print an
    [HTTPException]: the status, a colon and the detail. *)
Definition example_exn_str (e : exn) : pystr :=
  match e with
  | HTTPException status_code detail => py_str_int status_code ++ str ": " ++ detail
  | _ => str "error"
  end.

Definition example_notebook_id : pystr := str "65f0c0ffee65f0c0ffee0001".

(** A notebook whose stored counter says 7. *)
Definition example_notebook : Notebook :=
  {| n__id := example_notebook_id;
     n_name := str "Algorithms";
     n_color := None;
     n_icon := None;
     n_created_at := str "2024-03-01T10:00:00";
     n_document_count := Some 7%Z |}.

Definition example_document (doc_id : string) : Document :=
  {| d__id := None;
     d_doc_id := Some (str doc_id);
     d_notebook_id := Some example_notebook_id;
     d_filename := Some (str "notes.pdf");
     d_uploaded_at := Some (str "2024-03-01T10:05:00");
     d_chunks_count := Some 0%nat;
     d_chunks := Some [];
     d_file_path := None |}.

(** One notebook with two documents, and one with none. *)
Definition example_state : State :=
  {| notebooks := [example_notebook];
     documents := [example_document "d1"; example_document "d2"];
     index := ∅;
     disk := ∅;
     quizzes_store := ∅ |}.

Definition fresh_state : State :=
  {| notebooks := [example_notebook];
     documents := [];
     index := ∅;
     disk := ∅;
     quizzes_store := ∅ |}.

(** A document whose cached chunks are gone and whose file is not there. *)
Definition lost_document : Document :=
  {| d__id := Some (str "65f0c0ffee65f0c0ffee00aa");
     d_doc_id := Some (str "d1");
     d_notebook_id := Some example_notebook_id;
     d_filename := Some (str "notes.pdf");
     d_uploaded_at := Some (str "2024-03-01T10:05:00");
     d_chunks_count := Some 0%nat;
     d_chunks := Some [];
     d_file_path := Some (str "uploads/65f0c0ffee65f0c0ffee0001/d1.pdf") |}.

Definition no_file (p : pystr) : bool := false.
Definition unreadable (p : pystr) : result pystr :=
  Raise (OtherError (str "EOF marker not found")).
Definition keep_documents (docs : list Document) (_id : pystr) (chunks : list pystr)
    : result (list Document) := Ok docs.

Definition example_quiz_request : QuizApi.QuizGenerateRequest :=
  {| QuizApi.g_notebook_id := example_notebook_id;
     QuizApi.g_document_ids := None;
     QuizApi.g_num_questions := 5;
     QuizApi.g_difficulty := str "medium" |}.

Definition example_submit_request : QuizApi.QuizSubmitRequest :=
  {| QuizApi.s_quiz_id := str "no-such-quiz"; QuizApi.s_answers := [] |}.

(** A corpus of two chunks, and an index that answers every query with
    the same three matches over them. *)
Definition two_chunk_corpus : list pystr := [str "alpha"; str "beta"].

Definition same_matches (call : QuizApi.QueryCall) : list QuizApi.Match :=
  [ {| QuizApi.m_text := str "alpha"; QuizApi.m_filename := str "a.pdf" |};
    {| QuizApi.m_text := str "beta"; QuizApi.m_filename := str "a.pdf" |};
    {| QuizApi.m_text := str "alpha"; QuizApi.m_filename := str "a.pdf" |} ].

Definition zero_vector (text : pystr) : result (list float) := Ok [0%float].

(** [str(ObjectId(s))] for the examples, as the driver reads a string: 24
    hexadecimal digits of either case make an id, and the id prints in
    lower case; any other string is an [InvalidId]. *)
Definition is_hex_digit (a : ascii) : bool :=
  let n := nat_of_ascii a in
  ((48 <=? n) && (n <=? 57)) || ((97 <=? n) && (n <=? 102))
  || ((65 <=? n) && (n <=? 70)).

Definition lower_hex (a : ascii) : ascii :=
  let n := nat_of_ascii a in
  if (65 <=? n) && (n <=? 70) then ascii_of_nat (n + 32) else a.

Definition hex_object_id (s : pystr) : option pystr :=
  if (length s =? 24)%nat && forallb is_hex_digit s
  then Some (lower_hex <$> s) else None.

(** The id of the example notebook, spelled with capital digits. *)
Definition capital_notebook_id : pystr := str "65F0C0FFEE65F0C0FFEE0001".

End Examples.

(** ** More of Python on decoded values *)

(** A decoded value in a condition. *)
Definition py_truthy (v : Json) : bool :=
  match v with
  | JNull => false
  | JBool b => b
  | JInt z => negb (z =? 0)%Z
  | JFloat f => negb (PrimFloat.eqb f 0%float)
  | JStr s => truthy s
  | JList l => truthy l
  | JDict kv => truthy kv
  end.

(** [v[:stop]]: a string or a list is cut; anything else raises (a
    [TypeError], or a [KeyError] on a dict in recent versions; the
    handlers that follow catch both alike). *)
Definition py_prefix (v : Json) (stop : Z) : result Json :=
  match v with
  | JStr s => Ok (JStr (py_slice s 0 stop))
  | JList l => Ok (JList (py_slice l 0 stop))
  | _ => Raise TypeError
  end.

(** A string or a list of at most [n] elements. *)
Definition sized_within (n : nat) (v : Json) : Prop :=
  exists k, py_len v = Ok k /\ (k <= n)%nat.

(** The values on which [key in v] raises a [TypeError]. *)
Definition is_scalar (v : Json) : bool :=
  match v with
  | JNull | JBool _ | JInt _ | JFloat _ => true
  | _ => false
  end.

(** ** Doomscroll cards: [generate_card_with_llm], [generate_doomscroll_cards] *)

Module Cards.

Definition CARD_TYPES : list pystr :=
  [str "fun_fact"; str "mnemonic"; str "key_concept"; str "quote";
   str "summary"; str "tip"; str "question"; str "definition"].

(** [CARD_TYPES[card_type_index % len(CARD_TYPES)]] *)
Definition card_type_at (card_type_index : nat) : pystr :=
  default [] (CARD_TYPES !! (card_type_index mod length CARD_TYPES)%nat).

Record Card := {
  card_type : pystr;
  card_title : Json;
  card_content : Json;
  card_example : Json }.

(** [r'^```jso'] followed by [\s*]: what [r'^```json?\s*'] matches when no
    [n] follows. *)
Definition fence_jso_open : Re.regex := Re.Bol :: Re.lits "```jso" ++ [Re.Star Re.space].

(** [re.sub(r'^```json?\s*', '', s)]. The optional [n] is greedy: it is
    taken when it is there, and the rest of the pattern cannot fail. *)
Definition sub_fence_json_opt (s : pystr) : pystr :=
  match Re.match_here Re.fence_json_open true s with
  | Some _ => Re.sub Re.fence_json_open s
  | None => Re.sub fence_jso_open s
  end.

(** The fence removal of the card generator, applied only when the reply
    starts with three backticks. *)
Definition unfence_card_reply (response_text : pystr) : pystr :=
  if is_prefix (str "```") response_text
  then Re.sub Re.fence_close (sub_fence_json_opt response_text)
  else response_text.

Definition card_system_message : pystr :=
  str "You are a learning content creator. Always respond with valid JSON only, no markdown or extra text.".

Section Generate.
Variable json_loads : pystr -> option Json.
(** [prompts[card_type].format(content=content[:2000])] for a known type. *)
Variable card_prompt : pystr -> pystr -> pystr.
(** The reply to the call of attempt [attempt], or its exception. *)
Variable chat : nat -> pystr -> pystr -> result pystr.

(** The [try] block after the call: the card when both fields are there,
    [None] when one is missing. *)
Definition card_of_reply (card_type response : pystr) : result (option Card) :=
  let response_text := unfence_card_reply (strip response) in
  card_data ← MockTest.loads json_loads response_text;
  has_title ← py_in (str "title") card_data;
  has_content ← (if has_title : bool then py_in (str "content") card_data else Ok false);
  if has_content : bool then
    title ← py_getitem card_data (str "title");
    title ← py_prefix title 100;
    content ← py_getitem card_data (str "content");
    content ← py_prefix content 500;
    example ← py_get card_data (str "example") JNull;
    example ← (if py_truthy example
               then e ← py_get card_data (str "example") (JStr []);
                    py_prefix e 300
               else Ok JNull);
    Ok (Some {| card_type := card_type; card_title := title;
                card_content := content; card_example := example |})
  else Ok None.

(** What reading a local variable that no statement has bound yet
    raises. *)
Definition unbound_local_error : exn :=
  OtherError (str "cannot access local variable 'response_text' where it is not associated with a value").

(** [for attempt in range(max_retries)], from [attempt] on with
    [remaining] rounds to go: what the function returns, or the exception
    that leaves it, and the number of calls made. [bound] says that an
    earlier attempt got its reply, so that [response_text] holds a value.
    The handler of [json.JSONDecodeError] prints [response_text]: when the
    call itself raises that exception before any reply came, the handler
    raises in its turn, and nothing in the function catches that. *)
Fixpoint card_attempts (remaining attempt : nat) (max_retries : Z)
    (card_type prompt : pystr) (bound : bool) (calls : nat)
    : result (option Card) * nat :=
  match remaining with
  | O => (Ok None, calls)
  | S remaining' =>
      match chat attempt card_system_message prompt with
      | Ok response =>
          match card_of_reply card_type response with
          | Ok (Some card) => (Ok (Some card), S calls)
          | Ok None =>
              card_attempts remaining' (S attempt) max_retries card_type prompt
                            true (S calls)
          | Raise _ =>
              if (Z.of_nat attempt =? max_retries - 1)%Z then (Ok None, S calls)
              else card_attempts remaining' (S attempt) max_retries card_type
                                 prompt true (S calls)
          end
      | Raise JSONDecodeError =>
          if bound then
            if (Z.of_nat attempt =? max_retries - 1)%Z then (Ok None, S calls)
            else card_attempts remaining' (S attempt) max_retries card_type
                               prompt bound (S calls)
          else (Raise unbound_local_error, S calls)
      | Raise _ =>
          if (Z.of_nat attempt =? max_retries - 1)%Z then (Ok None, S calls)
          else card_attempts remaining' (S attempt) max_retries card_type
                             prompt bound (S calls)
      end
  end.

Definition generate_card_with_llm (card_type content : pystr) (max_retries : Z)
    : result (option Card) * nat :=
  if bool_decide (card_type ∈ CARD_TYPES) then
    let prompt := card_prompt card_type (py_slice content 0 2000) in
    card_attempts (Z.to_nat max_retries) 0 max_retries card_type prompt false 0
  else (Ok None, 0%nat).
End Generate.

Section Endpoint.
Variable exn_str : exn -> pystr.
Variable json_loads : pystr -> option Json.
Variable card_prompt : pystr -> pystr -> pystr.
(** The reply to attempt [attempt] of the card asked for chunk number
    [chunk_index]. *)
Variable chat : nat -> nat -> pystr -> pystr -> result pystr.

(** The [while] loop. [chunk_index] and [attempts] move together, so the
    loop is a walk down the chunks that are left; [calls] counts the calls
    to the model. An exception that leaves [generate_card_with_llm] leaves
    the loop. *)
Fixpoint cards_loop (count max_attempts : Z) (chunks : list pystr)
    (attempts card_type_index : nat) (cards : list Card) (calls : nat)
    : result (list Card) * nat :=
  match chunks with
  | [] => (Ok cards, calls)
  | chunk :: chunks' =>
      if (Z.of_nat (length cards) <? count)%Z && (Z.of_nat attempts <? max_attempts)%Z
      then
        let card_type := card_type_at card_type_index in
        match generate_card_with_llm json_loads card_prompt (chat attempts)
                                     card_type chunk 2 with
        | (Ok (Some card), n) =>
            cards_loop count max_attempts chunks' (S attempts) (S card_type_index)
                       (cards ++ [card]) (calls + n)
        | (Ok None, n) =>
            cards_loop count max_attempts chunks' (S attempts) card_type_index
                       cards (calls + n)
        | (Raise e, n) => (Raise e, calls + n)
        end
      else (Ok cards, calls)
  end.

Record CardsResponse := {
  dr_cards : list Card;
  dr_message : option pystr }.

(** [generate_doomscroll_cards] once the chunks are collected and
    shuffled; [documents] are those of the notebook. The handlers are
    [except HTTPException: raise] and then [except Exception as e: raise
    HTTPException(status_code=500, detail=str(e))]. *)
Definition cards_response (documents : list Document) (all_chunks : list pystr)
    (count : Z) : result CardsResponse * nat :=
  let '(r, calls) :=
    if negb (truthy documents)
    then (Ok {| dr_cards := [];
                dr_message := Some (str "No documents found for this notebook") |},
          0%nat)
    else if negb (truthy all_chunks)
    then (Ok {| dr_cards := [];
                dr_message := Some (str "No content found in documents") |},
          0%nat)
    else
      match cards_loop count (count * 3) all_chunks 0 0 [] 0 with
      | (Raise e, calls) => (Raise e, calls)
      | (Ok cards, calls) =>
          if (length cards =? 0)%nat
          then (Ok {| dr_cards := [];
                      dr_message :=
                        Some (str "Could not generate cards from the content") |},
                calls)
          else (Ok {| dr_cards := cards; dr_message := None |}, calls)
      end in
  (reraise_http_wrap_500 exn_str r, calls).
End Endpoint.

End Cards.

(** ** Notebooks and documents: create, update, delete *)

Module Library.

(** [NotebookCreate]: the defaults of the model are filled in before the
    handler runs. *)
Record NotebookCreate := {
  nc_name : pystr;
  nc_color : pystr;
  nc_icon : pystr }.

Record NotebookUpdate := {
  nu_name : option pystr;
  nu_color : option pystr;
  nu_icon : option pystr }.

(** [{"$set": update_data}] on one record. *)
Definition set_fields (nb : Notebook) (u : NotebookUpdate) : Notebook :=
  {| n__id := n__id nb;
     n_name := default (n_name nb) (nu_name u);
     n_color := match nu_color u with Some c => Some c | None => n_color nb end;
     n_icon := match nu_icon u with Some i => Some i | None => n_icon nb end;
     n_created_at := n_created_at nb;
     n_document_count := n_document_count nb |}.

(** [not update_data]: none of the three fields was given. *)
Definition no_update_data (u : NotebookUpdate) : bool :=
  match nu_name u, nu_color u, nu_icon u with
  | None, None, None => true
  | _, _, _ => false
  end.

(** [update_one({"_id": oid}, {"$set": ...})]: the first record of that
    id is changed. *)
Fixpoint update_first (nbs : list Notebook) (oid : pystr) (u : NotebookUpdate)
    : list Notebook :=
  match nbs with
  | [] => []
  | nb :: nbs' =>
      if pystr_eqb (n__id nb) oid then set_fields nb u :: nbs'
      else nb :: update_first nbs' oid u
  end.

(** [delete_one({"_id": oid})] and [delete_one({"doc_id": doc_id})]: the
    first record that matches goes. *)
Fixpoint delete_first {A} (p : A -> bool) (l : list A) : list A :=
  match l with
  | [] => []
  | x :: l' => if p x then l' else x :: delete_first p l'
  end.

Definition has_id (oid : pystr) (nb : Notebook) : bool := pystr_eqb (n__id nb) oid.

Definition has_doc_id (doc_id : pystr) (d : Document) : bool :=
  bool_decide (d_doc_id d = Some doc_id).

Definition in_notebook (notebook_id : pystr) (d : Document) : bool :=
  bool_decide (d_notebook_id d = Some notebook_id).

(** [documents_collection.find_one({"doc_id": doc_id})] *)
Definition find_by_doc_id (docs : list Document) (doc_id : pystr) : option Document :=
  list_find (fun d => d_doc_id d = Some doc_id) docs ≫= fun p => Some p.2.

(** What [index.delete(filter=...)] removes when the index carries it out:
    the records whose metadata meet the filter. *)
Definition index_delete_where (idx : gmap pystr Vector) (p : VectorMetadata -> bool)
    : gmap pystr Vector :=
  filter (fun kv : pystr * Vector => p (v_metadata kv.2) = false) idx.

Section Endpoints.
Variable exn_str : exn -> pystr.
Variable ObjectId : pystr -> option pystr.
(** [index.delete(filter=...)] as the service answers it: the index after
    the call, or the exception of the client. *)
Variable index_delete :
  gmap pystr Vector -> (VectorMetadata -> bool) -> result (gmap pystr Vector).

(** [try: index.delete(...) except: pass] *)
Definition try_index_delete (idx : gmap pystr Vector) (p : VectorMetadata -> bool)
    : gmap pystr Vector :=
  match index_delete idx p with
  | Ok idx' => idx'
  | Raise _ => idx
  end.

(** [now] is [datetime.now().isoformat()] and [inserted_id] the [_id] that
    [insert_one] gives the record. *)
Definition create_notebook (st : State) (notebook : NotebookCreate)
    (now inserted_id : pystr) : State * result Notebooks.NotebookView :=
  let notebook_data :=
    {| n__id := inserted_id;
       n_name := nc_name notebook;
       n_color := Some (nc_color notebook);
       n_icon := Some (nc_icon notebook);
       n_created_at := now;
       n_document_count := Some 0%Z |} in
  ({| notebooks := notebooks st ++ [notebook_data];
      documents := documents st;
      index := index st;
      disk := disk st;
      quizzes_store := quizzes_store st |},
   wrap_500 exn_str (Ok (Notebooks.notebook_helper notebook_data))).

Definition update_notebook (st : State) (notebook_id : pystr)
    (notebook_update : NotebookUpdate) : State * result Notebooks.NotebookView :=
  let '(st', r) :=
    if no_update_data notebook_update
    then (st, Raise (HTTPException 400 (str "No update data provided")))
    else
      match ObjectId notebook_id with
      | None => (st, Raise InvalidId)
      | Some oid =>
          (* [result.matched_count == 0] *)
          match find_notebook (notebooks st) oid with
          | None => (st, Raise (HTTPException 404 (str "Notebook not found")))
          | Some _ =>
              let st' :=
                {| notebooks := update_first (notebooks st) oid notebook_update;
                   documents := documents st;
                   index := index st;
                   disk := disk st;
                   quizzes_store := quizzes_store st |} in
              match find_notebook (notebooks st') oid with
              | None => (st', Raise TypeError)
              | Some updated_notebook =>
                  let doc_count := count_documents (documents st') notebook_id in
                  (st', Ok (Notebooks.notebook_helper
                              (Notebooks.set_document_count updated_notebook
                                                            doc_count)))
              end
          end
      end in
  (st', wrap_500 exn_str r).

Definition delete_notebook (st : State) (notebook_id : pystr)
    : State * result pystr :=
  let st1 :=
    {| notebooks := notebooks st;
       documents := filter (fun d => d_notebook_id d <> Some notebook_id)
                           (documents st);
       index := try_index_delete (index st)
                  (fun m => pystr_eqb (vm_notebook_id m) notebook_id);
       disk := disk st;
       quizzes_store := quizzes_store st |} in
  let '(st', r) :=
    match ObjectId notebook_id with
    | None => (st1, Raise InvalidId)
    | Some oid =>
        match find_notebook (notebooks st1) oid with
        | None => (st1, Raise (HTTPException 404 (str "Notebook not found")))
        | Some _ =>
            ({| notebooks := delete_first (has_id oid) (notebooks st1);
                documents := documents st1;
                index := index st1;
                disk := disk st1;
                quizzes_store := quizzes_store st1 |},
             Ok (str "Notebook deleted successfully"))
        end
    end in
  (st', wrap_500 exn_str r).

(** A record of the documents collection is written by [upload_pdfs] with
    every key and a string under each. A field without a value ([None]) is
    a key that is not there or one that holds null: [.get] reads both as
    [None], [doc[key]] and [key in doc] tell them apart, and [is_null]
    says which of the two the stored record has. *)
Variable is_null : Document -> pystr -> bool.

(** [doc[key]]: the string, [None] for a null, and a [KeyError] for a
    key that is not there. *)
Definition getitem_field (doc : Document) (key : pystr) (value : option pystr)
    : result (option pystr) :=
  match value with
  | Some v => Ok (Some v)
  | None => if is_null doc key then Ok None else Raise (KeyError key)
  end.

(** [if "file_path" in doc: pdf_path = Path(doc["file_path"]); if
    pdf_path.exists(): pdf_path.unlink()]: [Path(None)] raises a
    [TypeError]. *)
Definition unlink_file_of (doc : Document) (files : gmap pystr pystr)
    : result (gmap pystr pystr) :=
  match d_file_path doc with
  | Some pdf_path =>
      Ok (if bool_decide (is_Some (files !! pdf_path))
          then delete pdf_path files else files)
  | None =>
      if is_null doc (str "file_path") then Raise TypeError else Ok files
  end.

(** [ObjectId(None)] is a new id, which no notebook has: [update_one]
    matches nothing. *)
Definition delete_document (st : State) (doc_id : pystr) : State * result pystr :=
  let '(st', r) :=
    match find_by_doc_id (documents st) doc_id with
    | None => (st, Raise (HTTPException 404 (str "Document not found")))
    | Some doc =>
        match getitem_field doc (str "notebook_id") (d_notebook_id doc) with
        | Raise e => (st, Raise e)
        | Ok notebook_id =>
            match unlink_file_of doc (disk st) with
            | Raise e => (st, Raise e)
            | Ok disk1 =>
                let st1 :=
                  {| notebooks := notebooks st;
                     documents := delete_first (has_doc_id doc_id) (documents st);
                     index := try_index_delete (index st)
                                (fun m => pystr_eqb (vm_doc_id m) doc_id);
                     disk := disk1;
                     quizzes_store := quizzes_store st |} in
                match notebook_id with
                | None => (st1, Ok (str "Document deleted successfully"))
                | Some notebook_id =>
                    match ObjectId notebook_id with
                    | None => (st1, Raise InvalidId)
                    | Some oid =>
                        ({| notebooks :=
                              Upload.inc_document_count (notebooks st1) oid (-1);
                            documents := documents st1;
                            index := index st1;
                            disk := disk st1;
                            quizzes_store := quizzes_store st1 |},
                         Ok (str "Document deleted successfully"))
                    end
                end
            end
        end
    end in
  (st', wrap_500 exn_str r).
End Endpoints.

End Library.

(** ** Virtual interview: [start_interview], [respond_to_interview],
    [end_interview] *)

Module Interview.

(** An entry of [session["messages"]]. *)
Record Message := {
  msg_role : pystr;
  msg_content : pystr;
  msg_timestamp : pystr }.

(** A record of the [interview_sessions] collection. [start_interview]
    writes the first eight fields; [end_interview] sets the last two. *)
Record Session := {
  is_session_id : pystr;
  is_notebook_id : pystr;
  is_interview_type : pystr;
  is_difficulty : pystr;
  is_duration : Z;
  is_messages : list Message;
  is_status : pystr;
  is_created_at : pystr;
  is_score : option Json;
  is_completed_at : option pystr }.

(** A message as the chat model takes it. *)
Record ChatMessage := {
  cm_role : pystr;
  cm_content : pystr }.

Record StartRequest := {
  sr_notebook_id : pystr;
  sr_interview_type : pystr;
  sr_difficulty : pystr;
  sr_duration : Z }.

Record StartResponse := {
  so_session_id : pystr;
  so_initial_message : pystr }.

Record EndResponse := {
  eo_score : Json;
  eo_strengths : Json;
  eo_improvements : Json;
  eo_recommendations : Json }.

(** [interview_sessions_collection.find_one({"session_id": session_id})] *)
Definition find_session (sessions : list Session) (session_id : pystr)
    : option Session :=
  list_find (fun s => is_session_id s = session_id) sessions ≫= fun p => Some p.2.

(** [update_one({"session_id": session_id}, {"$set": ...})]: the first
    record of that id is changed. *)
Fixpoint update_session (sessions : list Session) (session_id : pystr)
    (f : Session -> Session) : list Session :=
  match sessions with
  | [] => []
  | s :: sessions' =>
      if pystr_eqb (is_session_id s) session_id then f s :: sessions'
      else s :: update_session sessions' session_id f
  end.

Definition set_messages (messages : list Message) (s : Session) : Session :=
  {| is_session_id := is_session_id s;
     is_notebook_id := is_notebook_id s;
     is_interview_type := is_interview_type s;
     is_difficulty := is_difficulty s;
     is_duration := is_duration s;
     is_messages := messages;
     is_status := is_status s;
     is_created_at := is_created_at s;
     is_score := is_score s;
     is_completed_at := is_completed_at s |}.

Definition set_completed (scoring_data : Json) (completed_at : pystr) (s : Session)
    : Session :=
  {| is_session_id := is_session_id s;
     is_notebook_id := is_notebook_id s;
     is_interview_type := is_interview_type s;
     is_difficulty := is_difficulty s;
     is_duration := is_duration s;
     is_messages := is_messages s;
     is_status := str "completed";
     is_created_at := is_created_at s;
     is_score := Some scoring_data;
     is_completed_at := Some completed_at |}.

(** The prompts of [start_interview]. *)
Definition start_context_prompt (interview_type : pystr) : pystr :=
  if pystr_eqb interview_type (str "technical")
  then str "You are conducting a technical interview. Focus on coding, algorithms, data structures, and technical problem-solving."
  else if pystr_eqb interview_type (str "behavioral")
  then str "You are conducting a behavioral interview. Focus on past experiences, teamwork, leadership, and soft skills."
  else str "You are conducting a comprehensive interview covering both technical skills and behavioral aspects.".

Definition difficulty_desc (difficulty : pystr) : pystr :=
  if pystr_eqb difficulty (str "easy")
  then str "Ask entry-level questions suitable for beginners."
  else if pystr_eqb difficulty (str "medium")
  then str "Ask intermediate-level questions for experienced candidates."
  else if pystr_eqb difficulty (str "hard")
  then str "Ask advanced questions for senior-level positions."
  else [].

Definition start_system_prompt (request : StartRequest) : pystr :=
  str "You are an AI interviewer for a job interview simulation. "
  ++ start_context_prompt (sr_interview_type request) ++ LF
  ++ difficulty_desc (sr_difficulty request) ++ LF
  ++ LF
  ++ str "Guidelines:" ++ LF
  ++ str "1. Be professional and friendly" ++ LF
  ++ str "2. Ask one question at a time" ++ LF
  ++ str "3. Listen to the candidate's response and ask relevant follow-up questions" ++ LF
  ++ str "4. The interview will last approximately "
  ++ py_str_int (sr_duration request) ++ str " minutes" ++ LF
  ++ str "5. Start with an introduction and ask the first question" ++ LF
  ++ str "6. Keep questions concise and clear" ++ LF
  ++ str "7. Adapt your questions based on the candidate's responses" ++ LF
  ++ LF
  ++ str "Start the interview with a friendly introduction and ask your first question.".

(** The prompts of [respond_to_interview]. *)
Definition respond_context_prompt (interview_type : pystr) : pystr :=
  if pystr_eqb interview_type (str "technical")
  then str "You are conducting a technical interview. Focus on coding, algorithms, and problem-solving."
  else if pystr_eqb interview_type (str "behavioral")
  then str "You are conducting a behavioral interview. Focus on experiences and soft skills."
  else str "You are conducting a comprehensive interview.".

Definition respond_system_prompt (interview_type : pystr) : pystr :=
  respond_context_prompt interview_type ++ LF
  ++ str "Continue the interview by:" ++ LF
  ++ str "1. Acknowledging the candidate's response briefly" ++ LF
  ++ str "2. Asking a relevant follow-up question or moving to a new topic" ++ LF
  ++ str "3. Keep your response concise (2-3 sentences max)" ++ LF
  ++ str "4. Be professional and encouraging".

(** A stored message as it is sent back to the model. *)
Definition chat_message_of (msg : Message) : ChatMessage :=
  {| cm_role := if pystr_eqb (msg_role msg) (str "interviewer")
                then str "assistant" else str "user";
     cm_content := msg_content msg |}.

(** [conversation_messages]: the system prompt, then the last eight of
    [messages]. *)
Definition conversation_messages (interview_type : pystr) (messages : list Message)
    : list ChatMessage :=
  {| cm_role := str "system"; cm_content := respond_system_prompt interview_type |}
  :: (chat_message_of <$> py_slice messages (-8) (Z.of_nat (length messages))).

(** A line of the transcript that [end_interview] sends. *)
Definition transcript_line (msg : Message) : pystr :=
  (if pystr_eqb (msg_role msg) (str "interviewer")
   then str "Interviewer" else str "Candidate")
  ++ str ": " ++ msg_content msg.

Definition transcript_text (messages : list Message) : pystr :=
  QuizApi.join (LF ++ LF) (transcript_line <$> messages).

Definition strings (l : list string) : Json := JList ((fun s => JStr (str s)) <$> l).

(** The scoring used when the reply holds no [{...}]. *)
Definition fallback_scoring : Json :=
  JDict [ (str "overall_score", JInt 75);
          (str "communication_score", JInt 75);
          (str "technical_score", JInt 70);
          (str "problem_solving_score", JInt 75);
          (str "strengths",
           strings ["Participated actively"; "Showed engagement";
                    "Attempted all questions"]);
          (str "improvements",
           strings ["Practice more technical concepts";
                    "Provide more detailed examples"; "Work on time management"]);
          (str "recommendations",
           strings ["Study common interview questions"; "Practice mock interviews";
                    "Review fundamental concepts"]) ].

Section Endpoints.
Variable exn_str : exn -> pystr.
Variable json_loads : pystr -> option Json.
(** [groq_client.chat.completions.create(...).choices[0].message.content]:
    the reply to a list of messages, or the exception of the client. *)
Variable chat : list ChatMessage -> result pystr.
(** The scoring prompt of [end_interview] around its three fields. *)
Variable scoring_prompt : pystr -> pystr -> pystr -> pystr.

(** [session_id] is [str(uuid.uuid4())]; [now1] and [now2] are the two
    readings of [datetime.utcnow()]. *)
Definition start_interview (sessions : list Session) (request : StartRequest)
    (session_id now1 now2 : pystr) : list Session * result StartResponse :=
  let '(sessions', r) :=
    match chat [ {| cm_role := str "system";
                    cm_content := start_system_prompt request |} ] with
    | Raise e => (sessions, Raise e)
    | Ok initial_message =>
        let session_data :=
          {| is_session_id := session_id;
             is_notebook_id := sr_notebook_id request;
             is_interview_type := sr_interview_type request;
             is_difficulty := sr_difficulty request;
             is_duration := sr_duration request;
             is_messages := [ {| msg_role := str "interviewer";
                                 msg_content := initial_message;
                                 msg_timestamp := now1 |} ];
             is_status := str "active";
             is_created_at := now2;
             is_score := None;
             is_completed_at := None |} in
        (sessions ++ [session_data],
         Ok {| so_session_id := session_id;
               so_initial_message := initial_message |})
    end in
  (sessions', wrap_500 exn_str r).

Definition respond_to_interview (sessions : list Session)
    (session_id user_response now1 now2 : pystr)
    : list Session * result pystr :=
  let '(sessions', r) :=
    match find_session sessions session_id with
    | None => (sessions, Raise (HTTPException 404 (str "Interview session not found")))
    | Some session =>
        let messages :=
          is_messages session
          ++ [ {| msg_role := str "user"; msg_content := user_response;
                  msg_timestamp := now1 |} ] in
        match chat (conversation_messages (is_interview_type session) messages) with
        | Raise e => (sessions, Raise e)
        | Ok next_question =>
            let messages :=
              messages
              ++ [ {| msg_role := str "interviewer"; msg_content := next_question;
                      msg_timestamp := now2 |} ] in
            (update_session sessions session_id (set_messages messages),
             Ok next_question)
        end
    end in
  (sessions', reraise_http_wrap_500 exn_str r).

Definition end_interview (sessions : list Session) (session_id now : pystr)
    : list Session * result EndResponse :=
  let '(sessions', r) :=
    match find_session sessions session_id with
    | None => (sessions, Raise (HTTPException 404 (str "Interview session not found")))
    | Some session =>
        let prompt :=
          scoring_prompt (is_interview_type session) (is_difficulty session)
                         (transcript_text (is_messages session)) in
        match chat [ {| cm_role := str "user"; cm_content := prompt |} ] with
        | Raise e => (sessions, Raise e)
        | Ok scoring_text =>
            match (match scoring_json_text scoring_text with
                   | Some text => MockTest.loads json_loads text
                   | None => Ok fallback_scoring
                   end) with
            | Raise e => (sessions, Raise e)
            | Ok scoring_data =>
                let sessions' :=
                  update_session sessions session_id
                                 (set_completed scoring_data now) in
                (sessions',
                 strengths ← py_get scoring_data (str "strengths") (JList []);
                 improvements ← py_get scoring_data (str "improvements") (JList []);
                 recommendations ←
                   py_get scoring_data (str "recommendations") (JList []);
                 Ok {| eo_score := scoring_data;
                       eo_strengths := strengths;
                       eo_improvements := improvements;
                       eo_recommendations := recommendations |})
            end
        end
    end in
  (sessions', reraise_http_wrap_500 exn_str r).
End Endpoints.

End Interview.

(** ** Text of a PDF: [extract_text_from_pdf] and
    processors/pdf_processor.py *)

Module PdfText.

(** What [PyPDF2.PdfReader] gives: the text of each page as
    [page.extract_text()] returns it, and the document information
    ([reader.metadata]), which may be missing. *)
Record Pdf := {
  pdf_pages : list pystr;
  pdf_metadata : option (list (pystr * Json)) }.

Section Reader.
(** [PyPDF2.PdfReader(f)] with its pages read: the document, or the
    exception of the library. *)
Variable PdfReader : pystr -> result Pdf.

(** main.py: the texts of the pages, one after the other. *)
Definition extract_text_from_pdf (pdf_file : pystr) : result pystr :=
  pdf_reader ← PdfReader pdf_file;
  Ok (foldl (fun text page_text => text ++ page_text) [] (pdf_pages pdf_reader)).

(** [PDFProcessor.extract_text]: a page without text is left out, a line
    feed follows every other page, and the whole is stripped. *)
Definition extract_text (file_path_or_content : pystr) : result pystr :=
  pdf_reader ← PdfReader file_path_or_content;
  Ok (strip (foldl (fun text page_text =>
                      if truthy page_text then text ++ page_text ++ LF else text)
                   [] (pdf_pages pdf_reader))).

Definition get_file_type : pystr := str "pdf".

(** [if info.get(key): metadata[name] = info.get(key)] *)
Definition copy_info (info : list (pystr * Json)) (key name : string)
    (metadata : list (pystr * Json)) : list (pystr * Json) :=
  match dict_lookup (str key) info with
  | Some v => if py_truthy v then metadata ++ [(str name, v)] else metadata
  | None => metadata
  end.

(** [PDFProcessor.get_metadata]: a dict, as its items in insertion
    order. [exn_str] is [str(e)]. *)
Definition get_metadata (exn_str : exn -> pystr) (file_path_or_content : pystr)
    : list (pystr * Json) :=
  match PdfReader file_path_or_content with
  | Ok pdf_reader =>
      let metadata :=
        [ (str "num_pages", JInt (Z.of_nat (length (pdf_pages pdf_reader))));
          (str "file_type", JStr (str "pdf")) ] in
      match pdf_metadata pdf_reader with
      | Some info =>
          if truthy info then
            copy_info info "/Subject" "subject"
              (copy_info info "/Author" "author"
                 (copy_info info "/Title" "title" metadata))
          else metadata
      | None => metadata
      end
  | Raise e => [ (str "file_type", JStr (str "pdf")); (str "error", JStr (exn_str e)) ]
  end.
End Reader.

End PdfText.

(** ** The chunk cache against a collection that stores *)

(** [{"$set": {"chunks": chunks, "chunks_count": len(chunks)}}] on one
    record. *)
Definition with_chunks (d : Document) (chunks : list pystr) : Document :=
  {| d__id := d__id d;
     d_doc_id := d_doc_id d;
     d_notebook_id := d_notebook_id d;
     d_filename := d_filename d;
     d_uploaded_at := d_uploaded_at d;
     d_chunks_count := Some (length chunks);
     d_chunks := Some chunks;
     d_file_path := d_file_path d |}.

(** [update_one({"_id": _id}, ...)] when the driver carries it out: the
    first record of that [_id] is changed. *)
Fixpoint set_chunks (docs : list Document) (_id : pystr) (chunks : list pystr)
    : list Document :=
  match docs with
  | [] => []
  | d :: docs' =>
      if bool_decide (d__id d = Some _id)
      then with_chunks d chunks :: docs'
      else d :: set_chunks docs' _id chunks
  end.

Definition update_one_ok (docs : list Document) (_id : pystr) (chunks : list pystr)
    : result (list Document) := Ok (set_chunks docs _id chunks).

(** [documents_collection.find_one({"_id": _id})] *)
Definition find_document (docs : list Document) (_id : pystr) : option Document :=
  list_find (fun d => d__id d = Some _id) docs ≫= fun p => Some p.2.

(** ** The batches of an upload *)

(** [vectors[i:i + batch_size]] for the starts of [range(0, len(vectors),
    batch_size)]. *)
Definition batches (vectors : list Vector) : list (list Vector) :=
  (fun i => py_slice vectors (Z.of_nat i) (Z.of_nat i + Upload.batch_size))
  <$> Upload.batch_starts (length vectors).

(** ** Blank text *)

(** A string of whitespace only, the empty one included. *)
Fixpoint all_space (s : pystr) : bool :=
  match s with
  | [] => true
  | a :: s' => py_isspace a && all_space s'
  end.

(** The pages that hold text, each followed by a line feed. *)
Definition with_line_feeds (pages : list pystr) : pystr :=
  concat ((fun page_text => page_text ++ LF) <$> filter (fun p => p <> []) pages).

(** ** Further stores and collaborators for the examples *)

Module Scenarios.

Definition example_text_file : Upload.UploadFile :=
  {| Upload.uf_filename := str "notes.txt"; Upload.uf_content := str "plain text" |}.

(** A disk on which every path exists, and an extractor that reads the
    same sentence from every file. *)
Definition file_present (p : pystr) : bool := true.
Definition reads_text (p : pystr) : result pystr :=
  Ok (str "Binary search halves the range.").

(** A stored quiz question, with its answer and explanation. *)
Definition example_quiz_question : Json :=
  JDict [ (str "question", JStr (str "What does binary search halve?"));
          (str "options", JList [JStr (str "The range"); JStr (str "The key")]);
          (str "correct_answer", JInt 0);
          (str "explanation", JStr (str "Each probe discards half of the range.")) ].

(** Stored records in which no key holds null. *)
Definition no_null_field (doc : Document) (key : pystr) : bool := false.

(** An index that carries out every deletion by filter. *)
Definition index_delete_ok (idx : gmap pystr Vector) (p : VectorMetadata -> bool)
    : result (gmap pystr Vector) := Ok (Library.index_delete_where idx p).

Definition example_create : Library.NotebookCreate :=
  {| Library.nc_name := str "Graphs";
     Library.nc_color := str "#2f5bea";
     Library.nc_icon := str "G" |}.

Definition other_notebook_id : pystr := str "65f0c0ffee65f0c0ffee0002".

Definition rename_only : Library.NotebookUpdate :=
  {| Library.nu_name := Some (str "Graphs");
     Library.nu_color := None;
     Library.nu_icon := None |}.

(** An interview after its opening question, and a model that always
    answers with the same sentence, in which there is no brace. *)
Definition example_session : Interview.Session :=
  {| Interview.is_session_id := str "s1";
     Interview.is_notebook_id := Examples.example_notebook_id;
     Interview.is_interview_type := str "technical";
     Interview.is_difficulty := str "easy";
     Interview.is_duration := 30;
     Interview.is_messages :=
       [ {| Interview.msg_role := str "interviewer";
            Interview.msg_content := str "What is a hash map?";
            Interview.msg_timestamp := str "2024-03-01 10:00:00" |} ];
     Interview.is_status := str "active";
     Interview.is_created_at := str "2024-03-01 10:00:00";
     Interview.is_score := None;
     Interview.is_completed_at := None |}.

Definition example_chat (messages : list Interview.ChatMessage) : result pystr :=
  Ok (str "Tell me more about that.").

Definition example_scoring_prompt (interview_type difficulty transcript : pystr)
    : pystr := transcript.

Definition example_start : Interview.StartRequest :=
  {| Interview.sr_notebook_id := Examples.example_notebook_id;
     Interview.sr_interview_type := str "technical";
     Interview.sr_difficulty := str "easy";
     Interview.sr_duration := 30 |}.

(** A reader that finds three pages in every file: the second one holds
    no text. *)
Definition example_pdf_reader (pdf_file : pystr) : result PdfText.Pdf :=
  Ok {| PdfText.pdf_pages := [str " Binary search"; []; str "halves the range. "];
        PdfText.pdf_metadata := None |}.

(** The reply of a model that writes the example question as a JSON
    array, and a decoder that reads it. *)
Definition example_quiz_reply : pystr :=
  str "[{" ++ DQ ++ str "question" ++ DQ ++ str ": "
    ++ DQ ++ str "What does binary search halve?" ++ DQ ++ str ", "
    ++ DQ ++ str "options" ++ DQ ++ str ": ["
    ++ DQ ++ str "The range" ++ DQ ++ str ", " ++ DQ ++ str "The key" ++ DQ
    ++ str "], " ++ DQ ++ str "correct_answer" ++ DQ ++ str ": 0, "
    ++ DQ ++ str "explanation" ++ DQ ++ str ": "
    ++ DQ ++ str "Each probe discards half of the range." ++ DQ ++ str "}]".

Definition quiz_json_loads (s : pystr) : option Json :=
  if pystr_eqb s example_quiz_reply then Some (JList [example_quiz_question])
  else None.

Definition quiz_context_prompt (num_questions : Z) (difficulty context : pystr)
    : pystr := context.

Definition quiz_model (system_message prompt : pystr) : result pystr :=
  Ok example_quiz_reply.

Definition grade_nothing (quiz : Quiz) (request : QuizApi.QuizSubmitRequest)
    : result Json := Ok JNull.

(** The reply of a model that writes a card without an example, and a
    decoder that reads it. *)
Definition example_card_reply : pystr :=
  str "{" ++ DQ ++ str "title" ++ DQ ++ str ": " ++ DQ ++ str "Did you know?" ++ DQ
    ++ str ", " ++ DQ ++ str "content" ++ DQ ++ str ": "
    ++ DQ ++ str "Binary search halves the range." ++ DQ ++ str "}".

Definition card_json_loads (s : pystr) : option Json :=
  if pystr_eqb s example_card_reply
  then Some (JDict [ (str "title", JStr (str "Did you know?"));
                     (str "content", JStr (str "Binary search halves the range.")) ])
  else None.

Definition card_content_prompt (card_type content : pystr) : pystr := content.

Definition card_model (attempt : nat) (system_message prompt : pystr)
    : result pystr := Ok example_card_reply.

End Scenarios.

(** * Properties of the embedding *)

Section ChunkerFacts.
Import Chunker.
Local Open Scope Z_scope.

Lemma slice_index_nonneg (len i : Z) : 0 <= i -> slice_index len i = Z.min i len.
Proof. intros H. unfold slice_index. destruct (Z.ltb_spec i 0); [lia | done]. Qed.

Lemma py_slice_nonneg {A} (l : list A) (a b : Z) :
  0 <= a -> 0 <= b ->
  py_slice l a b =
  take (Z.to_nat (Z.min b (Z.of_nat (length l)) - Z.min a (Z.of_nat (length l))))
       (drop (Z.to_nat (Z.min a (Z.of_nat (length l)))) l).
Proof. intros Ha Hb. unfold py_slice. by rewrite !slice_index_nonneg. Qed.

Lemma py_slice_inside {A} (l : list A) (a b : Z) :
  0 <= a <= Z.of_nat (length l) -> a <= b ->
  py_slice l a b = take (Z.to_nat (b - a)) (drop (Z.to_nat a) l).
Proof.
  intros Ha Hb. rewrite py_slice_nonneg by lia.
  rewrite Z.min_l with (n := a) by lia.
  destruct (Z.le_gt_cases b (Z.of_nat (length l))).
  - by rewrite Z.min_l by lia.
  - rewrite Z.min_r by lia. rewrite !take_ge; [done | |];
      rewrite length_drop; lia.
Qed.

Lemma length_py_slice_inside {A} (l : list A) (a b : Z) :
  0 <= a <= Z.of_nat (length l) -> a <= b ->
  Z.of_nat (length (py_slice l a b)) = Z.min (b - a) (Z.of_nat (length l) - a).
Proof.
  intros Ha Hb. rewrite py_slice_inside by done.
  rewrite length_take, length_drop. lia.
Qed.

Lemma rounds_lt (len stride : Z) (k : nat) :
  0 < stride -> 0 <= len ->
  (k < rounds len stride)%nat <-> Z.of_nat k * stride < len.
Proof.
  intros Hs Hl. unfold rounds.
  assert (Hq : 0 <= (len + stride - 1) / stride) by (apply Z.div_pos; lia).
  pose proof (Z.div_mod (len + stride - 1) stride ltac:(lia)) as Hdm.
  pose proof (Z.mod_pos_bound (len + stride - 1) stride Hs) as Hmb.
  split; intros H.
  - assert (Z.of_nat k < (len + stride - 1) / stride) by lia. nia.
  - assert (Z.of_nat k < (len + stride - 1) / stride) by nia. lia.
Qed.

Lemma rounds_le_len (len stride : Z) :
  0 < stride -> 0 <= len -> (rounds len stride <= Z.to_nat len)%nat.
Proof.
  intros Hs Hl.
  destruct (decide (rounds len stride = 0%nat)) as [->|Hne]; [lia|].
  assert (H : (pred (rounds len stride) < rounds len stride)%nat) by lia.
  apply rounds_lt in H; [|done..]. nia.
Qed.

Section Loop.
Context (text : pystr) (chunk_size overlap : Z).
Hypothesis Hstride : overlap < chunk_size.
Let stride := chunk_size - overlap.
Let len := Z.of_nat (length text).

Lemma chunk_loop_run (m : nat) : forall (k fuel : nat) (chunks : list pystr),
  (k + m = rounds len stride)%nat -> (m < fuel)%nat ->
  chunk_loop fuel text chunk_size overlap (Z.of_nat k * stride) chunks
  = Some (chunks ++ map (window text chunk_size overlap) (seq k m)).
Proof.
  induction m as [|m IH]; intros k fuel chunks Hk Hf;
    (destruct fuel as [|fuel]; [lia|]); simpl.
  - assert (~ Z.of_nat k * stride < len) as Hn.
    { rewrite <- rounds_lt by (subst stride len; lia). lia. }
    destruct (Z.ltb_spec (Z.of_nat k * stride) (Z.of_nat (length text))); [subst len; lia|].
    by rewrite app_nil_r.
  - assert (Z.of_nat k * stride < len) as Hn.
    { rewrite <- rounds_lt by (subst stride len; lia). lia. }
    destruct (Z.ltb_spec (Z.of_nat k * stride) (Z.of_nat (length text))); [|subst len; lia].
    replace (Z.of_nat k * stride + (chunk_size - overlap))
      with (Z.of_nat (S k) * stride) by (subst stride; lia).
    rewrite IH by lia. rewrite <- app_assoc. done.
Qed.

Lemma loop_state_run (n : nat) : forall (k : nat) (chunks : list pystr),
  (k + n <= rounds len stride)%nat ->
  loop_state n text chunk_size overlap (Z.of_nat k * stride) chunks
  = Some (Z.of_nat (k + n) * stride,
          chunks ++ map (window text chunk_size overlap) (seq k n)).
Proof.
  induction n as [|n IH]; intros k chunks Hk; simpl.
  - by rewrite Nat.add_0_r, app_nil_r.
  - assert (Z.of_nat k * stride < len) as Hn.
    { rewrite <- rounds_lt by (subst stride len; lia). lia. }
    destruct (Z.ltb_spec (Z.of_nat k * stride) (Z.of_nat (length text))); [|subst len; lia].
    replace (Z.of_nat k * stride + (chunk_size - overlap))
      with (Z.of_nat (S k) * stride) by (subst stride; lia).
    rewrite IH by lia. rewrite <- app_assoc.
    do 3 f_equal. lia.
Qed.
End Loop.

Section Windows.
Context {A : Type} (text : list A) (chunk_size overlap : Z).
Hypothesis Hov : 0 <= overlap < chunk_size.
Let stride := chunk_size - overlap.
Let len := Z.of_nat (length text).

Lemma window_inside (k : nat) :
  Z.of_nat k * stride < len ->
  window text chunk_size overlap k
  = take (Z.to_nat chunk_size) (drop (Z.to_nat (Z.of_nat k * stride)) text).
Proof.
  intros Hk. unfold window. fold stride.
  rewrite py_slice_inside by (fold len; nia).
  do 2 f_equal. lia.
Qed.

Lemma length_window (k : nat) :
  Z.of_nat k * stride < len ->
  Z.of_nat (length (window text chunk_size overlap k))
  = Z.min chunk_size (len - Z.of_nat k * stride).
Proof.
  intros Hk. rewrite window_inside by done.
  rewrite length_take, length_drop. subst len. nia.
Qed.

Lemma reassemble_prefix (i : nat) :
  Z.of_nat i * stride < len ->
  window text chunk_size overlap 0
    ++ concat (map (drop (Z.to_nat overlap))
                   (map (window text chunk_size overlap) (seq 1 i)))
  = take (Z.to_nat (Z.of_nat i * stride + chunk_size)) text.
Proof.
  induction i as [|i IH]; intros Hi.
  - rewrite window_inside by done. simpl. rewrite app_nil_r.
    by rewrite Z.add_0_l.
  - rewrite seq_S, !map_app, concat_app, app_assoc, IH by nia.
    simpl. rewrite app_nil_r, window_inside by done.
    rewrite skipn_firstn_comm, drop_drop.
    replace (Z.to_nat (Z.of_nat (S i) * stride) + Z.to_nat overlap)%nat
      with (Z.to_nat (Z.of_nat i * stride + chunk_size)) by (subst stride; nia).
    rewrite take_take_drop. f_equal. subst stride. nia.
Qed.

Lemma reassemble_windows :
  reassemble overlap
    (map (window text chunk_size overlap) (seq 0 (rounds len stride))) = text.
Proof.
  destruct (rounds len stride) as [|m] eqn:Hm.
  - simpl. destruct text as [|c t]; [done|].
    assert (H : ~ (0 < rounds len stride)%nat) by lia.
    rewrite rounds_lt in H by (subst stride len; lia).
    subst len. simpl length in H. lia.
  - assert (Hlt : (m < rounds len stride)%nat) by lia.
    apply rounds_lt in Hlt; [|subst stride len; lia..].
    assert (Hge : ~ (S m < rounds len stride)%nat) by lia.
    rewrite rounds_lt in Hge by (subst stride len; lia).
    change (seq 0 (S m)) with (0%nat :: seq 1 m). cbn [map reassemble].
    rewrite reassemble_prefix by done.
    apply take_ge. subst stride len. nia.
Qed.
End Windows.

Lemma chunk_loop_stuck (fuel : nat) : forall chunks,
  chunk_loop fuel (str "a") 1 1 0 chunks = None.
Proof. induction fuel as [|fuel IH]; intros chunks; [done|]. simpl. apply IH. Qed.

(** C1 does not hold as stated: [chunk_text] has no test on its sizes. With
    [overlap = chunk_size = 1] the start offset never moves, and on the
    text "a" the loop test is true after any number of rounds; on the
    empty text the same sizes return an empty list, and nothing is raised. *)
Lemma chunk_text_no_rejection :
  (1 >= 1) /\
  (forall fuel, chunk_text fuel (str "a") 1 1 = None) /\
  chunk_text 1 [] 1 1 = Some [].
Proof.
  split; [lia|]. split; [|done].
  intros fuel. apply chunk_loop_stuck.
Qed.

(** C1, amended: for every text and every pair of sizes with
    [overlap < chunk_size], [chunk_text] returns; the fuel [len(text) + 1]
    is always enough; each round moves the start offset by
    [chunk_size - overlap > 0], so that after [k] rounds it stands at
    [k * (chunk_size - overlap)] with the first [k] chunks collected; the
    empty text gives the empty list, and it does so for every pair of
    sizes, [overlap >= chunk_size] included, after one test of the loop. *)
Theorem chunk_text_terminates (text : pystr) (chunk_size overlap : Z) :
  overlap < chunk_size ->
  exists chunks,
    (forall fuel,
       (rounds (Z.of_nat (length text)) (chunk_size - overlap) < fuel)%nat ->
       chunk_text fuel text chunk_size overlap = Some chunks) /\
    chunk_text (S (length text)) text chunk_size overlap = Some chunks /\
    0 < chunk_size - overlap /\
    (forall k,
       (k <= rounds (Z.of_nat (length text)) (chunk_size - overlap))%nat ->
       loop_state k text chunk_size overlap 0 []
       = Some (Z.of_nat k * (chunk_size - overlap), take k chunks)) /\
    (text = [] -> chunks = []) /\
    (forall (any_size any_overlap : Z) (fuel : nat),
       chunk_text (S fuel) [] any_size any_overlap = Some []).
Proof.
  intros Hlt.
  set (n := rounds (Z.of_nat (length text)) (chunk_size - overlap)).
  exists (map (window text chunk_size overlap) (seq 0 n)).
  assert (Hrun : forall fuel, (n < fuel)%nat ->
    chunk_text fuel text chunk_size overlap
    = Some (map (window text chunk_size overlap) (seq 0 n))).
  { intros fuel Hf. unfold chunk_text.
    change 0 with (Z.of_nat 0 * (chunk_size - overlap)).
    by rewrite (chunk_loop_run text chunk_size overlap Hlt n 0 fuel []). }
  split; [done|]. split.
  - apply Hrun. subst n.
    pose proof (rounds_le_len (Z.of_nat (length text)) (chunk_size - overlap)).
    lia.
  - split; [lia|]. split; [|split].
    + intros k Hk.
      change 0 with (Z.of_nat 0 * (chunk_size - overlap)) at 1.
      rewrite (loop_state_run text chunk_size overlap Hlt k 0 []) by (fold n; lia).
      simpl. do 2 f_equal.
      rewrite <- fmap_take. f_equal. rewrite take_seq. f_equal. lia.
    + intros ->. subst n. unfold rounds. cbn [length Z.of_nat].
      rewrite Z.div_small by lia. reflexivity.
    + reflexivity.
Qed.

(** The sizes 3 and 1 on the text "hello". *)
Lemma chunk_text_terminates_witness :
  1 < 3 /\
  exists chunks,
    (forall fuel,
       (rounds (Z.of_nat (length (str "hello"))) (3 - 1) < fuel)%nat ->
       chunk_text fuel (str "hello") 3 1 = Some chunks) /\
    chunk_text (S (length (str "hello"))) (str "hello") 3 1 = Some chunks /\
    0 < 3 - 1 /\
    (forall k,
       (k <= rounds (Z.of_nat (length (str "hello"))) (3 - 1))%nat ->
       loop_state k (str "hello") 3 1 0 []
       = Some (Z.of_nat k * (3 - 1), take k chunks)) /\
    (str "hello" = [] -> chunks = []) /\
    (forall (any_size any_overlap : Z) (fuel : nat),
       chunk_text (S fuel) [] any_size any_overlap = Some []).
Proof.
  split; [lia|]. apply (chunk_text_terminates (str "hello") 3 1). lia.
Defined.

Example chunk_text_hello :
  chunk_text 6 (str "hello") 3 1 = Some [str "hel"; str "llo"; str "o"].
Proof. reflexivity. Qed.

Lemma lookup_windows (text : pystr) (chunk_size overlap : Z) (n i : nat) (c : pystr) :
  map (window text chunk_size overlap) (seq 0 n) !! i = Some c ->
  (i < n)%nat /\ c = window text chunk_size overlap i.
Proof.
  intros H. change (map ?f ?l) with (f <$> l) in H.
  rewrite list_lookup_fmap in H.
  destruct (seq 0 n !! i) as [j|] eqn:Hj; [|done].
  apply lookup_seq in Hj as [-> ?]. simpl in H. by inversion H.
Qed.

(** C5 does not hold as stated: with sizes 3 and 2 the text "abcde" gives
    five chunks, and the fourth, which is not the last, has 2 characters. *)
Lemma chunk_text_short_middle :
  2 < 3 /\
  chunk_text 6 (str "abcde") 3 2
    = Some [str "abc"; str "bcd"; str "cde"; str "de"; str "e"] /\
  [str "abc"; str "bcd"; str "cde"; str "de"; str "e"] !! 3%nat = Some (str "de") /\
  (3 < length [str "abc"; str "bcd"; str "cde"; str "de"; str "e"] - 1)%nat /\
  length (str "de") <> 3%nat.
Proof.
  split; [lia|]. split; [reflexivity|]. split; [reflexivity|].
  split; [simpl; lia|]. simpl. lia.
Qed.

(** C5, amended: for every text and sizes with
    [0 <= overlap < chunk_size], [chunk_text] returns the windows that
    start at the successive multiples of [chunk_size - overlap] below
    [len(text)]; the first window followed by every later one without its
    first [overlap] characters is the text; chunk [i] has
    [min(chunk_size, len(text) - i * (chunk_size - overlap))] characters,
    at least one, and exactly [chunk_size] when its window fits in the
    text; the last chunk, of index [k], has
    [len(text) - k * (chunk_size - overlap)] characters. *)
Theorem chunk_text_windows (text : pystr) (chunk_size overlap : Z) :
  0 <= overlap < chunk_size ->
  exists chunks,
    chunk_text (S (length text)) text chunk_size overlap = Some chunks /\
    chunks = map (window text chunk_size overlap)
                 (seq 0 (rounds (Z.of_nat (length text)) (chunk_size - overlap))) /\
    reassemble overlap chunks = text /\
    (forall (i : nat) (c : pystr), chunks !! i = Some c ->
       Z.of_nat i * (chunk_size - overlap) < Z.of_nat (length text) /\
       Z.of_nat (length c)
       = Z.min chunk_size
               (Z.of_nat (length text) - Z.of_nat i * (chunk_size - overlap)) /\
       0 < Z.of_nat (length c)) /\
    (forall (i : nat) (c : pystr), chunks !! i = Some c ->
       Z.of_nat i * (chunk_size - overlap) + chunk_size <= Z.of_nat (length text) ->
       Z.of_nat (length c) = chunk_size) /\
    (forall c : pystr, last chunks = Some c ->
       Z.of_nat (length c)
       = Z.of_nat (length text)
         - Z.of_nat (length chunks - 1) * (chunk_size - overlap) /\
       0 < Z.of_nat (length c)).
Proof.
  intros Hov.
  set (len := Z.of_nat (length text)). set (stride := chunk_size - overlap).
  set (n := rounds len stride).
  exists (map (window text chunk_size overlap) (seq 0 n)).
  assert (Hlook : forall (i : nat) (c : pystr),
    map (window text chunk_size overlap) (seq 0 n) !! i = Some c ->
    (i < n)%nat /\ Z.of_nat i * stride < len /\
    Z.of_nat (length c) = Z.min chunk_size (len - Z.of_nat i * stride)).
  { intros i c Hc. apply lookup_windows in Hc as [Hi ->].
    assert (Z.of_nat i * stride < len)
      by (apply rounds_lt; subst stride len n; lia).
    repeat split; [done..|]. by apply length_window. }
  split; [|split; [done|split; [|split; [|split]]]].
  - unfold chunk_text. change 0 with (Z.of_nat 0 * (chunk_size - overlap)).
    rewrite (chunk_loop_run text chunk_size overlap ltac:(lia) n 0 _ []); [done..|].
    pose proof (rounds_le_len len stride). subst n len stride. lia.
  - by apply reassemble_windows.
  - intros i c Hc. apply Hlook in Hc as (_ & ? & ?). lia.
  - intros i c Hc Hfit. apply Hlook in Hc as (_ & ? & ?). lia.
  - intros c Hc. rewrite last_lookup in Hc.
    rewrite length_map, length_seq in *.
    apply Hlook in Hc as (Hi & Hlt & Hlen).
    assert (Hge : ~ (S (pred n) < n)%nat) by lia.
    unfold n in Hge at 2. rewrite rounds_lt in Hge by (subst stride len; lia).
    replace (n - 1)%nat with (pred n) by lia. nia.
Qed.

(** The sizes 3 and 2 on the text "abcde". *)
Lemma chunk_text_windows_witness :
  0 <= 2 < 3 /\
  exists chunks,
    chunk_text (S (length (str "abcde"))) (str "abcde") 3 2 = Some chunks /\
    chunks = map (window (str "abcde") 3 2)
                 (seq 0 (rounds (Z.of_nat (length (str "abcde"))) (3 - 2))) /\
    reassemble 2 chunks = str "abcde".
Proof.
  split; [lia|].
  destruct (chunk_text_windows (str "abcde") 3 2 ltac:(lia))
    as (chunks & H1 & H2 & H3 & _).
  exists chunks. auto.
Defined.

End ChunkerFacts.

Section ExtractionFacts.

Lemma any_true (a : ascii) : Re.any a = true.
Proof. unfold Re.any. by destruct (py_isspace a). Qed.

Lemma match_here_star_cons (c : ascii -> bool) (r : Re.regex) (bos : bool)
    (a : ascii) (s : pystr) :
  Re.match_here (Re.Star c :: r) bos (a :: s)
  = if c a then
      match Re.match_here (Re.Star c :: r) false s with
      | Some n => Some (S n)
      | None => Re.match_here r bos (a :: s)
      end
    else Re.match_here r bos (a :: s).
Proof. reflexivity. Qed.

Lemma match_here_star_nil (c : ascii -> bool) (r : Re.regex) (bos : bool) :
  Re.match_here (Re.Star c :: r) bos [] = Re.match_here r bos [].
Proof. reflexivity. Qed.

Lemma match_here_one_cons (c : ascii -> bool) (r : Re.regex) (bos : bool)
    (a : ascii) (s : pystr) :
  Re.match_here (Re.One c :: r) bos (a :: s)
  = if c a then S <$> Re.match_here r false s else None.
Proof. reflexivity. Qed.

Lemma match_star_any_close (s : pystr) : forall bos,
  Re.match_here [Re.Star Re.any; Re.lit "}"] bos s
  = S <$> find_last (Ascii.eqb "}") s.
Proof.
  induction s as [|a s IH]; intros bos; [done|].
  rewrite match_here_star_cons, any_true, IH.
  cbn [find_last]. destruct (find_last (Ascii.eqb "}") s) as [j|]; [done|].
  unfold Re.lit. rewrite match_here_one_cons.
  by destruct (Ascii.eqb "}" a).
Qed.

Lemma match_here_object (s : pystr) (bos : bool) :
  Re.match_here Re.json_object bos s
  = match s with
    | a :: s' =>
        if Ascii.eqb "{" a
        then (fun j => S (S j)) <$> find_last (Ascii.eqb "}") s'
        else None
    | [] => None
    end.
Proof.
  destruct s as [|a s]; [done|].
  unfold Re.json_object. unfold Re.lit at 1. rewrite match_here_one_cons.
  destruct (Ascii.eqb "{" a); [|done].
  rewrite match_star_any_close. by destruct (find_last _ s).
Qed.

Lemma find_last_cons_None (p : ascii -> bool) (a : ascii) (s : pystr) :
  find_last p (a :: s) = None -> find_last p s = None.
Proof. simpl. by destruct (find_last p s). Qed.

Lemma search_object_no_close (s : pystr) : forall bos,
  find_last (Ascii.eqb "}") s = None ->
  Re.search_from Re.json_object bos s = None.
Proof.
  induction s as [|a s IH]; intros bos Hn.
  - done.
  - cbn [Re.search_from]. rewrite match_here_object.
    apply find_last_cons_None in Hn as Hs. rewrite Hs, IH by done.
    by destruct (Ascii.eqb "{" a).
Qed.

Lemma first_to_last_brace_open (a : ascii) (s : pystr) :
  Ascii.eqb "{" a = true ->
  first_to_last_brace (a :: s)
  = (find_last (Ascii.eqb "}") s ≫= fun j => Some (take (S (S j)) (a :: s))).
Proof.
  intros Ha. unfold first_to_last_brace. cbn [find_first]. rewrite Ha.
  cbn [mbind option_bind]. by rewrite drop_0.
Qed.

Lemma first_to_last_brace_other (a : ascii) (s : pystr) :
  Ascii.eqb "{" a = false ->
  first_to_last_brace (a :: s) = first_to_last_brace s.
Proof.
  intros Ha. unfold first_to_last_brace. cbn [find_first]. rewrite Ha.
  by destruct (find_first (Ascii.eqb "{") s).
Qed.

(** [re.search] with the object pattern returns the text from the first
    opening brace to the last closing brace. *)
Lemma search_object_spec (s : pystr) : forall bos,
  Re.group s <$> Re.search_from Re.json_object bos s = first_to_last_brace s.
Proof.
  induction s as [|a s IH]; intros bos; [done|].
  cbn [Re.search_from]. rewrite match_here_object.
  destruct (Ascii.eqb "{" a) eqn:Ha.
  - rewrite first_to_last_brace_open by done.
    destruct (find_last (Ascii.eqb "}") s) as [j|] eqn:Hj; [done|].
    by rewrite search_object_no_close.
  - rewrite first_to_last_brace_other, <- (IH false) by done.
    by destruct (Re.search_from Re.json_object false s) as [[i n]|].
Qed.

(** C2 does not hold as stated: on a reply in which more braces follow the
    object, both call sites take everything up to the last closing brace,
    whereas bracket scanning stops at the brace that closes the object. *)
Lemma extraction_is_not_bracket_scanning :
  clean_eval_text trailing_braces_response = trailing_braces_response /\
  scoring_json_text trailing_braces_response = Some trailing_braces_response /\
  spec_first_balanced_object trailing_braces_response = Some example_object /\
  trailing_braces_response <> example_object.
Proof. split; [|split; [|split]]; [by vm_compute..|]. vm_compute. discriminate. Qed.

(** C2, amended: in [end_interview] and, after the code fence is removed,
    in [submit_mock_test], the JSON text is the match of the greedy pattern
    [\{[\s\S]*\}], which runs from the first opening brace to the last
    closing brace; on the reply of the specification's example both call
    sites hand exactly the text of the object to [json.loads], and there
    the first balanced object is the same text. *)
Theorem json_text_first_to_last_brace :
  (forall scoring_text : pystr,
     scoring_json_text scoring_text = first_to_last_brace scoring_text) /\
  (forall content : pystr,
     clean_eval_text content
     = default (strip_code_fence content)
               (first_to_last_brace (strip_code_fence content))) /\
  clean_eval_text example_response = example_object /\
  scoring_json_text example_response = Some example_object /\
  spec_first_balanced_object example_response = Some example_object.
Proof.
  split; [|split; [|split; [|split]]].
  - intros scoring_text. apply search_object_spec.
  - intros content. unfold clean_eval_text.
    rewrite <- (search_object_spec (strip_code_fence content) true).
    unfold Re.search. by destruct (Re.search_from _ _ _).
  - by vm_compute.
  - by vm_compute.
  - by vm_compute.
Qed.

End ExtractionFacts.

Section MockTestFacts.
Import MockTest.

Lemma py_in_dict_missing (key : pystr) (kv : list (pystr * Json)) :
  dict_lookup key kv = None -> py_in key (JDict kv) = Ok false.
Proof. intros H. simpl. rewrite H. done. Qed.

Lemma validate_required_missing (kv : list (pystr * Json)) :
  dict_lookup (str "score") kv = None \/ dict_lookup (str "feedback") kv = None ->
  validate_required (JDict kv)
  = Raise (ValueError (str "Missing required fields in evaluation")).
Proof.
  intros [H|H]; unfold validate_required.
  - by rewrite (py_in_dict_missing _ _ H).
  - rewrite (py_in_dict_missing _ _ H).
    change (py_in (str "score") (JDict kv))
      with (Ok (A:=bool) (bool_decide (is_Some (dict_lookup (str "score") kv)))).
    cbn [mbind result_bind]. by destruct (bool_decide _).
Qed.

Lemma parse_evaluation_missing (json_loads : pystr -> option Json)
    (fallback : Json) (eval_text : pystr) (kv : list (pystr * Json)) :
  json_loads eval_text = Some (JDict kv) ->
  dict_lookup (str "score") kv = None \/ dict_lookup (str "feedback") kv = None ->
  parse_evaluation json_loads fallback eval_text = Ok fallback.
Proof.
  intros Hl Hm. unfold parse_evaluation, loads. rewrite Hl.
  cbn [mbind result_bind]. by rewrite validate_required_missing.
Qed.

(** C3: when the text taken from a theory or coding reply decodes to an
    object that lacks ["score"] or ["feedback"], the evaluation is the
    whole fallback object of that loop, whose score is 50, and the result
    appended for the answer carries the fields of the fallback. *)
Theorem missing_field_gives_fallback (json_loads : pystr -> option Json)
    (content : pystr) (kv : list (pystr * Json)) :
  json_loads (clean_eval_text content) = Some (JDict kv) ->
  dict_lookup (str "score") kv = None \/ dict_lookup (str "feedback") kv = None ->
  parse_evaluation json_loads theory_fallback (clean_eval_text content)
    = Ok theory_fallback /\
  parse_evaluation json_loads coding_fallback (clean_eval_text content)
    = Ok coding_fallback /\
  py_getitem theory_fallback (str "score") = Ok (JInt 50) /\
  py_getitem coding_fallback (str "score") = Ok (JInt 50) /\
  (forall (question : list (pystr * Json)) (answer : TheoryAnswer) (q : Json),
     dict_lookup (str "question") question = Some q ->
     exists r,
       evaluate_theory_reply json_loads (JDict question) answer content = Ok r /\
       Ok (tr_score r) = py_getitem theory_fallback (str "score") /\
       Ok (tr_feedback r) = py_getitem theory_fallback (str "feedback") /\
       Ok (tr_covered_points r) = py_getitem theory_fallback (str "covered_points") /\
       Ok (tr_missing_points r) = py_getitem theory_fallback (str "missing_points")) /\
  (forall (question : list (pystr * Json)) (answer : CodingAnswer) (q : Json),
     dict_lookup (str "question") question = Some q ->
     exists r,
       evaluate_coding_reply json_loads (JDict question) answer content = Ok r /\
       Ok (cr_score r) = py_getitem coding_fallback (str "score") /\
       Ok (cr_correctness r) = py_getitem coding_fallback (str "correctness") /\
       Ok (cr_code_quality r) = py_getitem coding_fallback (str "code_quality") /\
       Ok (cr_feedback r) = py_getitem coding_fallback (str "feedback") /\
       Ok (cr_suggestions r) = py_getitem coding_fallback (str "suggestions")).
Proof.
  intros Hl Hm.
  pose proof (parse_evaluation_missing json_loads theory_fallback _ _ Hl Hm) as Ht.
  pose proof (parse_evaluation_missing json_loads coding_fallback _ _ Hl Hm) as Hc.
  split; [done|]. split; [done|]. split; [done|]. split; [done|]. split.
  - intros question answer q Hq. unfold evaluate_theory_reply.
    rewrite Ht. cbn [mbind result_bind py_getitem]. rewrite Hq.
    eexists. split; [reflexivity|]. by vm_compute.
  - intros question answer q Hq. unfold evaluate_coding_reply.
    rewrite Hc. cbn [mbind result_bind py_getitem]. rewrite Hq.
    eexists. split; [reflexivity|]. by vm_compute.
Qed.

(** A reply that holds a score and no feedback. *)
Lemma missing_field_gives_fallback_witness :
  example_json_loads (clean_eval_text score_only_text)
    = Some (JDict [(str "score", JInt 80)]) /\
  (dict_lookup (str "score") [(str "score", JInt 80)] = None \/
   dict_lookup (str "feedback") [(str "score", JInt 80)] = None) /\
  parse_evaluation example_json_loads theory_fallback (clean_eval_text score_only_text)
    = Ok theory_fallback /\
  parse_evaluation example_json_loads coding_fallback (clean_eval_text score_only_text)
    = Ok coding_fallback.
Proof.
  assert (H1 : example_json_loads (clean_eval_text score_only_text)
               = Some (JDict [(str "score", JInt 80)])) by (by vm_compute).
  assert (H2 : dict_lookup (str "score") [(str "score", JInt 80)] = None \/
               dict_lookup (str "feedback") [(str "score", JInt 80)] = None)
    by (right; by vm_compute).
  split; [exact H1|]. split; [exact H2|].
  destruct (missing_field_gives_fallback example_json_loads score_only_text
              [(str "score", JInt 80)] H1 H2) as (Ht & Hc & _).
  split; [exact Ht | exact Hc].
Defined.


Lemma list_index_nat {A} (l : list A) (i : nat) (x : A) :
  l !! i = Some x -> list_index l (Z.of_nat i) = Ok x.
Proof.
  intros H. unfold list_index.
  destruct (Z.ltb_spec (Z.of_nat i) 0); [lia|].
  destruct (Z.ltb_spec (Z.of_nat i) 0); [lia|].
  by rewrite Nat2Z.id, H.
Qed.

Lemma str_equals_JStr (x s : pystr) : str_equals x (JStr s) = bool_decide (x = s).
Proof. done. Qed.

Lemma count_correct_zip (correct_order : list pystr) (user : list pystr) :
  forall k : nat,
    count_correct (JList (JStr <$> correct_order)) (zip (seq k (length user)) user)
    = Ok (length (filter (fun p : pystr * pystr => p.1 = p.2)
                         (zip user (drop k correct_order)))).
Proof.
  induction user as [|x user IH]; intros k; [done|].
  cbn [length seq zip zip_with count_correct py_len mbind result_bind].
  rewrite length_fmap, IH.
  destruct (Nat.ltb_spec k (length correct_order)) as [Hk|Hk].
  - destruct (lookup_lt_is_Some_2 correct_order k Hk) as [c Hc].
    cbn [py_index]. rewrite (list_index_nat _ k (JStr c))
      by (by rewrite list_lookup_fmap, Hc).
    rewrite (drop_S _ _ _ Hc).
    cbn [fmap result_fmap mbind result_bind zip zip_with].
    rewrite str_equals_JStr, filter_cons. cbn [fst snd].
    destruct (decide (x = c)) as [->|Hne].
    + by rewrite bool_decide_eq_true_2.
    + by rewrite bool_decide_eq_false_2.
  - cbn [mbind result_bind].
    rewrite !drop_ge by lia. by destruct user.
Qed.

Lemma count_correct_spec (correct_order user_order : list pystr) :
  count_correct (JList (JStr <$> correct_order)) (enumerate user_order)
  = Ok (spec_matching_positions user_order correct_order).
Proof. unfold enumerate. by rewrite count_correct_zip, drop_0. Qed.

(** C4: for a stored reorder question whose canonical order is a
    non-empty list of strings, the round of the reorder loop, which takes
    no model reply, returns the number of positions at which the submitted
    order matches the canonical one, divided by the number of canonical
    items, times 100. *)
Theorem reorder_score_is_deterministic (question : list (pystr * Json))
    (answer : ReorderAnswer) (correct_order : list pystr) (q : Json) :
  dict_lookup (str "correct_order") question = Some (JList (JStr <$> correct_order)) ->
  dict_lookup (str "question") question = Some q ->
  correct_order <> [] ->
  exists r,
    evaluate_reorder_answer (JDict question) answer = Ok r /\
    rr_correct_positions r
      = spec_matching_positions (ra_ordered_items answer) correct_order /\
    rr_total_items r = length correct_order /\
    rr_score r = spec_reorder_score (ra_ordered_items answer) correct_order.
Proof.
  intros Hc Hq Hne. unfold evaluate_reorder_answer.
  cbn [py_getitem]. rewrite Hc, Hq. cbn [mbind result_bind].
  rewrite count_correct_spec. cbn [mbind result_bind].
  unfold reorder_score. cbn [py_len mbind result_bind]. rewrite length_fmap.
  destruct correct_order as [|c cs]; [done|].
  cbn [length mbind result_bind py_get]. eexists. split; [reflexivity|]. done.
Qed.

(** Canonical [A, B, C, D] against submitted [B, A, C, D]: two matching
    positions of four, score 50.0. *)
Lemma reorder_score_is_deterministic_witness :
  [str "A"; str "B"; str "C"; str "D"] <> [] /\
  exists r,
    evaluate_reorder_answer example_reorder_question example_reorder_answer = Ok r /\
    rr_correct_positions r = 2%nat /\
    rr_total_items r = 4%nat /\
    rr_score r = 50%float.
Proof.
  split; [discriminate|].
  destruct (reorder_score_is_deterministic
              [(str "question", JStr (str "Put these steps in the correct order:"));
               (str "topic", JStr (str "Topic name"));
               (str "items", JList (JStr <$> [str "B"; str "A"; str "C"; str "D"]));
               (str "correct_order", JList (JStr <$> [str "A"; str "B"; str "C"; str "D"]))]
              example_reorder_answer
              [str "A"; str "B"; str "C"; str "D"]
              (JStr (str "Put these steps in the correct order:"))
              eq_refl eq_refl ltac:(discriminate))
    as (r & Hr & Hp & Ht & Hs).
  exists r. split; [exact Hr|]. split; [by rewrite Hp|].
  split; [by rewrite Ht|]. rewrite Hs. by vm_compute.
Defined.

End MockTestFacts.

Section QuizFacts.
Import QuizApi Examples.

Section Quiz.
Context (exn_str : exn -> pystr) (json_loads : pystr -> option Json)
        (encode : pystr -> result (list float)) (randint : nat -> Z)
        (index_query : QueryCall -> list Match)
        (quiz_prompt : Z -> pystr -> pystr -> pystr)
        (chat_completion : pystr -> pystr -> result pystr)
        (uuid4 now : pystr)
        (grade_quiz : Quiz -> QuizSubmitRequest -> result Json).

(** C6 fails on the code. [generate_quiz] on a notebook without documents
    and [submit_quiz] on an unknown quiz id raise the 400 and the 404 of
    the claim inside the [try] block, and the handler
    [except Exception] turns both into status 500 with [str(e)] as the
    detail. *)
Theorem missing_precondition_is_wrapped_as_500
    (st : State) (request : QuizGenerateRequest) (submission : QuizSubmitRequest) :
  count_documents (documents st) (g_notebook_id request) = 0%nat ->
  quizzes_store st !! s_quiz_id submission = None ->
  generate_quiz exn_str json_loads encode randint index_query quiz_prompt
                chat_completion uuid4 now st request
  = (st, Raise (HTTPException 500
                  (exn_str (HTTPException 400
                     (str "No documents uploaded. Please upload documents first."))))) /\
  submit_quiz exn_str grade_quiz st submission
  = Raise (HTTPException 500 (exn_str (HTTPException 404 (str "Quiz not found")))).
Proof.
  intros Hc Hq. split.
  - unfold generate_quiz, generate_quiz_body. by rewrite Hc.
  - unfold submit_quiz. by rewrite Hq.
Qed.
End Quiz.

(** An empty store, with [str(e)] printing the status before the detail. *)
Lemma missing_precondition_is_wrapped_as_500_witness :
  count_documents (documents fresh_state) (g_notebook_id example_quiz_request)
    = 0%nat /\
  quizzes_store fresh_state !! s_quiz_id example_submit_request = None /\
  generate_quiz example_exn_str (fun _ => None) zero_vector (fun _ => 1%Z)
                same_matches (fun _ _ context => context) (fun _ _ => Ok [])
                (str "q1") (str "2024-03-01T10:00:00")
                fresh_state example_quiz_request
  = (fresh_state,
     Raise (HTTPException 500
              (str "400: No documents uploaded. Please upload documents first."))) /\
  submit_quiz example_exn_str (fun _ _ => Ok JNull) fresh_state example_submit_request
  = Raise (HTTPException 500 (str "404: Quiz not found")).
Proof.
  assert (H1 : count_documents (documents fresh_state)
                 (g_notebook_id example_quiz_request) = 0%nat) by reflexivity.
  assert (H2 : quizzes_store fresh_state !! s_quiz_id example_submit_request = None)
    by reflexivity.
  split; [exact H1|]. split; [exact H2|].
  exact (missing_precondition_is_wrapped_as_500 example_exn_str (fun _ => None)
           zero_vector (fun _ => 1%Z) same_matches (fun _ _ context => context)
           (fun _ _ => Ok []) (str "q1") (str "2024-03-01T10:00:00")
           (fun _ _ => Ok JNull) fresh_state example_quiz_request
           example_submit_request H1 H2).
Defined.

(** The handler of the sibling endpoints lets the 400 and the 404 through. *)
Lemma sibling_handler_keeps_status (exn_str : exn -> pystr) (status_code : Z)
    (detail : pystr) :
  reraise_http_wrap_500 exn_str (Raise (A:=Json) (HTTPException status_code detail))
  = Raise (HTTPException status_code detail).
Proof. reflexivity. Qed.

Lemma add_matches_texts (matches : list Match) : forall all_chunks : list Chunk,
  c_text <$> add_matches all_chunks matches
  = (c_text <$> all_chunks)
    ++ spec_first_seen (c_text <$> all_chunks) (m_text <$> matches).
Proof.
  induction matches as [|m matches IH]; intros all_chunks; cbn.
  - by rewrite app_nil_r.
  - case_bool_decide; rewrite IH; [done|].
    rewrite fmap_app. cbn. by rewrite <- app_assoc.
Qed.

Lemma spec_first_seen_app (l1 l2 : list pystr) : forall seen,
  spec_first_seen seen (l1 ++ l2)
  = spec_first_seen seen l1
    ++ spec_first_seen (seen ++ spec_first_seen seen l1) l2.
Proof.
  induction l1 as [|t l1 IH]; intros seen; cbn.
  - by rewrite app_nil_r.
  - case_bool_decide; rewrite IH; [done|]. cbn. by rewrite <- app_assoc.
Qed.

Lemma spec_first_seen_fresh (texts : list pystr) : forall seen x,
  x ∈ spec_first_seen seen texts -> x ∈ texts /\ x ∉ seen.
Proof.
  induction texts as [|t texts IH]; intros seen x; cbn.
  - by intros ?%elem_of_nil.
  - case_bool_decide as Hin.
    + intros [? ?]%IH. split; [by right | done].
    + intros [->|Hx]%elem_of_cons; [split; [by left | done]|].
      apply IH in Hx as [? Hn]. split; [by right|].
      intros ?. apply Hn, elem_of_app. by left.
Qed.

Lemma spec_first_seen_NoDup (texts : list pystr) : forall seen,
  NoDup (spec_first_seen seen texts).
Proof.
  induction texts as [|t texts IH]; intros seen; cbn.
  - constructor.
  - case_bool_decide; [done|]. constructor; [|done].
    intros [_ Hn]%spec_first_seen_fresh. apply Hn, elem_of_app. right. by left.
Qed.

Lemma py_slice_from_0 {A} (l : list A) (stop : Z) :
  exists n : nat, py_slice l 0 stop = take n l.
Proof.
  unfold py_slice.
  assert (H0 : slice_index (Z.of_nat (length l)) 0 = 0%Z).
  { unfold slice_index. cbn [Z.ltb Z.compare]. lia. }
  rewrite H0. eexists. by rewrite drop_0.
Qed.

Section Sampling.
Context (encode : pystr -> result (list float)) (randint : nat -> Z)
        (index_query : QueryCall -> list Match).
Hypothesis encode_total : forall text, exists v, encode text = Ok v.

Lemma sample_loop_spec (rounds : nat) :
  forall (k : nat) (filter_dict : QueryFilter) (all_chunks : list Chunk)
         (calls : list QueryCall),
  exists (all_chunks' : list Chunk) (new_calls : list QueryCall),
    sample_loop encode randint index_query rounds k filter_dict all_chunks calls
    = Ok (all_chunks', calls ++ new_calls) /\
    length new_calls = rounds /\
    Forall (fun c => qc_top_k c = 3%Z /\ qc_filter c = filter_dict) new_calls /\
    c_text <$> all_chunks'
    = (c_text <$> all_chunks)
      ++ spec_first_seen (c_text <$> all_chunks)
                         (m_text <$> (new_calls ≫= index_query)).
Proof using encode_total.
  induction rounds as [|rounds IH]; intros k filter_dict all_chunks calls.
  - exists all_chunks, []. cbn. by rewrite !app_nil_r.
  - cbn [sample_loop].
    destruct (encode_total (str "question " ++ py_str_int (randint k)))
      as [v ->].
    cbn [mbind result_bind].
    set (call := {| qc_vector := v; qc_top_k := 3; qc_filter := filter_dict |}).
    destruct (IH (S k) filter_dict (add_matches all_chunks (index_query call))
                 (calls ++ [call]))
      as (all' & new & Hrun & Hlen & Htop & Htexts).
    exists all', (call :: new). split; [|split; [|split]].
    + rewrite Hrun. by rewrite <- app_assoc.
    + cbn. by rewrite Hlen.
    + by constructor.
    + rewrite Htexts, add_matches_texts.
      cbn [mbind list_bind]. rewrite fmap_app, spec_first_seen_app.
      by rewrite <- app_assoc.
Qed.
End Sampling.

Section Select.
Context (encode : pystr -> result (list float)) (randint : nat -> Z)
        (index_query : QueryCall -> list Match).

(** C8: when the embedding model answers and every match comes from the
    corpus, the sampling of [generate_quiz] returns; it makes
    [min(2 * num_questions, 10)] queries (none for a negative count), each
    with [top_k = 3]; the selected texts are exactly the pooled match
    texts, in the order of the queries and of the matches of each,
    deduplicated in first-seen order and cut to the first
    [2 * num_questions]; they hold no duplicate, all come from the corpus,
    and are at most as many as the distinct texts of the corpus. *)
Theorem diverse_sampling_dedups (request : QuizGenerateRequest)
    (corpus : list pystr) :
  (forall text, exists v, encode text = Ok v) ->
  (forall call m, m ∈ index_query call -> m_text m ∈ corpus) ->
  exists (selected : list Chunk) (calls : list QueryCall),
    select_chunks encode randint index_query request = Ok (selected, calls) /\
    Z.of_nat (length calls) = Z.max 0 (Z.min (g_num_questions request * 2) 10) /\
    Forall (fun c => qc_top_k c = 3%Z) calls /\
    (c_text <$> selected)
      `prefix_of` spec_first_seen [] (m_text <$> (calls ≫= index_query)) /\
    NoDup (c_text <$> selected) /\
    (forall c, c ∈ selected -> c_text c ∈ corpus) /\
    length selected <= length (remove_dups corpus) /\
    c_text <$> selected
    = take (Z.to_nat (g_num_questions request * 2))
           (spec_first_seen [] (m_text <$> (calls ≫= index_query))).
Proof.
  intros Henc Hcorpus. unfold select_chunks.
  set (filter_dict := {| f_notebook_id := g_notebook_id request;
                         f_doc_id_in := _ |}).
  destruct (sample_loop_spec encode randint index_query Henc
              (Z.to_nat (Z.min (g_num_questions request * 2) 10)) 0
              filter_dict [] [])
    as (all_chunks & calls & Hrun & Hlen & Htop & Htexts).
  rewrite Hrun. cbn [mbind result_bind app].
  cbn [fmap list_fmap app] in Htexts.
  assert (Hcut : c_text <$> py_slice all_chunks 0
                   (Z.min (Z.of_nat (length all_chunks)) (g_num_questions request * 2))
                 = take (Z.to_nat (g_num_questions request * 2))
                        (spec_first_seen [] (m_text <$> (calls ≫= index_query)))).
  { rewrite <- Htexts, <- fmap_take. f_equal.
    destruct (Z.le_gt_cases 0 (g_num_questions request * 2)) as [Hn|Hn].
    - rewrite py_slice_nonneg by lia.
      replace (Z.to_nat (Z.min 0 (Z.of_nat (length all_chunks)))) with 0%nat by lia.
      rewrite drop_0.
      destruct (Z.le_gt_cases (Z.of_nat (length all_chunks))
                              (g_num_questions request * 2)).
      + rewrite !take_ge by lia. done.
      + f_equal. lia.
    - assert (Hnil : all_chunks = []).
      { assert (Hz : length calls = 0%nat) by lia.
        destruct calls; [|done]. cbn in Htexts.
        by destruct all_chunks. }
      rewrite Hnil. unfold py_slice. by rewrite drop_nil, !take_nil. }
  destruct (py_slice_from_0 all_chunks
              (Z.min (Z.of_nat (length all_chunks)) (g_num_questions request * 2)))
    as [n Hn]. rewrite Hn in Hcut |- *.
  assert (Hpre : (c_text <$> take n all_chunks)
                   `prefix_of` spec_first_seen [] (m_text <$> (calls ≫= index_query))).
  { rewrite fmap_take, Htexts. apply prefix_take. }
  assert (Hnd : NoDup (c_text <$> take n all_chunks)).
  { rewrite fmap_take, Htexts.
    eapply sublist_NoDup; [apply spec_first_seen_NoDup | apply sublist_take]. }
  assert (Hin : forall c, c ∈ take n all_chunks -> c_text c ∈ corpus).
  { intros c Hc.
    assert (Ht : c_text c ∈ c_text <$> all_chunks).
    { apply list_elem_of_fmap. exists c. split; [done|].
      by apply (subseteq_take n all_chunks). }
    rewrite Htexts in Ht. apply spec_first_seen_fresh in Ht as [Ht _].
    apply list_elem_of_fmap in Ht as (m & -> & Hm).
    apply list_elem_of_bind in Hm as (call & Hm & _). by eapply Hcorpus. }
  exists (take n all_chunks), calls.
  split; [done|]. split; [lia|]. split.
  { eapply Forall_impl; [exact Htop|]. by intros c [? _]. }
  split; [done|]. split; [done|]. split; [done|]. split; [|exact Hcut].
  rewrite <- (length_fmap c_text). apply submseteq_length, NoDup_submseteq; [done|].
  intros t (c & -> & Hc)%list_elem_of_fmap.
  apply elem_of_remove_dups. by apply Hin.
Qed.
End Select.

(** Five questions against a corpus of two chunks, every query answered
    with the same matches: ten queries, and the two chunks in the order
    in which they were first seen. *)
Lemma diverse_sampling_dedups_witness :
  (forall text, exists v, zero_vector text = Ok v) /\
  (forall call m, m ∈ same_matches call -> m_text m ∈ two_chunk_corpus) /\
  exists (selected : list Chunk) (calls : list QueryCall),
    select_chunks zero_vector (fun _ => 1%Z) same_matches example_quiz_request
      = Ok (selected, calls) /\
    length calls = 10%nat /\
    NoDup (c_text <$> selected) /\
    length selected <= 2 /\
    c_text <$> selected = [str "alpha"; str "beta"].
Proof.
  assert (H1 : forall text, exists v, zero_vector text = Ok v)
    by (intros text; by eexists).
  assert (H2 : forall call m, m ∈ same_matches call -> m_text m ∈ two_chunk_corpus).
  { intros call m Hm. unfold same_matches in Hm.
    repeat (apply elem_of_cons in Hm as [-> | Hm]; [cbn; set_solver|]).
    by apply elem_of_nil in Hm. }
  split; [exact H1|]. split; [exact H2|].
  destruct (diverse_sampling_dedups zero_vector (fun _ => 1%Z) same_matches
              example_quiz_request two_chunk_corpus H1 H2)
    as (selected & calls & Hs & Hc & _ & _ & Hnd & _ & Hlen & Hexact).
  exists selected, calls. split; [exact Hs|].
  split; [|split; [exact Hnd|split; [exact Hlen|]]].
  - cbn in Hc. lia.
  - vm_compute in Hs. inversion Hs; subst selected. reflexivity.
Defined.

End QuizFacts.

Section ChunkCacheFacts.
Import ChunkCache Examples.

Section Ensure.
Context (path_exists : pystr -> bool) (read_pdf_text : pystr -> result pystr)
        (update_one : list Document -> pystr -> list pystr -> result (list Document)).

(** C9: for a document without cached chunks, when no path can be settled
    on, or the file at the path does not exist, or reading and extracting
    it raises, [ensure_document_chunks] returns the empty list, raises
    nothing and leaves the collection as it was. *)
Theorem ensure_chunks_empty_when_unavailable (docs : list Document) (doc : Document) :
  default [] (d_chunks doc) = [] ->
  (resolve_pdf_path doc = None \/
   exists pdf_path,
     resolve_pdf_path doc = Some pdf_path /\
     (path_exists pdf_path = false \/
      exists e, read_pdf_text pdf_path = Raise e)) ->
  ensure_document_chunks path_exists read_pdf_text update_one docs doc
  = (docs, Ok []).
Proof.
  intros Hc Hu. unfold ensure_document_chunks. rewrite Hc. cbn [truthy].
  destruct Hu as [-> | (pdf_path & -> & [Hp | [e He]])]; [done| |].
  - by rewrite Hp.
  - rewrite He. by destruct (path_exists pdf_path).
Qed.
End Ensure.

(** A document with an explicit path to a file that is not there. *)
Lemma ensure_chunks_empty_when_unavailable_witness :
  default [] (d_chunks lost_document) = [] /\
  (resolve_pdf_path lost_document = None \/
   exists pdf_path,
     resolve_pdf_path lost_document = Some pdf_path /\
     (no_file pdf_path = false \/ exists e, unreadable pdf_path = Raise e)) /\
  ensure_document_chunks no_file unreadable keep_documents [lost_document] lost_document
  = ([lost_document], Ok []).
Proof.
  assert (H1 : default [] (d_chunks lost_document) = []) by reflexivity.
  assert (H2 : resolve_pdf_path lost_document = None \/
               exists pdf_path,
                 resolve_pdf_path lost_document = Some pdf_path /\
                 (no_file pdf_path = false \/ exists e, unreadable pdf_path = Raise e)).
  { right. eexists. split; [reflexivity|]. by left. }
  split; [exact H1|]. split; [exact H2|].
  exact (ensure_chunks_empty_when_unavailable no_file unreadable keep_documents
           [lost_document] lost_document H1 H2).
Defined.

End ChunkCacheFacts.

Section NotebookFacts.
Import Notebooks Examples.

Section Live.
Context (exn_str : exn -> pystr) (ObjectId : pystr -> option pystr)
        (sort_created_at_desc : list Notebook -> list Notebook).

Lemma helper_document_count (notebook : Notebook) (doc_count : nat) :
  nv_id (notebook_helper (set_document_count notebook doc_count)) = n__id notebook /\
  nv_document_count (notebook_helper (set_document_count notebook doc_count))
  = Z.of_nat doc_count.
Proof. done. Qed.

(** C10 holds of [get_notebooks] and fails for [get_notebook]: the list
    counts the records whose [notebook_id] is the id of the notebook,
    [str(notebook["_id"])], whatever the stored counter holds, whereas
    [get_notebook] finds the notebook by [ObjectId(notebook_id)] and counts
    the records whose [notebook_id] is the string of the request. The two
    counts are the same when the request spells the id as the notebook
    prints it, and the count answered is not that of the notebook found
    whenever the two strings select different numbers of records. *)
Theorem document_count_follows_the_request_string (st : State)
    (notebook_id : pystr) (oid : pystr) (notebook : Notebook) :
  ObjectId notebook_id = Some oid ->
  find_notebook (notebooks st) oid = Some notebook ->
  (exists views,
     get_notebooks exn_str sort_created_at_desc st = Ok views /\
     Forall2 (fun nb view =>
                nv_id view = n__id nb /\
                nv_document_count view
                = Z.of_nat (count_documents (documents st) (n__id nb)))
             (sort_created_at_desc (notebooks st)) views) /\
  (exists view,
     get_notebook exn_str ObjectId st notebook_id = Ok view /\
     nv_id view = n__id notebook /\
     nv_id view = oid /\
     nv_document_count view
     = Z.of_nat (count_documents (documents st) notebook_id) /\
     (notebook_id = oid ->
      nv_document_count view
      = Z.of_nat (count_documents (documents st) (nv_id view))) /\
     (count_documents (documents st) notebook_id
      <> count_documents (documents st) oid ->
      nv_document_count view
      <> Z.of_nat (count_documents (documents st) (nv_id view)))).
Proof.
  intros Hoid Hfind. split.
  - eexists. split; [reflexivity|].
    apply Forall2_fmap_r, Forall_Forall2_diag, Forall_forall.
    intros nb _. apply helper_document_count.
  - assert (Hid : n__id notebook = oid).
    { unfold find_notebook in Hfind.
      destruct (list_find _ (notebooks st)) as [[i nb]|] eqn:Hf; [|done].
      cbn in Hfind. inversion Hfind; subst nb.
      by apply list_find_Some in Hf as (_ & ? & _). }
    unfold get_notebook. rewrite Hoid, Hfind. eexists. split; [reflexivity|].
    cbn [notebook_helper set_document_count nv_id nv_document_count n__id
         n_document_count default].
    split; [done|]. split; [done|]. split; [done|]. split.
    + intros ->. by rewrite Hid.
    + rewrite Hid. intros Hne Heq. apply Hne. by apply Nat2Z.inj.
Qed.
End Live.

(** The example notebook, whose stored counter says 7 and which has 2
    documents, read by its id in capital digits: the list answers 2, and
    [get_notebook] finds the notebook and answers 0. *)
Lemma document_count_follows_the_request_string_witness :
  hex_object_id capital_notebook_id = Some example_notebook_id /\
  find_notebook (notebooks example_state) example_notebook_id
    = Some example_notebook /\
  n_document_count example_notebook = Some 7%Z /\
  count_documents (documents example_state) example_notebook_id = 2%nat /\
  (fun views : list NotebookView => nv_document_count <$> views)
    <$> get_notebooks example_exn_str (fun nbs => nbs) example_state = Ok [2%Z] /\
  exists view,
    get_notebook example_exn_str hex_object_id example_state capital_notebook_id
      = Ok view /\
    nv_id view = example_notebook_id /\
    nv_document_count view = 0%Z /\
    nv_document_count view
    <> Z.of_nat (count_documents (documents example_state) (nv_id view)).
Proof.
  split; [by vm_compute|]. split; [by vm_compute|]. split; [reflexivity|].
  split; [by vm_compute|]. split; [by vm_compute|].
  destruct (document_count_follows_the_request_string example_exn_str
              hex_object_id (fun nbs => nbs) example_state capital_notebook_id
              example_notebook_id example_notebook
              ltac:(by vm_compute) ltac:(by vm_compute))
    as [_ (view & Hv & _ & Hid & Hc & _ & Hne)].
  exists view. split; [exact Hv|]. split; [exact Hid|]. split.
  - rewrite Hc. by vm_compute.
  - apply Hne. by vm_compute.
Defined.

End NotebookFacts.

Section UploadFacts.
Import Upload Examples.

Lemma to_uint_nonnil (n : nat) : Nat.to_uint n <> Decimal.Nil.
Proof.
  rewrite <- (Unsigned.of_to n) at 1. rewrite Unsigned.to_of.
  apply unorm_nonnil.
Qed.

Lemma str_inj (s t : string) : str s = str t -> s = t.
Proof.
  intros H. rewrite <- (string_of_list_ascii_of_string s),
    <- (string_of_list_ascii_of_string t). unfold str in H. by rewrite H.
Qed.

Lemma py_str_nat_inj (n m : nat) : py_str_nat n = py_str_nat m -> n = m.
Proof.
  intros H%str_inj. apply Unsigned.to_uint_inj.
  assert (Hn := NilZero.usu _ (to_uint_nonnil n)).
  assert (Hm := NilZero.usu _ (to_uint_nonnil m)).
  rewrite H in Hn. rewrite Hn in Hm. by inversion Hm.
Qed.

Lemma vector_id_inj (doc_id : pystr) (i j : nat) :
  vector_id doc_id i = vector_id doc_id j -> i = j.
Proof.
  unfold vector_id. intros H. apply app_inv_head, app_inv_head in H.
  by apply py_str_nat_inj.
Qed.

Lemma index_upsert_snoc (idx : gmap pystr Vector) (vs : list Vector) (v : Vector) :
  index_upsert idx (vs ++ [v]) = <[v_id v := v]> (index_upsert idx vs).
Proof. unfold index_upsert. by rewrite foldl_app. Qed.

Lemma index_upsert_app (idx : gmap pystr Vector) (vs ws : list Vector) :
  index_upsert idx (vs ++ ws) = index_upsert (index_upsert idx vs) ws.
Proof. unfold index_upsert. by rewrite foldl_app. Qed.

Lemma index_upsert_other (vs : list Vector) : forall (idx : gmap pystr Vector) key,
  key ∉ v_id <$> vs -> index_upsert idx vs !! key = idx !! key.
Proof.
  induction vs as [|v vs IH] using rev_ind; intros idx key Hk; [done|].
  rewrite fmap_app in Hk. apply not_elem_of_app in Hk as [Hk1 Hk2].
  rewrite index_upsert_snoc, lookup_insert_ne; [by apply IH|].
  intros <-. apply Hk2. cbn. by left.
Qed.

Lemma index_upsert_member (vs : list Vector) :
  forall (idx : gmap pystr Vector) (v : Vector),
    NoDup (v_id <$> vs) -> v ∈ vs -> index_upsert idx vs !! v_id v = Some v.
Proof.
  induction vs as [|w vs IH] using rev_ind; intros idx v Hnd Hv.
  - by apply elem_of_nil in Hv.
  - rewrite fmap_app in Hnd. apply NoDup_app in Hnd as (Hnd & Hdisj & _).
    rewrite index_upsert_snoc.
    apply elem_of_app in Hv as [Hv | Hv%list_elem_of_singleton].
    + rewrite lookup_insert_ne; [by apply IH|].
      intros Heq. apply (Hdisj (v_id v)).
      * apply list_elem_of_fmap. by exists v.
      * rewrite <- Heq. cbn. by left.
    + subst w. by rewrite lookup_insert_eq.
Qed.

Lemma index_upsert_changed (vs : list Vector) (idx : gmap pystr Vector) key v :
  index_upsert idx vs !! key = Some v ->
  (v ∈ vs /\ v_id v = key) \/ idx !! key = Some v.
Proof.
  revert idx. induction vs as [|w vs IH] using rev_ind; intros idx; [by right|].
  rewrite index_upsert_snoc.
  destruct (decide (v_id w = key)) as [<-|Hne].
  - rewrite lookup_insert_eq. intros [= ->]. left. split; [|done].
    apply elem_of_app. right. by left.
  - rewrite lookup_insert_ne by done. intros [[? ?]|?]%IH; [left|by right].
    split; [|done]. apply elem_of_app. by left.
Qed.

Lemma foldl_upsert_concat {B} (g : B -> list Vector) (l : list B) :
  forall idx : gmap pystr Vector,
    foldl (fun m i => index_upsert m (g i)) idx l
    = index_upsert idx (concat (g <$> l)).
Proof.
  induction l as [|b l IH]; intros idx; [done|].
  cbn. by rewrite IH, index_upsert_app.
Qed.


Lemma reassemble_0 {A} (chunks : list (list A)) :
  Chunker.reassemble 0 chunks = concat chunks.
Proof.
  destruct chunks as [|c cs]; [done|]. cbn. f_equal. f_equal.
  induction cs as [|x cs IH]; [done|]. cbn. by rewrite IH.
Qed.

Lemma upsert_in_batches_all (idx : gmap pystr Vector) (vectors : list Vector) :
  upsert_in_batches idx vectors = index_upsert idx vectors.
Proof.
  unfold upsert_in_batches, batch_starts.
  rewrite (foldl_upsert_concat
             (fun i => py_slice vectors (Z.of_nat i) (Z.of_nat i + batch_size))).
  f_equal. rewrite <- list_fmap_compose.
  rewrite <- (reassemble_windows vectors batch_size 0 ltac:(unfold batch_size; lia))
    at 2.
  rewrite reassemble_0. f_equal.
  change (map ?f ?l) with (f <$> l). rewrite Z.sub_0_r.
  apply list_fmap_ext. intros _ k _. unfold compose, Chunker.window.
  rewrite Z.sub_0_r. f_equal; unfold batch_size; lia.
Qed.

Section Vectors.
Context (encode : pystr -> result (list float)).
Context (doc_id notebook_id filename : pystr).

Lemma elem_of_make_vectors (l : list (nat * pystr)) (v : Vector) :
  v ∈ make_vectors encode doc_id notebook_id filename l <->
  exists i chunk embedding,
    (i, chunk) ∈ l /\ get_embedding encode chunk = Some embedding /\
    embedding <> [] /\ v = vector_record doc_id notebook_id filename i chunk embedding.
Proof.
  unfold make_vectors. rewrite list_elem_of_In, in_flat_map. split.
  - intros ([i chunk] & Hin%list_elem_of_In & Hv). cbn in Hv.
    destruct (get_embedding encode chunk) as [embedding|] eqn:He; [|done].
    destruct embedding as [|x embedding]; [done|].
    destruct Hv as [<-|[]]. by exists i, chunk, (x :: embedding).
  - intros (i & chunk & embedding & Hin & He & Hne & ->).
    exists (i, chunk). split; [by apply list_elem_of_In|]. cbn. rewrite He.
    destruct embedding; [done|]. by left.
Qed.

Lemma make_vectors_NoDup (l : list (nat * pystr)) :
  NoDup l.*1 -> NoDup (v_id <$> make_vectors encode doc_id notebook_id filename l).
Proof.
  induction l as [|[i chunk] l IH]; [constructor|].
  intros [Hi Hnd]%NoDup_cons. specialize (IH Hnd).
  change (make_vectors encode doc_id notebook_id filename ((i, chunk) :: l))
    with (match get_embedding encode chunk with
          | Some embedding =>
              if truthy embedding then [vector_record doc_id notebook_id filename i chunk embedding] else []
          | None => []
          end ++ make_vectors encode doc_id notebook_id filename l).
  destruct (get_embedding encode chunk) as [[|x embedding]|]; [done| |done].
  cbn. constructor; [|done].
  intros (v & Hid & Hv)%list_elem_of_fmap.
  apply elem_of_make_vectors in Hv as (j & c & e & Hin & _ & _ & ->).
  cbn in Hid. apply vector_id_inj in Hid as ->.
  apply Hi, list_elem_of_fmap. by exists (j, c).
Qed.

Lemma elem_of_enumerate {A} (l : list A) (i : nat) (x : A) :
  (i, x) ∈ enumerate l <-> l !! i = Some x.
Proof.
  unfold enumerate. rewrite list_elem_of_lookup. split.
  - intros (j & Hj). apply lookup_zip_with_Some in Hj as (a & b & [= <- <-] & Ha & Hb).
    apply lookup_seq in Ha as [-> _]. done.
  - intros Hx. exists i. apply lookup_zip_with_Some. exists i, x.
    split; [done|]. split; [|done]. apply lookup_seq. split; [done|].
    by eapply lookup_lt_Some.
Qed.

Lemma enumerate_fst {A} (l : list A) : (enumerate l).*1 = seq 0 (length l).
Proof. unfold enumerate. apply fst_zip. by rewrite length_seq. Qed.
End Vectors.

Lemma app_cons_inv_fresh {A} (x : A) (l1 l2 r1 r2 : list A) :
  x ∉ l1 -> x ∉ l2 -> l1 ++ x :: r1 = l2 ++ x :: r2 -> l1 = l2 /\ r1 = r2.
Proof.
  revert l2. induction l1 as [|a l1 IH]; intros [|b l2] H1 H2 Heq; cbn in Heq.
  - by inversion Heq.
  - inversion Heq; subst. exfalso. apply H2. by left.
  - inversion Heq; subst. exfalso. apply H1. by left.
  - inversion Heq; subst.
    destruct (IH l2) as [-> ->]; [| |done|done].
    + intros ?. apply H1. by right.
    + intros ?. apply H2. by right.
Qed.

Lemma vector_id_inj_fresh (d d' : pystr) (i i' : nat) :
  "_"%char ∉ d -> "_"%char ∉ d' ->
  vector_id d i = vector_id d' i' -> d = d' /\ i = i'.
Proof.
  intros Hd Hd' Heq. unfold vector_id in Heq.
  change (str "_" ++ ?r) with ("_"%char :: r) in Heq.
  apply app_cons_inv_fresh in Heq as [-> Hi]; [|done..].
  split; [done|]. by apply py_str_nat_inj.
Qed.

Section Request.
Context (exn_str : exn -> pystr) (ObjectId : pystr -> option pystr)
        (extract_text_from_pdf : pystr -> result pystr)
        (encode : pystr -> result (list float))
        (uuid4 now new_object_id : nat -> pystr)
        (fault : store_call -> option exn).

Let upload_one :=
  upload_one extract_text_from_pdf encode uuid4 now new_object_id fault.
Let upload_loop :=
  upload_loop extract_text_from_pdf encode uuid4 now new_object_id fault.
Let file_vectors := file_vectors extract_text_from_pdf encode uuid4.
Let request_vectors := request_vectors extract_text_from_pdf encode uuid4.
Let document_of := document_of uuid4 now new_object_id.

(** When no batch fails, the batches leave the index as
    [upsert_in_batches] does. *)
Lemma upsert_batches_done (k : nat) (vectors : list Vector) (starts : list nat) :
  forall (idx idx' : gmap pystr Vector),
    upsert_batches fault k idx vectors starts = (idx', None) ->
    idx' = foldl (fun m i =>
                    index_upsert m (py_slice vectors (Z.of_nat i)
                                             (Z.of_nat i + batch_size)))
                 idx starts.
Proof.
  induction starts as [|i starts IH]; intros idx idx'; cbn [upsert_batches foldl].
  - by intros [= <-].
  - destruct (fault (upsert_batch k i)); [done|]. apply IH.
Qed.

Lemma upload_one_ok (notebook_id : pystr) (k : nat) (file : UploadFile)
    (st st' : State) (d : UploadedDoc) :
  upload_one notebook_id k file st = (st', Ok d) ->
  exists text,
    extract_text_from_pdf (uf_content file) = Ok text /\
    notebooks st' = notebooks st /\
    documents st'
    = documents st ++ [document_of notebook_id k file (Chunker.chunk_text_default text)] /\
    index st' = index_upsert (index st) (file_vectors notebook_id k file).
Proof.
  unfold upload_one, Upload.upload_one, file_vectors, Upload.file_vectors.
  destruct (negb (endswith _ _)); [done|].
  destruct (extract_text_from_pdf (uf_content file)) as [text|e]; [|done].
  destruct (fault (write_file k)); [done|].
  destruct (fault (insert_document k)); [done|].
  destruct (upsert_batches _ _ _ _ _) as [idx [e|]] eqn:Hbatches; [done|].
  apply upsert_batches_done in Hbatches. fold (upsert_in_batches (index st)
    (make_vectors encode (uuid4 k) notebook_id (uf_filename file)
       (enumerate (Chunker.chunk_text_default text)))) in Hbatches.
  intros [= <- _]. exists text. cbn. by rewrite Hbatches, upsert_in_batches_all.
Qed.

Lemma upload_loop_ok (notebook_id : pystr) (files : list UploadFile) :
  forall (k : nat) (st st' : State) (acc docs : list UploadedDoc),
    upload_loop notebook_id k files st acc = (st', Ok docs) ->
    notebooks st' = notebooks st /\
    index st' = index_upsert (index st) (request_vectors notebook_id k files) /\
    (forall d, d ∈ documents st -> d ∈ documents st') /\
    forall (j : nat) (file : UploadFile), files !! j = Some file ->
      exists text,
        extract_text_from_pdf (uf_content file) = Ok text /\
        document_of notebook_id (k + j) file (Chunker.chunk_text_default text)
          ∈ documents st'.
Proof.
  induction files as [|file files IH]; intros k st st' acc docs Hrun.
  - cbn in Hrun. inversion Hrun; subst. by split; [|split; [|split]].
  - cbn [upload_loop Upload.upload_loop] in Hrun.
    fold (upload_one notebook_id k file st) in Hrun.
    destruct (upload_one notebook_id k file st) as [st1 [d|e]] eqn:Hone; [|done].
    apply upload_one_ok in Hone as (text & Hext & Hnb & Hdocs & Hidx).
    fold (upload_loop notebook_id (S k) files st1 (acc ++ [d])) in Hrun.
    apply IH in Hrun as (Hnb' & Hidx' & Hkeep & Hfiles).
    split; [congruence|]. split; [|split].
    + rewrite Hidx', Hidx. cbn [request_vectors Upload.request_vectors].
      by rewrite index_upsert_app.
    + intros d0 Hd0. apply Hkeep. rewrite Hdocs. apply elem_of_app. by left.
    + intros [|j] f Hf.
      * cbn in Hf. inversion Hf; subst f. exists text. split; [done|].
        rewrite Nat.add_0_r. apply Hkeep. rewrite Hdocs.
        apply elem_of_app. right. by left.
      * cbn in Hf. destruct (Hfiles j f Hf) as (t & ? & ?). exists t.
        split; [done|]. by replace (k + S j)%nat with (S k + j)%nat by lia.
Qed.

Lemma elem_of_file_vectors (notebook_id : pystr) (k : nat) (file : UploadFile)
    (v : Vector) :
  v ∈ file_vectors notebook_id k file <->
  exists text i chunk embedding,
    extract_text_from_pdf (uf_content file) = Ok text /\
    Chunker.chunk_text_default text !! i = Some chunk /\
    get_embedding encode chunk = Some embedding /\ embedding <> [] /\
    v = vector_record (uuid4 k) notebook_id (uf_filename file) i chunk embedding.
Proof.
  unfold file_vectors, Upload.file_vectors.
  destruct (extract_text_from_pdf (uf_content file)) as [text|e].
  - rewrite elem_of_make_vectors. split.
    + intros (i & chunk & emb & Hin%elem_of_enumerate & ? & ? & ?).
      by exists text, i, chunk, emb.
    + intros (t & i & chunk & emb & [= <-] & Hin & ? & ? & ?).
      exists i, chunk, emb. by rewrite elem_of_enumerate.
  - split; [by intros ?%elem_of_nil|]. by intros (? & ? & ? & ? & ? & _).
Qed.

Lemma elem_of_request_vectors (notebook_id : pystr) (files : list UploadFile)
    (v : Vector) : forall k,
  v ∈ request_vectors notebook_id k files <->
  exists j file, files !! j = Some file /\ v ∈ file_vectors notebook_id (k + j) file.
Proof.
  induction files as [|file files IH]; intros k.
  - split; [by intros ?%elem_of_nil|]. by intros (j & f & ? & _).
  - cbn [request_vectors Upload.request_vectors].
    fold (file_vectors notebook_id k file).
    fold (request_vectors notebook_id (S k) files).
    rewrite elem_of_app, IH. split.
    + intros [Hv | (j & f & Hf & Hv)].
      * exists 0%nat, file. by rewrite Nat.add_0_r.
      * exists (S j), f. split; [done|].
        by replace (k + S j)%nat with (S k + j)%nat by lia.
    + intros ([|j] & f & Hf & Hv).
      * left. cbn in Hf. inversion Hf; subst. by rewrite Nat.add_0_r in Hv.
      * right. exists j, f. split; [done|].
        by replace (S k + j)%nat with (k + S j)%nat by lia.
Qed.

Hypothesis uuid4_inj : forall k k', uuid4 k = uuid4 k' -> k = k'.
Hypothesis uuid4_plain : forall k, "_"%char ∉ uuid4 k.

Lemma file_vectors_NoDup (notebook_id : pystr) (k : nat) (file : UploadFile) :
  NoDup (v_id <$> file_vectors notebook_id k file).
Proof.
  unfold file_vectors, Upload.file_vectors.
  destruct (extract_text_from_pdf (uf_content file)); [|constructor].
  apply make_vectors_NoDup. rewrite enumerate_fst. apply NoDup_seq.
Qed.

Lemma request_vectors_NoDup (notebook_id : pystr) (files : list UploadFile) :
  forall k, NoDup (v_id <$> request_vectors notebook_id k files).
Proof using uuid4_inj uuid4_plain.
  induction files as [|file files IH]; intros k; [constructor|].
  cbn [request_vectors Upload.request_vectors]. rewrite fmap_app.
  apply NoDup_app. split; [apply file_vectors_NoDup|]. split; [|apply IH].
  intros key (v & -> & Hv)%list_elem_of_fmap (w & Hid & Hw)%list_elem_of_fmap.
  apply elem_of_file_vectors in Hv as (? & i & ? & ? & _ & _ & _ & _ & ->).
  apply elem_of_request_vectors in Hw as (j & f & _ & Hw).
  apply elem_of_file_vectors in Hw as (? & i' & ? & ? & _ & _ & _ & _ & ->).
  cbn in Hid. apply vector_id_inj_fresh in Hid as [Hk _]; [|done..].
  apply uuid4_inj in Hk. lia.
Qed.
End Request.

Section Claim.
Context (exn_str : exn -> pystr) (ObjectId : pystr -> option pystr)
        (extract_text_from_pdf : pystr -> result pystr)
        (encode : pystr -> result (list float))
        (uuid4 now new_object_id : nat -> pystr)
        (fault : store_call -> option exn).

(** C7, amended: after a successful upload in which the document ids drawn
    are distinct and hold no underscore, every file has its document
    record with its chunks, and every chunk whose embedding came back
    non-empty has the record of id [{doc_id}_{i}] in the index, with its
    own document id, chunk index and text; no other new entry of the index
    carries that document id and chunk index. *)
Theorem upload_indexes_embedded_chunks (st st' : State) (notebook_id : pystr)
    (files : list UploadFile) (resp : UploadResponse) :
  (forall k k', uuid4 k = uuid4 k' -> k = k') ->
  (forall k, "_"%char ∉ uuid4 k) ->
  upload_pdfs exn_str ObjectId extract_text_from_pdf encode uuid4 now
              new_object_id fault st notebook_id files = (st', Ok resp) ->
  forall (k : nat) (file : UploadFile), files !! k = Some file ->
    exists text,
      extract_text_from_pdf (uf_content file) = Ok text /\
      document_of uuid4 now new_object_id notebook_id k file
                  (Chunker.chunk_text_default text) ∈ documents st' /\
      (forall (i : nat) (chunk : pystr) (embedding : list float),
         Chunker.chunk_text_default text !! i = Some chunk ->
         get_embedding encode chunk = Some embedding -> embedding <> [] ->
         index st' !! vector_id (uuid4 k) i
         = Some (vector_record (uuid4 k) notebook_id (uf_filename file)
                               i chunk embedding)) /\
      (forall (key : pystr) (v : Vector),
         index st' !! key = Some v ->
         vm_doc_id (v_metadata v) = uuid4 k ->
         index st !! key = Some v \/
         exists chunk,
           key = vector_id (uuid4 k) (vm_chunk_index (v_metadata v)) /\
           Chunker.chunk_text_default text !! vm_chunk_index (v_metadata v)
             = Some chunk /\
           get_embedding encode chunk = Some (v_values v) /\
           vm_text (v_metadata v) = chunk).
Proof.
  intros Hinj Hplain Hrun k file Hfile. unfold upload_pdfs in Hrun.
  destruct (ObjectId notebook_id) as [oid|]; [|by inversion Hrun].
  destruct (find_notebook (notebooks st) oid); [|by inversion Hrun].
  destruct (fault make_dir); [by inversion Hrun|].
  destruct (upload_loop _ _ _ _ _ _ _ _ _ _ _) as [st1 [docs|e]] eqn:Hloop;
    [|by inversion Hrun].
  destruct (fault update_count); [by inversion Hrun|].
  apply upload_loop_ok in Hloop as (_ & Hidx & _ & Hfiles).
  inversion Hrun; subst st'; clear Hrun. cbn [index documents].
  destruct (Hfiles k file Hfile) as (text & Hext & Hdoc).
  exists text. split; [done|]. split; [done|]. split.
  - intros i chunk embedding Hi He Hne. rewrite Hidx.
    apply (index_upsert_member _ _
             (vector_record (uuid4 k) notebook_id (uf_filename file)
                            i chunk embedding)).
    + by apply request_vectors_NoDup.
    + apply elem_of_request_vectors. exists k, file. split; [done|].
      apply elem_of_file_vectors. by exists text, i, chunk, embedding.
  - intros key v Hv Hd. rewrite Hidx in Hv.
    apply index_upsert_changed in Hv as [[Hv <-]|Hv]; [right|by left].
    apply elem_of_request_vectors in Hv as (j & f & Hf & Hv).
    apply elem_of_file_vectors in Hv as (t & i & chunk & emb & Ht & Hi & He & _ & ->).
    cbn in Hd. apply Hinj in Hd. cbn in Hd. subst j.
    rewrite Hfile in Hf. inversion Hf; subst f.
    rewrite Hext in Ht. inversion Ht; subst t.
    exists chunk. by cbn.
Qed.
End Claim.

(** C7 does not hold as stated: when the embedding model fails, the upload
    succeeds, the chunk is persisted on the document record, and the index
    holds no record for it. *)
Lemma upload_without_embedding_leaves_no_vector :
  (upload_pdfs example_exn_str Some bytes_as_text embeds_none example_uuid4
               example_now example_object_id no_fault fresh_state example_notebook_id
               [example_file]).2
  = Ok {| ur_message := str "Successfully uploaded 1 PDF(s)";
          ur_documents :=
            [ {| ud_id := example_uuid4 0;
                 ud_filename := str "notes.pdf";
                 ud_uploaded_at := str "2024-03-01T10:05:00";
                 ud_chunks_count := 1 |} ] |} /\
  d_chunks <$> documents
    (upload_pdfs example_exn_str Some bytes_as_text embeds_none example_uuid4
                 example_now example_object_id no_fault fresh_state example_notebook_id
                 [example_file]).1
  = [Some [str "Binary search halves the range."]] /\
  index
    (upload_pdfs example_exn_str Some bytes_as_text embeds_none example_uuid4
                 example_now example_object_id no_fault fresh_state example_notebook_id
                 [example_file]).1
    !! vector_id (example_uuid4 0) 0 = None.
Proof. split; [|split]; by vm_compute. Qed.

Lemma example_uuid4_inj (k k' : nat) : example_uuid4 k = example_uuid4 k' -> k = k'.
Proof.
  unfold example_uuid4. intros H. apply (f_equal length) in H.
  rewrite !length_replicate in H. lia.
Qed.

Lemma example_uuid4_plain (k : nat) : "_"%char ∉ example_uuid4 k.
Proof. unfold example_uuid4. by intros [? _]%elem_of_replicate. Qed.

(** One file, a model that embeds every text. *)
Lemma upload_indexes_embedded_chunks_witness :
  (forall k k', example_uuid4 k = example_uuid4 k' -> k = k') /\
  (forall k, "_"%char ∉ example_uuid4 k) /\
  exists (st' : State) (resp : UploadResponse),
    upload_pdfs example_exn_str Some bytes_as_text embeds_all example_uuid4
                example_now example_object_id no_fault fresh_state example_notebook_id
                [example_file] = (st', Ok resp) /\
    index st' !! vector_id (example_uuid4 0) 0
    = Some (vector_record (example_uuid4 0) example_notebook_id (str "notes.pdf") 0
                          (str "Binary search halves the range.") [1%float]).
Proof.
  split; [exact example_uuid4_inj|]. split; [exact example_uuid4_plain|].
  destruct (upload_pdfs example_exn_str Some bytes_as_text embeds_all example_uuid4
              example_now example_object_id no_fault fresh_state example_notebook_id
              [example_file]) as [st' [resp|e]] eqn:Hrun.
  - exists st', resp. split; [reflexivity|].
    destruct (upload_indexes_embedded_chunks example_exn_str Some bytes_as_text
                embeds_all example_uuid4 example_now example_object_id
                no_fault fresh_state st' example_notebook_id [example_file] resp
                example_uuid4_inj example_uuid4_plain Hrun 0%nat example_file
                eq_refl) as (text & Hext & _ & Hvec & _).
    inversion Hext; subst text.
    apply (Hvec 0%nat (str "Binary search halves the range.") [1%float]);
      [by vm_compute | reflexivity | discriminate].
  - vm_compute in Hrun. discriminate Hrun.
Defined.

End UploadFacts.

(** * Further properties of the embedding *)

Section ChunkerMore.
Import Chunker.
Local Open Scope Z_scope.

Lemma chunk_text_enough_fuel (text : pystr) (chunk_size overlap : Z) :
  overlap < chunk_size ->
  chunk_text (S (length text)) text chunk_size overlap
  = Some (map (window text chunk_size overlap)
              (seq 0 (rounds (Z.of_nat (length text)) (chunk_size - overlap)))).
Proof.
  intros Hlt. unfold chunk_text.
  change 0 with (Z.of_nat 0 * (chunk_size - overlap)).
  rewrite (chunk_loop_run text chunk_size overlap Hlt
             (rounds (Z.of_nat (length text)) (chunk_size - overlap)) 0 _ []);
    [done..|].
  pose proof (rounds_le_len (Z.of_nat (length text)) (chunk_size - overlap)). lia.
Qed.

Lemma chunk_text_default_windows (text : pystr) :
  chunk_text_default text
  = map (window text 1000 200) (seq 0 (rounds (Z.of_nat (length text)) 800)).
Proof.
  unfold chunk_text_default, default_chunk_size, default_overlap.
  by rewrite chunk_text_enough_fuel.
Qed.

Lemma chunk_text_default_nil (text : pystr) :
  chunk_text_default text = [] <-> text = [].
Proof.
  rewrite chunk_text_default_windows. split.
  - intros H. apply (f_equal length) in H.
    rewrite length_map, length_seq in H. cbn [length] in H.
    destruct text as [|a text]; [done|].
    assert (Hr : (0 < rounds (Z.of_nat (length (a :: text))) 800)%nat).
    { apply rounds_lt; cbn [length]; lia. }
    lia.
  - by intros ->.
Qed.

(** X1: with the sizes that every caller uses (1000 and 200), a text of
    [n] characters gives ceil(n / 800) chunks, none at all exactly for the
    empty text; chunk [i] is [text[800 i : 800 i + 1000]] and holds
    between 1 and 1000 characters. *)
Theorem default_chunks_shape (text : pystr) :
  length (chunk_text_default text)
    = Z.to_nat ((Z.of_nat (length text) + 799) / 800) /\
  (chunk_text_default text = [] <-> text = []) /\
  (forall (i : nat) (c : pystr), chunk_text_default text !! i = Some c ->
     c = py_slice text (Z.of_nat i * 800) (Z.of_nat i * 800 + 1000) /\
     (1 <= length c <= 1000)%nat).
Proof.
  rewrite chunk_text_default_windows. split; [|split].
  - rewrite length_map, length_seq. unfold rounds. f_equal. f_equal. lia.
  - rewrite <- chunk_text_default_windows. apply chunk_text_default_nil.
  - intros i c Hc. apply lookup_windows in Hc as [Hi ->].
    apply rounds_lt in Hi; [|lia..]. split; [done|].
    pose proof (length_window text 1000 200 ltac:(lia) i ltac:(lia)). lia.
Qed.

(** X2: when 0 <= overlap < chunk_size, two consecutive chunks share the
    overlap: what the earlier chunk holds after its first
    [chunk_size - overlap] characters is the beginning of the next
    chunk. *)
Theorem consecutive_chunks_share_overlap (text : pystr) (chunk_size overlap : Z) :
  0 <= overlap < chunk_size ->
  exists chunks,
    chunk_text (S (length text)) text chunk_size overlap = Some chunks /\
    forall (i : nat) (c d : pystr),
      chunks !! i = Some c -> chunks !! S i = Some d ->
      drop (Z.to_nat (chunk_size - overlap)) c
      = take (length c - Z.to_nat (chunk_size - overlap)) d.
Proof.
  intros Hov. eexists. split; [apply chunk_text_enough_fuel; lia|].
  intros i c d Hc Hd.
  apply lookup_windows in Hc as [Hi ->]. apply lookup_windows in Hd as [Hj ->].
  apply rounds_lt in Hi; [|lia..]. apply rounds_lt in Hj; [|lia..].
  pose proof (length_window text chunk_size overlap Hov i Hi) as Hlen.
  rewrite (window_inside text chunk_size overlap Hov i Hi) in *.
  rewrite (window_inside text chunk_size overlap Hov (S i) Hj).
  rewrite skipn_firstn_comm, drop_drop, take_take.
  replace (Z.to_nat (Z.of_nat i * (chunk_size - overlap))
           + Z.to_nat (chunk_size - overlap))%nat
    with (Z.to_nat (Z.of_nat (S i) * (chunk_size - overlap))) by nia.
  set (rest := drop _ text).
  assert (Hrest : Z.of_nat (length rest)
                  = Z.of_nat (length text) - Z.of_nat (S i) * (chunk_size - overlap)).
  { subst rest. rewrite length_drop. nia. }
  destruct (Z.le_gt_cases chunk_size
              (Z.of_nat (length text) - Z.of_nat i * (chunk_size - overlap))).
  - f_equal. nia.
  - rewrite !take_ge; [done|nia..].
Qed.

(** The text "abcde" cut with size 3 and overlap 2. *)
Lemma consecutive_chunks_share_overlap_witness :
  0 <= 2 < 3 /\
  exists chunks,
    chunk_text (S (length (str "abcde"))) (str "abcde") 3 2 = Some chunks /\
    forall (i : nat) (c d : pystr),
      chunks !! i = Some c -> chunks !! S i = Some d ->
      drop (Z.to_nat (3 - 2)) c = take (length c - Z.to_nat (3 - 2)) d.
Proof.
  split; [lia|]. apply (consecutive_chunks_share_overlap (str "abcde") 3 2). lia.
Defined.

End ChunkerMore.

Section MockTestMore.
Import MockTest.

Lemma py_in_scalar (key : pystr) (v : Json) :
  is_scalar v = true -> py_in key v = Raise TypeError.
Proof. by destruct v. Qed.

Lemma py_in_container (key : pystr) (v : Json) :
  is_scalar v = false -> exists b, py_in key v = Ok b.
Proof. destruct v; try done; by eexists. Qed.

(** X3: what the [try] block around [json.loads] makes of a reply: text
    that does not decode, and a decoded list, string or object without
    both required fields, give the fallback; a decoded value with both
    fields is kept; a decoded number, boolean or null raises a [TypeError],
    which this handler does not catch. *)
Theorem parse_evaluation_outcomes (json_loads : pystr -> option Json)
    (fallback : Json) (eval_text : pystr) :
  (json_loads eval_text = None ->
   parse_evaluation json_loads fallback eval_text = Ok fallback) /\
  (forall v, json_loads eval_text = Some v -> is_scalar v = true ->
   parse_evaluation json_loads fallback eval_text = Raise TypeError) /\
  (forall v, json_loads eval_text = Some v ->
   py_in (str "score") v = Ok true -> py_in (str "feedback") v = Ok true ->
   parse_evaluation json_loads fallback eval_text = Ok v) /\
  (forall v, json_loads eval_text = Some v -> is_scalar v = false ->
   py_in (str "score") v = Ok false \/ py_in (str "feedback") v = Ok false ->
   parse_evaluation json_loads fallback eval_text = Ok fallback).
Proof.
  unfold parse_evaluation, loads. split; [|split; [|split]].
  - by intros ->.
  - intros v -> Hs. cbn [mbind result_bind]. unfold validate_required.
    rewrite (py_in_scalar (str "score") _ Hs). reflexivity.
  - intros v -> H1 H2. cbn [mbind result_bind]. unfold validate_required.
    rewrite H1. cbn [mbind result_bind negb]. rewrite H2. reflexivity.
  - intros v -> Hs Hm. cbn [mbind result_bind]. unfold validate_required.
    destruct (py_in_container (str "score") v Hs) as [b1 H1].
    destruct (py_in_container (str "feedback") v Hs) as [b2 H2].
    rewrite H1. cbn [mbind result_bind]. destruct b1; cbn [negb]; [|reflexivity].
    rewrite H2. cbn [mbind result_bind]. destruct b2; cbn [negb]; [|reflexivity].
    rewrite H1, H2 in Hm. by destruct Hm.
Qed.

(** The object of the example is kept. *)
Lemma parse_evaluation_outcomes_witness :
  example_json_loads example_object
    = Some (JDict [(str "score", JInt 80); (str "feedback", JStr (str "ok"))]) /\
  parse_evaluation example_json_loads theory_fallback example_object
    = Ok (JDict [(str "score", JInt 80); (str "feedback", JStr (str "ok"))]).
Proof.
  assert (H : example_json_loads example_object
              = Some (JDict [(str "score", JInt 80); (str "feedback", JStr (str "ok"))]))
    by (by vm_compute).
  split; [exact H|].
  destruct (parse_evaluation_outcomes example_json_loads theory_fallback example_object)
    as (_ & _ & Hc & _).
  exact (Hc _ H eq_refl eq_refl).
Defined.

Lemma count_correct_bound (correct_order : Json) (total : nat) (user : list pystr) :
  py_len correct_order = Ok total ->
  forall (k n : nat),
    count_correct correct_order (zip (seq k (length user)) user) = Ok n ->
    (n <= length user /\ n <= total - k)%nat.
Proof.
  intros Ht. induction user as [|x user IH]; intros k n.
  - cbn. intros [= <-]. lia.
  - cbn [length seq zip zip_with count_correct]. rewrite Ht.
    cbn [mbind result_bind].
    destruct (if (k <? total)%nat
              then str_equals x <$> py_index correct_order (Z.of_nat k)
              else Ok false) as [hit|e] eqn:Hhit; [|done].
    cbn [mbind result_bind].
    destruct (count_correct correct_order (zip (seq (S k) (length user)) user))
      as [n'|e] eqn:Hrest; [|done].
    cbn [mbind result_bind]. intros [= <-].
    destruct (IH (S k) n' Hrest) as [H1 H2].
    destruct (Nat.ltb_spec k total); [destruct hit; lia|].
    inversion Hhit; subst hit. lia.
Qed.

(** X4: in the result of a reorder round the number of correct positions
    is at most the number of items submitted and at most the length of
    the canonical order, which is not zero; the two orders are reported
    as they were given. *)
Theorem reorder_count_bounds (question : Json) (answer : ReorderAnswer)
    (r : ReorderResult) :
  evaluate_reorder_answer question answer = Ok r ->
  (rr_correct_positions r <= length (ra_ordered_items answer))%nat /\
  (rr_correct_positions r <= rr_total_items r)%nat /\
  (0 < rr_total_items r)%nat /\
  py_len (rr_correct_order r) = Ok (rr_total_items r) /\
  rr_user_order r = ra_ordered_items answer.
Proof.
  unfold evaluate_reorder_answer.
  destruct (py_getitem question (str "correct_order")) as [co|]; [|done].
  cbn [mbind result_bind].
  destruct (count_correct co (enumerate (ra_ordered_items answer)))
    as [n|] eqn:Hn; [|done].
  cbn [mbind result_bind]. unfold reorder_score.
  destruct (py_len co) as [[|t]|] eqn:Ht; try done.
  cbn [mbind result_bind].
  destruct (py_getitem question (str "question")); [|done].
  cbn [mbind result_bind].
  destruct (py_get question (str "topic") (JStr (str "General"))); [|done].
  cbn [mbind result_bind]. intros [= <-]. cbn.
  destruct (count_correct_bound co (S t) (ra_ordered_items answer) Ht 0 n Hn).
  repeat split; [lia..|done].
Qed.

(** The answer [B, A, C, D] to the example question. *)
Lemma reorder_count_bounds_witness :
  exists r,
    evaluate_reorder_answer example_reorder_question example_reorder_answer = Ok r /\
    (rr_correct_positions r <= 4)%nat /\ (0 < rr_total_items r)%nat.
Proof.
  destruct (evaluate_reorder_answer example_reorder_question example_reorder_answer)
    as [r|e] eqn:Hr.
  - exists r. split; [reflexivity|].
    destruct (reorder_count_bounds _ _ _ Hr) as (H1 & _ & H3 & _).
    split; [exact H1 | exact H3].
  - vm_compute in Hr. discriminate Hr.
Defined.

Lemma count_correct_empty_order (items : list (nat * pystr)) :
  count_correct (JList []) items = Ok 0%nat.
Proof.
  induction items as [|[i x] items IH]; [done|].
  cbn [count_correct py_len length mbind result_bind].
  replace (i <? 0)%nat with false by (symmetry; by apply Nat.ltb_ge; lia).
  cbn [mbind result_bind]. by rewrite IH.
Qed.

(** X5: a stored reorder question without [correct_order] raises a
    [KeyError], and one whose [correct_order] is the empty list raises a
    [ZeroDivisionError], whatever the answer is. *)
Theorem reorder_round_without_order_raises (kv : list (pystr * Json))
    (answer : ReorderAnswer) :
  (dict_lookup (str "correct_order") kv = None ->
   evaluate_reorder_answer (JDict kv) answer = Raise (KeyError (str "correct_order"))) /\
  (dict_lookup (str "correct_order") kv = Some (JList []) ->
   evaluate_reorder_answer (JDict kv) answer = Raise ZeroDivisionError).
Proof.
  unfold evaluate_reorder_answer. cbn [py_getitem]. split; intros ->; [done|].
  cbn [mbind result_bind]. by rewrite count_correct_empty_order.
Qed.

(** X6: an answer whose question index is at or beyond the number of
    stored questions is skipped without an error: the results are those
    of the answers whose index lies below that number. *)
Theorem reorder_results_skip_out_of_range (questions : list Json)
    (answers : list ReorderAnswer) :
  reorder_results (JList questions) answers
  = reorder_results (JList questions)
      (filter (fun a => (ra_question_index a < Z.of_nat (length questions))%Z) answers).
Proof.
  induction answers as [|a answers IH]; [done|].
  rewrite filter_cons. cbn [reorder_results py_len mbind result_bind].
  destruct (Z.leb_spec (Z.of_nat (length questions)) (ra_question_index a)).
  - rewrite decide_False by lia. done.
  - rewrite decide_True by lia. cbn [reorder_results py_len mbind result_bind].
    destruct (Z.leb_spec (Z.of_nat (length questions)) (ra_question_index a)); [lia|].
    by rewrite IH.
Qed.

Lemma list_index_cases {A} (l : list A) (i : Z) :
  list_index l i
  = if decide (0 <= i < Z.of_nat (length l))%Z
    then match l !! Z.to_nat i with Some x => Ok x | None => Raise IndexError end
    else if decide (- Z.of_nat (length l) <= i < 0)%Z
    then match l !! Z.to_nat (Z.of_nat (length l) + i) with
         | Some x => Ok x
         | None => Raise IndexError
         end
    else Raise IndexError.
Proof.
  unfold list_index. destruct (Z.ltb_spec i 0).
  - rewrite decide_False by lia.
    destruct (Z.ltb_spec (i + Z.of_nat (length l)) 0).
    + by rewrite decide_False by lia.
    + rewrite decide_True by lia. by rewrite Z.add_comm.
  - destruct (Z.ltb_spec i 0); [lia|].
    destruct (decide (0 <= i < Z.of_nat (length l))%Z); [done|].
    rewrite decide_False by lia.
    rewrite lookup_ge_None_2; [done|lia].
Qed.

(** X7: a negative question index passes the range test and counts from
    the end of the stored questions: index [-k] with [k] at most their
    number evaluates the answer against the [k]-th question from the end,
    and a smaller index raises an [IndexError]. *)
Theorem negative_question_index_counts_from_the_end (questions : list Json)
    (answer : ReorderAnswer) (answers : list ReorderAnswer) :
  (ra_question_index answer < 0)%Z ->
  (forall question,
     (- Z.of_nat (length questions) <= ra_question_index answer)%Z ->
     questions !! Z.to_nat (Z.of_nat (length questions) + ra_question_index answer)
     = Some question ->
     reorder_results (JList questions) (answer :: answers)
     = (r ← evaluate_reorder_answer question answer;
        rs ← reorder_results (JList questions) answers;
        Ok (r :: rs))) /\
  ((ra_question_index answer < - Z.of_nat (length questions))%Z ->
   reorder_results (JList questions) (answer :: answers) = Raise IndexError).
Proof.
  intros Hneg.
  assert (Hgo : reorder_results (JList questions) (answer :: answers)
                = (question ← list_index questions (ra_question_index answer);
                   r ← evaluate_reorder_answer question answer;
                   rs ← reorder_results (JList questions) answers;
                   Ok (r :: rs))).
  { cbn [reorder_results py_len mbind result_bind py_index].
    destruct (Z.leb_spec (Z.of_nat (length questions)) (ra_question_index answer));
      [lia|done]. }
  rewrite Hgo, list_index_cases. rewrite decide_False by lia. split.
  - intros question Hlo Hq. rewrite decide_True by lia. by rewrite Hq.
  - intros Hlo. by rewrite decide_False by lia.
Qed.

(** The last of two stored questions, addressed as [-1]. *)
Lemma negative_question_index_counts_from_the_end_witness :
  (-1 < 0)%Z /\
  exists r,
    reorder_results (JList [JNull; example_reorder_question])
      [{| ra_question_index := -1;
          ra_ordered_items := [str "B"; str "A"; str "C"; str "D"] |}]
    = Ok [r] /\
    rr_correct_positions r = 2%nat.
Proof.
  split; [lia|].
  destruct (negative_question_index_counts_from_the_end
              [JNull; example_reorder_question]
              {| ra_question_index := -1;
                 ra_ordered_items := [str "B"; str "A"; str "C"; str "D"] |}
              [] ltac:(cbn; lia)) as [H _].
  eexists. split.
  - rewrite (H example_reorder_question ltac:(cbn; lia) eq_refl). by vm_compute.
  - reflexivity.
Defined.
End MockTestMore.

Section QuizMore.
Import QuizApi Examples Scenarios.

Lemma length_py_slice_from_0 {A} (l : list A) (stop : Z) :
  (0 <= stop)%Z -> Z.of_nat (length (py_slice l 0 stop)) = Z.min stop (Z.of_nat (length l)).
Proof.
  intros Hs. rewrite py_slice_nonneg by lia.
  rewrite length_take, length_drop. lia.
Qed.

Section Cut.
Context (encode : pystr -> result (list float)) (randint : nat -> Z)
        (index_query : QueryCall -> list Match).

Lemma sample_loop_calls_length (n : nat) :
  forall k filter_dict acc (pre : list QueryCall) a c,
    sample_loop encode randint index_query n k filter_dict acc pre = Ok (a, c) ->
    length c = (length pre + n)%nat.
Proof.
  induction n as [|n IH]; intros k filter_dict acc pre a c; cbn [sample_loop].
  - intros [= _ <-]. lia.
  - destruct (encode _); [|done]. cbn [mbind result_bind].
    intros H%IH. rewrite length_app in H. cbn in H. lia.
Qed.

(** X8: the chunks selected for a quiz are at most twice the number of
    questions asked for, the index is queried at most ten times, and a
    request for no question (or a negative number of them) selects
    nothing without querying the index. *)
Theorem selection_is_cut_to_twice_the_questions (request : QuizGenerateRequest)
    (selected : list Chunk) (calls : list QueryCall) :
  select_chunks encode randint index_query request = Ok (selected, calls) ->
  (Z.of_nat (length selected) <= Z.max 0 (g_num_questions request * 2))%Z /\
  (Z.of_nat (length calls) <= 10)%Z /\
  (g_num_questions request <= 0 -> selected = [] /\ calls = [])%Z.
Proof.
  unfold select_chunks.
  set (filter_dict := {| f_notebook_id := g_notebook_id request; f_doc_id_in := _ |}).
  destruct (sample_loop encode randint index_query
              (Z.to_nat (Z.min (g_num_questions request * 2) 10)) 0 filter_dict [] [])
    as [[all_chunks cs]|e] eqn:Hrun; [|done].
  cbn [mbind result_bind]. intros [= <- <-].
  assert (Hcalls : length cs = Z.to_nat (Z.min (g_num_questions request * 2) 10)).
  { apply sample_loop_calls_length in Hrun. cbn in Hrun. lia. }
  destruct (Z.le_gt_cases (g_num_questions request) 0) as [Hn|Hn].
  - assert (Hz : Z.to_nat (Z.min (g_num_questions request * 2) 10) = 0%nat) by lia.
    rewrite Hz in Hrun. cbn in Hrun. inversion Hrun; subst.
    assert (Hnil : forall stop, py_slice (@nil Chunk) 0 stop = []).
    { intros stop. unfold py_slice. by rewrite drop_nil, take_nil. }
    rewrite Hnil. cbn [length]. split; [lia|]. split; [lia|]. done.
  - rewrite length_py_slice_from_0 by lia. split; [lia|]. split; [lia|]. lia.
Qed.
End Cut.

(** Five questions over the two-chunk corpus. *)
Lemma selection_is_cut_to_twice_the_questions_witness :
  exists selected calls,
    select_chunks zero_vector (fun _ => 1%Z) same_matches example_quiz_request
      = Ok (selected, calls) /\
    (Z.of_nat (length selected) <= 10)%Z.
Proof.
  destruct (select_chunks zero_vector (fun _ => 1%Z) same_matches example_quiz_request)
    as [[selected calls]|e] eqn:Hs.
  - exists selected, calls. split; [reflexivity|].
    destruct (selection_is_cut_to_twice_the_questions _ _ _ _ _ _ Hs) as [H _].
    exact H.
  - vm_compute in Hs. discriminate Hs.
Defined.



Section Outcome.
Context (exn_str : exn -> pystr) (json_loads : pystr -> option Json)
        (encode : pystr -> result (list float)) (randint : nat -> Z)
        (index_query : QueryCall -> list Match)
        (quiz_prompt : Z -> pystr -> pystr -> pystr)
        (chat_completion : pystr -> pystr -> result pystr)
        (uuid4 now : pystr)
        (grade_quiz : Quiz -> QuizSubmitRequest -> result Json).

Let generate_quiz := generate_quiz exn_str json_loads encode randint index_query
                                   quiz_prompt chat_completion uuid4 now.

Ltac quiz_fails :=
  cbn; split; [done|]; split; [done|]; split; [done|]; split; [done|];
  split; [by left|]; split; [by intros ? [= <-] | by intros ? [=]].

(** X10: [generate_quiz] changes nothing but the quiz store, to which it
    adds at most the entry of the new quiz id; every failure is answered
    with status 500; and after a successful answer the quiz is stored
    under the id of the response, with as many questions as the response
    counts, so that [submit_quiz] with that id reaches the grading of
    that quiz. *)
Theorem generate_quiz_outcome (st : State) (request : QuizGenerateRequest) :
  notebooks (generate_quiz st request).1 = notebooks st /\
  documents (generate_quiz st request).1 = documents st /\
  index (generate_quiz st request).1 = index st /\
  disk (generate_quiz st request).1 = disk st /\
  (quizzes_store (generate_quiz st request).1 = quizzes_store st \/
   exists quiz,
     quizzes_store (generate_quiz st request).1
     = <[uuid4 := quiz]> (quizzes_store st)) /\
  (forall e, (generate_quiz st request).2 = Raise e -> status_of e = Some 500%Z) /\
  (forall resp, (generate_quiz st request).2 = Ok resp ->
     r_quiz_id resp = uuid4 /\
     (0 < count_documents (documents st) (g_notebook_id request))%nat /\
     exists quiz,
       quizzes_store (generate_quiz st request).1 !! r_quiz_id resp = Some quiz /\
       qz_id quiz = uuid4 /\
       qz_document_ids quiz = g_document_ids request /\
       py_len (qz_questions quiz) = Ok (r_total_questions resp) /\
       qz_num_questions quiz = r_total_questions resp /\
       forall answers,
         submit_quiz exn_str grade_quiz (generate_quiz st request).1
                     {| s_quiz_id := r_quiz_id resp; s_answers := answers |}
         = wrap_500 exn_str
             (grade_quiz quiz {| s_quiz_id := r_quiz_id resp; s_answers := answers |})).
Proof.
  unfold generate_quiz, QuizApi.generate_quiz, generate_quiz_body.
  destruct (count_documents (documents st) (g_notebook_id request) =? 0)%nat eqn:Hc.
  { quiz_fails. }
  apply Nat.eqb_neq in Hc.
  destruct (select_chunks encode randint index_query request) as [[selected calls]|e0].
  2: { destruct e0; quiz_fails. }
  destruct (negb (truthy selected)).
  { quiz_fails. }
  destruct (chat_completion _ _) as [content|e0].
  2: { destruct e0; quiz_fails. }
  destruct (json_loads _) as [questions|].
  2: { quiz_fails. }
  destruct (py_len questions) as [n|e0] eqn:Hn.
  2: { destruct e0; quiz_fails. }
  cbn [fst snd notebooks documents index disk quizzes_store].
  split; [done|]. split; [done|]. split; [done|]. split; [done|].
  split; [right; by eexists|]. split.
  - intros e. destruct (py_iter questions) as [qs|e0]; cbn [mbind result_bind].
    + destruct (questions_for_user qs) as [xs|e1]; cbn [mbind result_bind]; [done|].
      by destruct e1; intros [= <-].
    + by destruct e0; intros [= <-].
  - intros resp Hr.
    assert (Hresp : r_quiz_id resp = uuid4 /\ r_total_questions resp = n).
    { destruct (py_iter questions) as [qs|e0]; cbn [mbind result_bind] in Hr.
      - destruct (questions_for_user qs) as [xs|e1]; cbn [mbind result_bind] in Hr.
        + by inversion Hr.
        + by destruct e1.
      - by destruct e0. }
    destruct Hresp as [Hid Htot]. split; [done|]. split; [lia|].
    eexists. rewrite Hid, lookup_insert_eq. split; [reflexivity|]. cbn.
    split; [done|]. split; [done|]. split; [by rewrite Htot|]. split; [done|].
    intros answers. unfold submit_quiz. cbn [quizzes_store s_quiz_id].
    by rewrite lookup_insert_eq.
Qed.
End Outcome.

(** One question over the two example documents. *)
Lemma generate_quiz_outcome_witness :
  exists resp,
    (generate_quiz example_exn_str quiz_json_loads zero_vector (fun _ => 1%Z)
       same_matches quiz_context_prompt quiz_model (str "q1")
       (str "2024-03-01T11:00:00") example_state example_quiz_request).2 = Ok resp /\
    r_quiz_id resp = str "q1" /\
    (0 < count_documents (documents example_state) example_notebook_id)%nat.
Proof.
  destruct (generate_quiz example_exn_str quiz_json_loads zero_vector (fun _ => 1%Z)
              same_matches quiz_context_prompt quiz_model (str "q1")
              (str "2024-03-01T11:00:00") example_state example_quiz_request).2
    as [resp|e] eqn:Hrun.
  - exists resp. split; [reflexivity|].
    destruct (generate_quiz_outcome example_exn_str quiz_json_loads zero_vector
                (fun _ => 1%Z) same_matches quiz_context_prompt quiz_model
                (str "q1") (str "2024-03-01T11:00:00") grade_nothing
                example_state example_quiz_request)
      as (_ & _ & _ & _ & _ & _ & Hok).
    destruct (Hok resp Hrun) as (Hid & Hcount & _).
    split; [exact Hid | exact Hcount].
  - vm_compute in Hrun. discriminate Hrun.
Defined.

End QuizMore.

Section UploadMore.
Import Upload Notebooks Examples Scenarios.

Lemma count_documents_app (docs new : list Document) (notebook_id : pystr) :
  count_documents (docs ++ new) notebook_id
  = (count_documents docs notebook_id + count_documents new notebook_id)%nat.
Proof. unfold count_documents. by rewrite filter_app, length_app. Qed.

Lemma count_documents_all (new : list Document) (notebook_id : pystr) :
  Forall (fun d => d_notebook_id d = Some notebook_id) new ->
  forall other,
    count_documents new other = if decide (other = notebook_id) then length new else 0%nat.
Proof.
  intros Hall other. unfold count_documents.
  induction Hall as [|d new Hd Hall IH]; [by case_decide|].
  rewrite filter_cons. rewrite Hd. case_decide as Ho.
  - subst other. rewrite decide_True by done. cbn. by rewrite IH.
  - rewrite decide_False by congruence. done.
Qed.

Lemma find_notebook_inc (nbs : list Notebook) (oid : pystr) (k : Z) (n : Notebook) :
  find_notebook nbs oid = Some n ->
  find_notebook (inc_document_count nbs oid k) oid
  = Some {| n__id := n__id n; n_name := n_name n; n_color := n_color n;
            n_icon := n_icon n; n_created_at := n_created_at n;
            n_document_count := Some (default 0 (n_document_count n) + k)%Z |}.
Proof.
  unfold find_notebook. induction nbs as [|nb nbs IH]; [done|].
  cbn [list_find inc_document_count]. unfold pystr_eqb.
  case_decide as Hd.
  - rewrite bool_decide_eq_true_2 by done. cbn. intros [= <-].
    by rewrite decide_True.
  - rewrite bool_decide_eq_false_2 by done. cbn [list_find].
    rewrite decide_False by done.
    destruct (list_find _ nbs) as [[i x]|] eqn:Hf; [|done]. cbn. intros [= <-].
    specialize (IH eq_refl).
    destruct (list_find _ (inc_document_count nbs oid k)) as [[j y]|]; [|done].
    cbn in IH. by inversion IH.
Qed.

Section Loop.
Context (exn_str : exn -> pystr) (ObjectId : pystr -> option pystr)
        (extract_text_from_pdf : pystr -> result pystr)
        (encode : pystr -> result (list float))
        (uuid4 now new_object_id : nat -> pystr)
        (fault : store_call -> option exn).

(** The first batch that the index did not take. *)
Lemma upsert_batches_failed (k : nat) (vectors : list Vector) (starts : list nat) :
  forall (idx idx' : gmap pystr Vector) (e : exn),
    upsert_batches fault k idx vectors starts = (idx', Some e) ->
    exists i, i ∈ starts /\ fault (upsert_batch k i) = Some e.
Proof.
  induction starts as [|i starts IH]; intros idx idx' e; cbn [upsert_batches].
  - done.
  - destruct (fault (upsert_batch k i)) as [e0|] eqn:Hi.
    + intros [= _ <-]. exists i. split; [left|done].
    + intros (j & Hj & He)%IH. exists j. split; [by right|done].
Qed.

Lemma upload_one_grows (notebook_id : pystr) (k : nat) (file : UploadFile)
    (st st' : State) (r : result UploadedDoc) :
  upload_one extract_text_from_pdf encode uuid4 now new_object_id fault
             notebook_id k file st = (st', r) ->
  notebooks st' = notebooks st /\
  quizzes_store st' = quizzes_store st /\
  match r with
  | Ok _ =>
      exists doc, documents st' = documents st ++ [doc] /\
                  d_notebook_id doc = Some notebook_id
  | Raise e =>
      (documents st' = documents st /\
       fails_before_record extract_text_from_pdf fault k file e) \/
      (fails_after_record fault k e /\
       exists doc, documents st' = documents st ++ [doc] /\
                   d_notebook_id doc = Some notebook_id)
  end.
Proof.
  unfold upload_one, fails_before_record, fails_after_record.
  destruct (endswith (uf_filename file) (str ".pdf")) eqn:Hpdf; cbn [negb].
  2: { intros [= <- <-]. split; [done|]. split; [done|]. left. split; [done|].
       by left. }
  destruct (extract_text_from_pdf (uf_content file)) as [text|e] eqn:Htext.
  2: { intros [= <- <-]. split; [done|]. split; [done|]. left. split; [done|].
       right. by left. }
  destruct (fault (write_file k)) as [e|] eqn:Hwrite.
  { intros [= <- <-]. split; [done|]. split; [done|]. left. split; [done|].
    right. right. by left. }
  destruct (fault (insert_document k)) as [e|] eqn:Hinsert.
  { intros [= <- <-]. split; [done|]. split; [done|]. left. split; [done|].
    right. right. by right. }
  destruct (upsert_batches _ _ _ _ _) as [idx [e|]] eqn:Hbatches.
  - apply upsert_batches_failed in Hbatches as (i & _ & Hi).
    intros [= <- <-]. split; [done|]. split; [done|]. right.
    split; [by exists i|]. by eexists.
  - intros [= <- <-]. split; [done|]. split; [done|]. by eexists.
Qed.

Lemma upload_loop_grows (notebook_id : pystr) (files : list UploadFile) :
  forall (k : nat) (st st' : State) (acc : list UploadedDoc)
         (r : result (list UploadedDoc)),
    upload_loop extract_text_from_pdf encode uuid4 now new_object_id fault
                notebook_id k files st acc = (st', r) ->
    notebooks st' = notebooks st /\
    quizzes_store st' = quizzes_store st /\
    exists new,
      documents st' = documents st ++ new /\
      Forall (fun d => d_notebook_id d = Some notebook_id) new /\
      match r with
      | Ok docs =>
          length new = length files /\ length docs = (length acc + length files)%nat
      | Raise e =>
          exists j file,
            files !! j = Some file /\
            ((length new = j /\
              fails_before_record extract_text_from_pdf fault (k + j) file e) \/
             (length new = S j /\ fails_after_record fault (k + j) e))
      end.
Proof.
  induction files as [|file files IH]; intros k st st' acc r;
    cbn [upload_loop].
  - intros [= <- <-]. split; [done|]. split; [done|]. exists [].
    rewrite app_nil_r. cbn. split; [done|]. split; [constructor|lia].
  - destruct (upload_one _ _ _ _ _ _ _ _ _ _) as [st1 [d|e]] eqn:Hone;
      apply upload_one_grows in Hone as (Hn1 & Hq1 & Hone).
    + destruct Hone as (doc & Hd1 & Hdoc).
      intros H. apply IH in H as (Hn & Hq & new & Hd & Hall & Hr).
      split; [congruence|]. split; [congruence|].
      exists (doc :: new). rewrite Hd, Hd1, <- app_assoc. split; [done|].
      split; [by constructor|].
      destruct r as [docs|e]; cbn [length].
      * rewrite length_app in Hr. cbn in Hr. lia.
      * destruct Hr as (j & f & Hf & Hr). exists (S j), f. split; [done|].
        replace (k + S j)%nat with (S k + j)%nat by lia.
        destruct Hr as [[? ?]|[? ?]]; [left|right]; (split; [lia|done]).
    + intros [= <- <-]. split; [done|]. split; [done|].
      destruct Hone as [[Hd1 Hcause]|[Hcause (doc & Hd1 & Hdoc)]].
      * exists []. rewrite app_nil_r. split; [done|]. split; [constructor|].
        exists 0%nat, file. split; [done|]. left. by rewrite Nat.add_0_r.
      * exists [doc]. split; [done|]. split; [by repeat constructor|].
        exists 0%nat, file. split; [done|]. right. by rewrite Nat.add_0_r.
Qed.

(** X11: after a successful upload of [n] files the response lists [n]
    documents, the collection holds [n] more records, all of them in the
    notebook of the request, the stored counter of that notebook is up by
    [n], and [get_notebook] reports the earlier count plus [n]. *)
Theorem upload_success_counts (st st' : State) (notebook_id : pystr)
    (files : list UploadFile) (resp : UploadResponse) :
  upload_pdfs exn_str ObjectId extract_text_from_pdf encode uuid4 now
              new_object_id fault st notebook_id files = (st', Ok resp) ->
  length (ur_documents resp) = length files /\
  length (documents st') = (length (documents st) + length files)%nat /\
  (forall other,
     count_documents (documents st') other
     = (count_documents (documents st) other
        + if decide (other = notebook_id) then length files else 0)%nat) /\
  quizzes_store st' = quizzes_store st /\
  exists oid notebook,
    ObjectId notebook_id = Some oid /\
    find_notebook (notebooks st) oid = Some notebook /\
    n_document_count <$> find_notebook (notebooks st') oid
    = Some (Some (default 0 (n_document_count notebook) + Z.of_nat (length files))%Z) /\
    nv_document_count <$> get_notebook exn_str ObjectId st' notebook_id
    = Ok (Z.of_nat (count_documents (documents st) notebook_id + length files)).
Proof.
  unfold upload_pdfs.
  destruct (ObjectId notebook_id) as [oid|] eqn:Hoid; [|by intros [=]].
  destruct (find_notebook (notebooks st) oid) as [notebook|] eqn:Hfind;
    [|by intros [=]].
  destruct (fault make_dir); [by intros [=]|].
  destruct (upload_loop _ _ _ _ _ _ _ _ _ _ _) as [st1 [docs|e]] eqn:Hloop;
    [|by intros [=]].
  destruct (fault update_count); [by intros [=]|].
  apply upload_loop_grows in Hloop as (Hn & Hq & new & Hd & Hall & Hlen & Hdocs).
  intros [= <- <-]. cbn [ur_documents documents notebooks quizzes_store].
  assert (Hcount : forall other,
    count_documents (documents st1) other
    = (count_documents (documents st) other
       + if decide (other = notebook_id) then length files else 0)%nat).
  { intros other. rewrite Hd, count_documents_app, (count_documents_all _ _ Hall).
    by rewrite Hlen. }
  split; [cbn in Hdocs; lia|]. split; [by rewrite Hd, length_app, Hlen|].
  split; [done|]. split; [done|].
  exists oid, notebook. split; [done|]. split; [done|].
  rewrite Hn, (find_notebook_inc _ _ _ _ Hfind). split; [done|].
  unfold get_notebook. rewrite Hoid. cbn [notebooks documents].
  rewrite (find_notebook_inc _ _ _ _ Hfind). cbn.
  rewrite Hcount, decide_True by done. done.
Qed.

(** X12: an upload that fails is answered with status 500 and is not
    rolled back. The stored counter of the notebook is left as it was,
    and the records stored before the failure stay in the collection, at
    most one per file sent and all in the notebook of the request: none
    when the notebook id is malformed or matches no notebook or the
    directory cannot be made; those of the files before the [j]-th when
    the [j]-th file is no PDF, cannot be read as one, cannot be written
    or cannot be recorded; those of the files up to the [j]-th when the
    index refuses a batch of its vectors; and all of them when the
    closing update of the counter fails. So they are fewer than the
    files, whenever there is a file, unless the index or the closing
    update failed. *)
Theorem upload_failure_is_partial (st st' : State) (notebook_id : pystr)
    (files : list UploadFile) (e : exn) :
  upload_pdfs exn_str ObjectId extract_text_from_pdf encode uuid4 now
              new_object_id fault st notebook_id files = (st', Raise e) ->
  status_of e = Some 500%Z /\
  notebooks st' = notebooks st /\
  exists new,
    documents st' = documents st ++ new /\
    (length new <= length files)%nat /\
    Forall (fun d => d_notebook_id d = Some notebook_id) new /\
    ((new = [] /\
      (ObjectId notebook_id = None \/
       (exists oid, ObjectId notebook_id = Some oid /\
                    find_notebook (notebooks st) oid = None) \/
       is_Some (fault make_dir))) \/
     (exists j file e0,
        files !! j = Some file /\ length new = j /\
        e = HTTPException 500 (exn_str e0) /\
        fails_before_record extract_text_from_pdf fault j file e0) \/
     (exists j file e0,
        files !! j = Some file /\ length new = S j /\
        e = HTTPException 500 (exn_str e0) /\
        fails_after_record fault j e0) \/
     (length new = length files /\ is_Some (fault update_count))) /\
    (files <> [] ->
     (forall k i, fault (upsert_batch k i) = None) ->
     fault update_count = None ->
     (length new < length files)%nat).
Proof.
  unfold upload_pdfs.
  destruct (ObjectId notebook_id) as [oid|] eqn:Hoid.
  2: { intros [= <- <-]. split; [done|]. split; [done|]. exists [].
       rewrite app_nil_r. split; [done|]. split; [cbn; lia|].
       split; [constructor|]. split; [left; split; [done|]; by left|].
       intros Hfiles _ _. destruct files; [done|cbn; lia]. }
  destruct (find_notebook (notebooks st) oid) as [notebook|] eqn:Hfind.
  2: { intros [= <- <-]. split; [done|]. split; [done|]. exists [].
       rewrite app_nil_r. split; [done|]. split; [cbn; lia|].
       split; [constructor|].
       split; [left; split; [done|]; right; left; by exists oid|].
       intros Hfiles _ _. destruct files; [done|cbn; lia]. }
  destruct (fault make_dir) as [e1|] eqn:Hdir.
  { intros [= <- <-]. split; [done|]. split; [done|]. exists [].
    rewrite app_nil_r. split; [done|]. split; [cbn; lia|].
    split; [constructor|].
    split; [left; split; [done|]; right; right; by eexists|].
    intros Hfiles _ _. destruct files; [done|cbn; lia]. }
  destruct (upload_loop _ _ _ _ _ _ _ _ _ _ _) as [st1 [docs|e0]] eqn:Hloop;
    apply upload_loop_grows in Hloop as (Hn & Hq & new & Hd & Hall & Hr).
  - destruct Hr as [Hlen _].
    destruct (fault update_count) as [e1|] eqn:Hcount; [|by intros [=]].
    intros [= <- <-]. split; [done|]. split; [done|].
    exists new. split; [done|]. split; [lia|]. split; [done|].
    split; [right; right; right; split; [done | by eexists]|].
    intros _ _ Hup. done.
  - destruct Hr as (j & file & Hfile & Hr).
    pose proof (lookup_lt_Some _ _ _ Hfile) as Hj.
    intros [= <- <-]. split; [done|]. split; [done|].
    exists new. split; [done|].
    destruct Hr as [[Hlen Hcause]|[Hlen Hcause]].
    + split; [lia|]. split; [done|].
      split; [right; left; by exists j, file, e0|]. intros _ _ _. lia.
    + split; [lia|]. split; [done|].
      split; [right; right; left; by exists j, file, e0|].
      intros _ Hup _. destruct Hcause as [i Hi]. by rewrite Hup in Hi.
Qed.
End Loop.

(** Two PDFs into the notebook that holds two documents. *)
Lemma upload_success_counts_witness :
  exists st' resp,
    upload_pdfs example_exn_str Some bytes_as_text embeds_all example_uuid4
                example_now example_object_id no_fault example_state
                example_notebook_id [example_file; example_file]
    = (st', Ok resp) /\
    length (documents st') = 4%nat /\
    nv_document_count <$> get_notebook example_exn_str Some st' example_notebook_id
    = Ok 4%Z.
Proof.
  destruct (upload_pdfs example_exn_str Some bytes_as_text embeds_all example_uuid4
              example_now example_object_id no_fault example_state
              example_notebook_id [example_file; example_file])
    as [st' [resp|e]] eqn:Hrun.
  - exists st', resp. split; [reflexivity|].
    destruct (upload_success_counts _ _ _ _ _ _ _ _ _ _ _ _ _ Hrun)
      as (_ & Hlen & _ & _ & oid & nb & _ & _ & _ & Hget).
    split; [exact Hlen | exact Hget].
  - vm_compute in Hrun. discriminate Hrun.
Defined.

(** A PDF followed by a file that is not one: one record stays. *)
Lemma upload_failure_is_partial_witness :
  exists st' e,
    upload_pdfs example_exn_str Some bytes_as_text embeds_all example_uuid4
                example_now example_object_id no_fault example_state
                example_notebook_id [example_file; example_text_file]
    = (st', Raise e) /\
    status_of e = Some 500%Z /\
    notebooks st' = notebooks example_state /\
    length (documents st') = 3%nat.
Proof.
  destruct (upload_pdfs example_exn_str Some bytes_as_text embeds_all example_uuid4
              example_now example_object_id no_fault example_state
              example_notebook_id [example_file; example_text_file])
    as [st' [resp|e]] eqn:Hrun.
  - vm_compute in Hrun. discriminate Hrun.
  - exists st', e. split; [reflexivity|].
    destruct (upload_failure_is_partial _ _ _ _ _ _ _ _ _ _ _ _ _ Hrun)
      as (Hs & Hn & new & Hd & _ & _ & _ & Hfewer).
    split; [exact Hs|]. split; [exact Hn|].
    vm_compute in Hrun. by inversion Hrun.
Defined.

(** One PDF while the index is not reachable: the request fails, and the
    record of the file is stored all the same. *)
Lemma upload_with_index_down_keeps_the_record :
  (upload_pdfs example_exn_str Some bytes_as_text embeds_all example_uuid4
               example_now example_object_id index_down fresh_state
               example_notebook_id [example_file]).2
  = Raise (HTTPException 500 (example_exn_str (OtherError (str "index unavailable"))))
  /\
  d_doc_id <$> documents
    (upload_pdfs example_exn_str Some bytes_as_text embeds_all example_uuid4
                 example_now example_object_id index_down fresh_state
                 example_notebook_id [example_file]).1
  = [Some (example_uuid4 0)] /\
  size (index
    (upload_pdfs example_exn_str Some bytes_as_text embeds_all example_uuid4
                 example_now example_object_id index_down fresh_state
                 example_notebook_id [example_file]).1) = 0%nat.
Proof. split; [|split]; by vm_compute. Qed.

Lemma batches_windows (vectors : list Vector) :
  batches vectors
  = map (Chunker.window vectors batch_size 0)
        (seq 0 (Chunker.rounds (Z.of_nat (length vectors)) batch_size)).
Proof.
  unfold batches, batch_starts. rewrite <- list_fmap_compose.
  change (map ?f ?l) with (f <$> l).
  apply list_fmap_ext. intros _ k _. unfold compose, Chunker.window.
  rewrite Z.sub_0_r. f_equal; unfold batch_size; lia.
Qed.

(** X13: the batches sent to the index are the vectors cut into
    consecutive runs of at most 100, none of them empty, and sending them
    one after the other leaves the index as one upsert of all the vectors
    would. *)
Theorem batches_cover_the_vectors_once (idx : gmap pystr Vector)
    (vectors : list Vector) :
  concat (batches vectors) = vectors /\
  Forall (fun batch => (1 <= length batch <= 100)%nat) (batches vectors) /\
  upsert_in_batches idx vectors = foldl index_upsert idx (batches vectors) /\
  upsert_in_batches idx vectors = index_upsert idx vectors.
Proof.
  split; [|split; [|split]].
  - rewrite batches_windows, <- reassemble_0.
    replace batch_size with (batch_size - 0)%Z at 2 by lia.
    apply reassemble_windows. unfold batch_size. lia.
  - rewrite batches_windows. apply Forall_forall. intros b Hb.
    change (map ?f ?l) with (f <$> l) in Hb.
    apply list_elem_of_fmap in Hb as (k & -> & Hk%elem_of_seq).
    assert (Hlt : (Z.of_nat k * (batch_size - 0) < Z.of_nat (length vectors))%Z).
    { apply rounds_lt; [unfold batch_size; lia | lia |].
      rewrite Z.sub_0_r. lia. }
    pose proof (length_window vectors batch_size 0
                  ltac:(unfold batch_size; lia) k Hlt) as Hl.
    unfold batch_size in *. lia.
  - unfold upsert_in_batches, batches. by rewrite foldl_fmap.
  - apply upsert_in_batches_all.
Qed.

End UploadMore.

Section ChunkCacheMore.
Import ChunkCache Examples Scenarios.

Lemma find_document_set_chunks (docs : list Document) (_id : pystr)
    (chunks : list pystr) (d : Document) :
  find_document docs _id = Some d ->
  find_document (set_chunks docs _id chunks) _id = Some (with_chunks d chunks).
Proof.
  unfold find_document. induction docs as [|x docs IH]; [done|].
  cbn [list_find set_chunks]. case_decide as Hx.
  - rewrite bool_decide_eq_true_2 by done. cbn. intros [= <-].
    by rewrite decide_True.
  - rewrite bool_decide_eq_false_2 by done. cbn [list_find].
    rewrite decide_False by done.
    destruct (list_find _ docs) as [[i y]|]; [|done]. cbn. intros [= <-].
    specialize (IH eq_refl).
    destruct (list_find _ (set_chunks docs _id chunks)) as [[j z]|]; [|done].
    cbn in IH. by inversion IH.
Qed.

Section Ensure.
Context (path_exists : pystr -> bool) (read_pdf_text : pystr -> result pystr)
        (update_one : list Document -> pystr -> list pystr -> result (list Document)).

(** X14: for a record without cached chunks whose file is found and
    read, [ensure_document_chunks] returns the chunks of the text read
    (with the default sizes); the collection is left alone when the text
    is empty and when the update fails, and the chunks are returned all
    the same. *)
Theorem rehydrated_chunks_are_returned (docs : list Document) (doc : Document)
    (pdf_path text : pystr) :
  default [] (d_chunks doc) = [] ->
  resolve_pdf_path doc = Some pdf_path ->
  path_exists pdf_path = true ->
  read_pdf_text pdf_path = Ok text ->
  (ensure_document_chunks path_exists read_pdf_text update_one docs doc).2
    = Ok (Chunker.chunk_text_default text) /\
  (text = [] ->
   (ensure_document_chunks path_exists read_pdf_text update_one docs doc).1 = docs) /\
  (forall e _id, d__id doc = Some _id ->
     update_one docs _id (Chunker.chunk_text_default text) = Raise e ->
     (ensure_document_chunks path_exists read_pdf_text update_one docs doc).1 = docs).
Proof.
  intros Hc Hp He Hr. unfold ensure_document_chunks.
  rewrite Hc, Hp, He, Hr. cbn [truthy negb].
  destruct (Chunker.chunk_text_default text) as [|c cs] eqn:Hchunks.
  - cbn. split; [done|]. split; [done|]. done.
  - cbn [truthy negb]. split; [|split].
    + destruct (d__id doc) as [_id|]; [|done]. by destruct (update_one _ _ _).
    + intros ->. by rewrite (proj2 (chunk_text_default_nil [])) in Hchunks.
    + intros e _id -> Hup. by rewrite Hup.
Qed.
End Ensure.

(** X15: when the update is carried out, the chunks rebuilt from the
    file are stored on the record with their count, and a later call on
    the stored record returns the same chunks from the cache, whatever
    the disk and the extractor then are, and leaves the collection as it
    is. *)
Theorem cached_chunks_round_trip (path_exists path_exists' : pystr -> bool)
    (read_pdf_text read_pdf_text' : pystr -> result pystr)
    (update_one' : list Document -> pystr -> list pystr -> result (list Document))
    (docs : list Document) (doc stored : Document) (_id pdf_path text : pystr) :
  default [] (d_chunks doc) = [] ->
  d__id doc = Some _id ->
  find_document docs _id = Some stored ->
  resolve_pdf_path doc = Some pdf_path ->
  path_exists pdf_path = true ->
  read_pdf_text pdf_path = Ok text ->
  text <> [] ->
  exists docs' cached,
    ensure_document_chunks path_exists read_pdf_text update_one_ok docs doc
      = (docs', Ok (Chunker.chunk_text_default text)) /\
    find_document docs' _id = Some cached /\
    d_chunks cached = Some (Chunker.chunk_text_default text) /\
    d_chunks_count cached = Some (length (Chunker.chunk_text_default text)) /\
    ensure_document_chunks path_exists' read_pdf_text' update_one' docs' cached
      = (docs', Ok (Chunker.chunk_text_default text)).
Proof.
  intros Hc Hid Hfind Hp He Hr Hne.
  assert (Hchunks : Chunker.chunk_text_default text <> []).
  { intros H. by apply chunk_text_default_nil in H. }
  exists (set_chunks docs _id (Chunker.chunk_text_default text)),
         (with_chunks stored (Chunker.chunk_text_default text)).
  split; [|split; [by apply find_document_set_chunks|split; [done|split; [done|]]]].
  - unfold ensure_document_chunks. rewrite Hc, Hp, He, Hr, Hid. cbn [truthy negb].
    by destruct (Chunker.chunk_text_default text).
  - unfold ensure_document_chunks. cbn [d_chunks with_chunks default].
    by destruct (Chunker.chunk_text_default text).
Qed.
(** The record whose chunks are gone, with its file back on the disk. *)
Lemma rehydrated_chunks_are_returned_witness :
  default [] (d_chunks lost_document) = [] /\
  resolve_pdf_path lost_document
  = Some (str "uploads/65f0c0ffee65f0c0ffee0001/d1.pdf") /\
  file_present (str "uploads/65f0c0ffee65f0c0ffee0001/d1.pdf") = true /\
  reads_text (str "uploads/65f0c0ffee65f0c0ffee0001/d1.pdf")
  = Ok (str "Binary search halves the range.") /\
  (ensure_document_chunks file_present reads_text update_one_ok
     [lost_document] lost_document).2
  = Ok (Chunker.chunk_text_default (str "Binary search halves the range.")).
Proof.
  split; [reflexivity|]. split; [reflexivity|]. split; [reflexivity|].
  split; [reflexivity|].
  exact (proj1 (rehydrated_chunks_are_returned file_present reads_text update_one_ok
                  [lost_document] lost_document
                  (str "uploads/65f0c0ffee65f0c0ffee0001/d1.pdf")
                  (str "Binary search halves the range.")
                  eq_refl eq_refl eq_refl eq_refl)).
Defined.

(** The same record: rebuilt once, then served with the file lost. *)
Lemma cached_chunks_round_trip_witness :
  exists docs' cached,
    ensure_document_chunks file_present reads_text update_one_ok
      [lost_document] lost_document
    = (docs', Ok (Chunker.chunk_text_default (str "Binary search halves the range.")))
    /\
    find_document docs' (str "65f0c0ffee65f0c0ffee00aa") = Some cached /\
    ensure_document_chunks no_file unreadable keep_documents docs' cached
    = (docs', Ok (Chunker.chunk_text_default (str "Binary search halves the range."))).
Proof.
  destruct (cached_chunks_round_trip file_present no_file reads_text unreadable
              keep_documents [lost_document] lost_document lost_document
              (str "65f0c0ffee65f0c0ffee00aa")
              (str "uploads/65f0c0ffee65f0c0ffee0001/d1.pdf")
              (str "Binary search halves the range.")
              eq_refl eq_refl eq_refl eq_refl eq_refl eq_refl ltac:(done))
    as (docs' & cached & H1 & H2 & _ & _ & H5).
  exists docs', cached. split; [exact H1|]. split; [exact H2 | exact H5].
Defined.

End ChunkCacheMore.

Section CardFacts.
Import Cards Examples Scenarios.

Lemma length_py_slice_prefix {A} (l : list A) (stop : Z) :
  (0 <= stop)%Z -> (Z.of_nat (length (py_slice l 0 stop)) <= stop)%Z.
Proof.
  intros Hs. rewrite py_slice_nonneg by lia.
  rewrite length_take, length_drop. lia.
Qed.

Lemma py_prefix_sized (v w : Json) (stop : nat) :
  py_prefix v (Z.of_nat stop) = Ok w -> sized_within stop w.
Proof.
  destruct v; try done; cbn; intros [= <-]; eexists; (split; [reflexivity|]).
  - pose proof (length_py_slice_prefix s (Z.of_nat stop)). lia.
  - pose proof (length_py_slice_prefix l (Z.of_nat stop)). lia.
Qed.

Section Generate.
Context (json_loads : pystr -> option Json) (card_prompt : pystr -> pystr -> pystr)
        (chat : nat -> pystr -> pystr -> result pystr).

Lemma card_of_reply_fields (ct response : pystr) (card : Card) :
  card_of_reply json_loads ct response = Ok (Some card) ->
  card_type card = ct /\
  sized_within 100 (card_title card) /\
  sized_within 500 (card_content card) /\
  (card_example card = JNull \/ sized_within 300 (card_example card)).
Proof.
  unfold card_of_reply.
  destruct (MockTest.loads json_loads _) as [card_data|]; [|done].
  cbn [mbind result_bind].
  destruct (py_in (str "title") card_data) as [has_title|]; [|done].
  cbn [mbind result_bind].
  destruct (if has_title then py_in (str "content") card_data else Ok false)
    as [[|]|]; [|done..].
  cbn [mbind result_bind].
  destruct (py_getitem card_data (str "title")) as [t|]; [|done].
  cbn [mbind result_bind].
  destruct (py_prefix t 100) as [t'|] eqn:Ht; [|done]. cbn [mbind result_bind].
  destruct (py_getitem card_data (str "content")) as [c|]; [|done].
  cbn [mbind result_bind].
  destruct (py_prefix c 500) as [c'|] eqn:Hc; [|done]. cbn [mbind result_bind].
  destruct (py_get card_data (str "example") JNull) as [ex|]; [|done].
  cbn [mbind result_bind].
  apply (py_prefix_sized t t' 100) in Ht. apply (py_prefix_sized c c' 500) in Hc.
  destruct (py_truthy ex).
  - destruct (py_get card_data (str "example") (JStr [])) as [e|]; [|done].
    cbn [mbind result_bind].
    destruct (py_prefix e 300) as [e'|] eqn:He; [|done]. cbn [mbind result_bind].
    apply (py_prefix_sized e e' 300) in He.
    intros [= <-]. cbn. repeat split; [done..|by right].
  - cbn [mbind result_bind]. intros [= <-]. cbn. repeat split; [done..|by left].
Qed.

(** What a run of the attempts shows, from [attempt] on: the calls made,
    the card returned, and where the exception that leaves the function
    comes from. *)
Lemma card_attempts_spec (max_retries : Z) (ct prompt : pystr) (remaining : nat) :
  forall (attempt calls : nat) (bound : bool) (out : result (option Card)) (n : nat),
    card_attempts json_loads chat remaining attempt max_retries ct prompt bound calls
      = (out, n) ->
    (calls <= n <= calls + remaining)%nat /\
    (forall card, out = Ok (Some card) ->
       (calls < n)%nat /\ card_type card = ct /\
       sized_within 100 (card_title card) /\
       sized_within 500 (card_content card) /\
       (card_example card = JNull \/ sized_within 300 (card_example card))) /\
    (forall e, out = Raise e ->
       e = unbound_local_error /\ bound = false /\
       exists failing : nat,
         (attempt <= failing < attempt + remaining)%nat /\
         chat failing card_system_message prompt = Raise JSONDecodeError /\
         forall earlier, (attempt <= earlier < failing)%nat ->
           exists e', chat earlier card_system_message prompt = Raise e').
Proof.
  induction remaining as [|remaining IH]; intros attempt calls bound out n;
    cbn [card_attempts].
  - intros [= <- <-]. split; [lia|]. split; done.
  - destruct (chat attempt card_system_message prompt) as [response|e0] eqn:Hchat.
    + assert (Hnext :
        card_attempts json_loads chat remaining (S attempt) max_retries ct prompt
                      true (S calls) = (out, n) ->
        (calls <= n <= calls + S remaining)%nat /\
        (forall card, out = Ok (Some card) ->
           (calls < n)%nat /\ card_type card = ct /\
           sized_within 100 (card_title card) /\
           sized_within 500 (card_content card) /\
           (card_example card = JNull \/ sized_within 300 (card_example card))) /\
        (forall e, out = Raise e ->
           e = unbound_local_error /\ bound = false /\
           exists failing : nat,
             (attempt <= failing < attempt + S remaining)%nat /\
             chat failing card_system_message prompt = Raise JSONDecodeError /\
             forall earlier, (attempt <= earlier < failing)%nat ->
               exists e', chat earlier card_system_message prompt = Raise e')).
      { intros Hrun. destruct (IH _ _ _ _ _ Hrun) as (H1 & H2 & H3).
        split; [lia|]. split.
        - intros c Hc. destruct (H2 c Hc) as (? & ?). split; [lia|done].
        - intros e He. by destruct (H3 e He) as (_ & ? & _). }
      destruct (card_of_reply json_loads ct response) as [[card|]|e1] eqn:Hreply.
      * intros [= <- <-]. split; [lia|]. split; [|done].
        intros c [= <-]. split; [lia|]. by apply card_of_reply_fields in Hreply.
      * exact Hnext.
      * destruct (Z.of_nat attempt =? max_retries - 1)%Z; [|exact Hnext].
        intros [= <- <-]. split; [lia|]. split; done.
    + assert (Hnext :
        card_attempts json_loads chat remaining (S attempt) max_retries ct prompt
                      bound (S calls) = (out, n) ->
        (calls <= n <= calls + S remaining)%nat /\
        (forall card, out = Ok (Some card) ->
           (calls < n)%nat /\ card_type card = ct /\
           sized_within 100 (card_title card) /\
           sized_within 500 (card_content card) /\
           (card_example card = JNull \/ sized_within 300 (card_example card))) /\
        (forall e, out = Raise e ->
           e = unbound_local_error /\ bound = false /\
           exists failing : nat,
             (attempt <= failing < attempt + S remaining)%nat /\
             chat failing card_system_message prompt = Raise JSONDecodeError /\
             forall earlier, (attempt <= earlier < failing)%nat ->
               exists e', chat earlier card_system_message prompt = Raise e')).
      { intros Hrun. destruct (IH _ _ _ _ _ Hrun) as (H1 & H2 & H3).
        split; [lia|]. split.
        - intros c Hc. destruct (H2 c Hc) as (? & ?). split; [lia|done].
        - intros e He.
          destruct (H3 e He) as (-> & Hb & failing & Hf & Hjson & Hearly).
          split; [done|]. split; [done|]. exists failing. split; [lia|].
          split; [done|]. intros earlier Hrange.
          destruct (decide (earlier = attempt)) as [->|Hne]; [by eexists|].
          apply Hearly. lia. }
      assert (Hlast :
        (if (Z.of_nat attempt =? max_retries - 1)%Z then (Ok None, S calls)
         else card_attempts json_loads chat remaining (S attempt) max_retries ct
                            prompt bound (S calls)) = (out, n) ->
        (calls <= n <= calls + S remaining)%nat /\
        (forall card, out = Ok (Some card) ->
           (calls < n)%nat /\ card_type card = ct /\
           sized_within 100 (card_title card) /\
           sized_within 500 (card_content card) /\
           (card_example card = JNull \/ sized_within 300 (card_example card))) /\
        (forall e, out = Raise e ->
           e = unbound_local_error /\ bound = false /\
           exists failing : nat,
             (attempt <= failing < attempt + S remaining)%nat /\
             chat failing card_system_message prompt = Raise JSONDecodeError /\
             forall earlier, (attempt <= earlier < failing)%nat ->
               exists e', chat earlier card_system_message prompt = Raise e')).
      { destruct (Z.of_nat attempt =? max_retries - 1)%Z; [|exact Hnext].
        intros [= <- <-]. split; [lia|]. split; done. }
      destruct e0; try exact Hlast.
      destruct bound; [exact Hlast|].
      intros [= <- <-]. split; [lia|]. split; [done|].
      intros e [= <-]. split; [done|]. split; [done|].
      exists attempt. split; [lia|]. split; [done|]. intros earlier ?. lia.
Qed.

Lemma generate_card_spec (ct content : pystr) (max_retries : Z)
    (out : result (option Card)) (n : nat) :
  generate_card_with_llm json_loads card_prompt chat ct content max_retries
  = (out, n) ->
  (n <= Z.to_nat max_retries)%nat /\
  (ct ∉ CARD_TYPES -> out = Ok None /\ n = 0%nat) /\
  (forall card, out = Ok (Some card) ->
     ct ∈ CARD_TYPES /\ (1 <= n)%nat /\ card_type card = ct /\
     sized_within 100 (card_title card) /\
     sized_within 500 (card_content card) /\
     (card_example card = JNull \/ sized_within 300 (card_example card))) /\
  (forall e, out = Raise e ->
     e = unbound_local_error /\
     exists failing : nat,
       (Z.of_nat failing < max_retries)%Z /\
       chat failing card_system_message (card_prompt ct (py_slice content 0 2000))
       = Raise JSONDecodeError /\
       forall earlier, (earlier < failing)%nat ->
         exists e', chat earlier card_system_message
                         (card_prompt ct (py_slice content 0 2000)) = Raise e').
Proof.
  unfold generate_card_with_llm. case_bool_decide as Hct.
  - intros Hrun. apply card_attempts_spec in Hrun as (Hn & Hcard & Hraise).
    split; [lia|]. split; [done|]. split.
    + intros card ->. destruct (Hcard card eq_refl) as (? & ? & ? & ? & ?).
      repeat split; [done|lia|done..].
    + intros e ->. destruct (Hraise e eq_refl) as (-> & _ & failing & Hf & Hj & He).
      split; [done|]. exists failing. split; [lia|]. split; [done|].
      intros earlier ?. apply He. lia.
  - intros [= <- <-]. split; [lia|]. split; [done|]. split; done.
Qed.

(** X16: [generate_card_with_llm] calls the model at most [max_retries]
    times and not at all for a type that is not one of the eight card
    types; a card that it returns has the type asked for, a title of at
    most 100, a content of at most 500 and an example that is null or of
    at most 300 characters (or list elements), and took at least one
    call. The one exception that leaves the function is the
    [UnboundLocalError] of the handler that prints [response_text]: it
    needs a call that raises [json.JSONDecodeError] after calls that all
    raised. *)
Theorem generated_card_is_bounded (ct content : pystr) (max_retries : Z) :
  ((generate_card_with_llm json_loads card_prompt chat ct content max_retries).2
   <= Z.to_nat max_retries)%nat /\
  (ct ∉ CARD_TYPES ->
   generate_card_with_llm json_loads card_prompt chat ct content max_retries
   = (Ok None, 0%nat)) /\
  (forall card,
     (generate_card_with_llm json_loads card_prompt chat ct content max_retries).1
       = Ok (Some card) ->
     ct ∈ CARD_TYPES /\
     (1 <= (generate_card_with_llm json_loads card_prompt chat ct content
                                   max_retries).2)%nat /\
     card_type card = ct /\
     sized_within 100 (card_title card) /\
     sized_within 500 (card_content card) /\
     (card_example card = JNull \/ sized_within 300 (card_example card))) /\
  (forall e,
     (generate_card_with_llm json_loads card_prompt chat ct content max_retries).1
       = Raise e ->
     e = unbound_local_error /\
     exists failing : nat,
       (Z.of_nat failing < max_retries)%Z /\
       chat failing card_system_message (card_prompt ct (py_slice content 0 2000))
       = Raise JSONDecodeError /\
       forall earlier, (earlier < failing)%nat ->
         exists e', chat earlier card_system_message
                         (card_prompt ct (py_slice content 0 2000)) = Raise e').
Proof.
  destruct (generate_card_with_llm json_loads card_prompt chat ct content max_retries)
    as [out n] eqn:Hrun.
  apply generate_card_spec in Hrun as (Hn & Hct & Hcard & Hraise). cbn [fst snd].
  split; [done|]. split; [|split].
  - intros H. destruct (Hct H) as [-> ->]. done.
  - intros card ->. by apply Hcard.
  - intros e ->. by apply Hraise.
Qed.
End Generate.

Section Loop.
Context (exn_str : exn -> pystr) (json_loads : pystr -> option Json)
        (card_prompt : pystr -> pystr -> pystr)
        (chat : nat -> nat -> pystr -> pystr -> result pystr).

Lemma cards_loop_spec (count max_attempts : Z) (chunks : list pystr) :
  forall (attempts type_index : nat) (cards : list Card)
         (out : result (list Card)) (calls n : nat),
    length cards = type_index ->
    (Z.of_nat (length cards) <= Z.max 0 count)%Z ->
    (forall i card, cards !! i = Some card -> card_type card = card_type_at i) ->
    cards_loop json_loads card_prompt chat count max_attempts chunks attempts
               type_index cards calls = (out, n) ->
    (n <= calls + 2 * length chunks)%nat /\
    (forall e, out = Raise e -> e = unbound_local_error) /\
    (forall made, out = Ok made ->
       (Z.of_nat (length made) <= Z.max 0 count)%Z /\
       (length made <= length cards + length chunks)%nat /\
       (forall i card, made !! i = Some card -> card_type card = card_type_at i)).
Proof.
  induction chunks as [|chunk chunks IH];
    intros attempts type_index cards out calls n Hidx Hcount Htypes;
    cbn [cards_loop].
  - intros [= <- <-]. cbn. split; [lia|]. split; [done|].
    intros made [= <-]. split; [done|]. split; [lia|done].
  - destruct (Z.ltb_spec (Z.of_nat (length cards)) count) as [Hlt|Hge];
      cbn [andb].
    2: { intros [= <- <-]. cbn. split; [lia|]. split; [done|].
         intros made [= <-]. split; [done|]. split; [lia|done]. }
    destruct (Z.of_nat attempts <? max_attempts)%Z.
    2: { intros [= <- <-]. cbn. split; [lia|]. split; [done|].
         intros made [= <-]. split; [done|]. split; [lia|done]. }
    destruct (generate_card_with_llm json_loads card_prompt (chat attempts)
                (card_type_at type_index) chunk 2) as [[[card|]|e0] k] eqn:Hgen.
    + apply generate_card_spec in Hgen as (Hcalls & _ & Hcard & _).
      destruct (Hcard card eq_refl) as (_ & _ & Hty & _).
      intros H. apply IH in H as (H1 & H2 & H3).
      * split; [cbn; lia|]. split; [done|]. intros made Hm.
        destruct (H3 made Hm) as (? & Hl & ?). rewrite length_app in Hl.
        cbn in Hl |- *. split; [done|]. split; [lia|done].
      * rewrite length_app. cbn. lia.
      * rewrite length_app. cbn. lia.
      * intros i c Hic. destruct (decide (i < length cards)%nat).
        -- rewrite lookup_app_l in Hic by done. by apply Htypes.
        -- rewrite lookup_app_r in Hic by lia.
           destruct (i - length cards)%nat as [|j] eqn:Hj; [|done].
           cbn in Hic. inversion Hic; subst c.
           replace i with type_index by lia. done.
    + apply generate_card_spec in Hgen as (Hcalls & _ & _).
      intros H. apply IH in H as (H1 & H2 & H3); [|done..].
      split; [cbn; lia|]. split; [done|]. intros made Hm.
      destruct (H3 made Hm) as (? & ? & ?). cbn. split; [done|]. split; [lia|done].
    + apply generate_card_spec in Hgen as (Hcalls & _ & _ & Hraise).
      destruct (Hraise e0 eq_refl) as (-> & _).
      intros [= <- <-]. split; [cbn; lia|]. split; [by intros e [= <-]|done].
Qed.

(** X17: the cards of one request are at most [count] (none for a count
    of zero or less) and at most one per chunk, the [i]-th card has the
    type [CARD_TYPES[i mod 8]], and the response carries a message exactly
    when it carries no card; the model is called at most twice per chunk,
    whether a response comes or not; and the one failure, that of the
    card generator, is answered with status 500. *)
Theorem doomscroll_cards_are_bounded_and_varied (documents : list Document)
    (all_chunks : list pystr) (count : Z) :
  ((cards_response exn_str json_loads card_prompt chat documents all_chunks count).2
   <= 2 * length all_chunks)%nat /\
  (forall response,
     (cards_response exn_str json_loads card_prompt chat documents all_chunks
                     count).1 = Ok response ->
     (Z.of_nat (length (dr_cards response)) <= Z.max 0 count)%Z /\
     (length (dr_cards response) <= length all_chunks)%nat /\
     (forall i card,
        dr_cards response !! i = Some card ->
        CARD_TYPES !! (i mod 8)%nat = Some (card_type card)) /\
     (dr_cards response = [] <-> is_Some (dr_message response))) /\
  (forall e,
     (cards_response exn_str json_loads card_prompt chat documents all_chunks
                     count).1 = Raise e ->
     e = HTTPException 500 (exn_str unbound_local_error)).
Proof.
  unfold cards_response.
  destruct (negb (truthy documents)).
  { cbn. split; [lia|]. split; [|done]. intros response [= <-]. cbn.
    split; [lia|]. split; [lia|]. split; [done|]. split; [by eexists | done]. }
  destruct (negb (truthy all_chunks)).
  { cbn. split; [lia|]. split; [|done]. intros response [= <-]. cbn.
    split; [lia|]. split; [lia|]. split; [done|]. split; [by eexists | done]. }
  destruct (cards_loop _ _ _ _ _ _ _ _ _ _) as [[cards|e0] calls] eqn:Hloop;
    apply cards_loop_spec in Hloop as (H1 & H2 & H3); try done; try (cbn; lia).
  - destruct (H3 cards eq_refl) as (Hc & Hl & H4). cbn [length] in *.
    assert (Htypes : forall i card, cards !! i = Some card ->
              CARD_TYPES !! (i mod 8)%nat = Some (card_type card)).
    { intros i card Hc'. rewrite (H4 i card Hc'). unfold card_type_at.
      change (length CARD_TYPES) with 8%nat.
      assert (H : (i mod 8 < length CARD_TYPES)%nat)
        by (change (length CARD_TYPES) with 8%nat; apply Nat.mod_upper_bound; lia).
      destruct (lookup_lt_is_Some_2 CARD_TYPES _ H) as [t Ht]. by rewrite Ht. }
    destruct cards as [|c cards]; cbn.
    + split; [lia|]. split; [|done]. intros response [= <-]. cbn.
      split; [lia|]. split; [lia|]. split; [done|]. split; [by eexists | done].
    + split; [lia|]. split; [|done]. intros response [= <-]. cbn.
      split; [cbn in Hc; lia|]. split; [cbn in Hl; lia|].
      split; [done|]. split; [done | by intros [? ?]].
  - rewrite (H2 e0 eq_refl). cbn. split; [lia|]. split; [done|].
    by intros e [= <-].
Qed.
End Loop.

(** A first attempt that succeeds. *)
Lemma generated_card_is_bounded_witness :
  exists card,
    (generate_card_with_llm card_json_loads card_content_prompt card_model
       (str "fun_fact") (str "alpha") 2).1 = Ok (Some card) /\
    card_type card = str "fun_fact" /\
    sized_within 100 (card_title card) /\
    card_example card = JNull.
Proof.
  destruct (generate_card_with_llm card_json_loads card_content_prompt card_model
              (str "fun_fact") (str "alpha") 2).1 as [[card|]|e] eqn:Hrun.
  - exists card. split; [reflexivity|].
    destruct (generated_card_is_bounded card_json_loads card_content_prompt
                card_model (str "fun_fact") (str "alpha") 2) as (_ & _ & Hcard & _).
    destruct (Hcard card Hrun) as (_ & _ & Hty & Ht & _).
    split; [exact Hty|]. split; [exact Ht|].
    vm_compute in Hrun. by inversion Hrun.
  - vm_compute in Hrun. discriminate Hrun.
  - vm_compute in Hrun. discriminate Hrun.
Defined.

(** Five cards asked of two chunks. *)
Lemma doomscroll_cards_are_bounded_and_varied_witness :
  exists response,
    (cards_response example_exn_str card_json_loads card_content_prompt
       (fun _ => card_model) [example_document "d1"] two_chunk_corpus 5).1
    = Ok response /\
    length (dr_cards response) = 2%nat /\
    (forall i card,
       dr_cards response !! i = Some card ->
       CARD_TYPES !! (i mod 8)%nat = Some (card_type card)).
Proof.
  destruct (cards_response example_exn_str card_json_loads card_content_prompt
              (fun _ => card_model) [example_document "d1"] two_chunk_corpus 5).1
    as [response|e] eqn:Hrun.
  - exists response. split; [reflexivity|].
    destruct (doomscroll_cards_are_bounded_and_varied example_exn_str
                card_json_loads card_content_prompt (fun _ => card_model)
                [example_document "d1"] two_chunk_corpus 5) as (_ & Hok & _).
    destruct (Hok response Hrun) as (_ & _ & Htypes & _).
    split; [|exact Htypes]. vm_compute in Hrun. by inversion Hrun.
  - vm_compute in Hrun. discriminate Hrun.
Defined.

End CardFacts.

Section LibraryFacts.
Import Library Notebooks Examples Scenarios.

Lemma find_notebook_cons (nb : Notebook) (nbs : list Notebook) (oid : pystr) :
  find_notebook (nb :: nbs) oid
  = if decide (n__id nb = oid) then Some nb else find_notebook nbs oid.
Proof.
  unfold find_notebook. cbn [list_find]. case_decide; [done|].
  by destruct (list_find _ nbs) as [[i x]|].
Qed.

Lemma find_notebook_id (nbs : list Notebook) (oid : pystr) (nb : Notebook) :
  find_notebook nbs oid = Some nb -> n__id nb = oid /\ nb ∈ nbs.
Proof.
  induction nbs as [|x nbs IH]; [done|]. rewrite find_notebook_cons.
  case_decide as Hx.
  - intros [= <-]. split; [done | left].
  - intros Hf. destruct (IH Hf) as [? ?]. split; [done | by right].
Qed.

Lemma find_notebook_none (nbs : list Notebook) (oid : pystr) :
  find_notebook nbs oid = None <-> forall nb, nb ∈ nbs -> n__id nb <> oid.
Proof.
  induction nbs as [|x nbs IH].
  - split; [|done]. intros _ nb H. by apply elem_of_nil in H.
  - rewrite find_notebook_cons. case_decide as Hx.
    + split; [done|]. intros H. destruct (H x); [left | done].
    + rewrite IH. split.
      * intros H nb [->|Hnb]%elem_of_cons; [done | by apply H].
      * intros H nb Hnb. apply H. by right.
Qed.

Lemma find_notebook_snoc_fresh (nbs : list Notebook) (nb : Notebook) :
  (forall x, x ∈ nbs -> n__id x <> n__id nb) ->
  find_notebook (nbs ++ [nb]) (n__id nb) = Some nb.
Proof.
  induction nbs as [|x nbs IH]; intros Hfresh; cbn [app].
  - rewrite find_notebook_cons. by rewrite decide_True.
  - rewrite find_notebook_cons. rewrite decide_False.
    + apply IH. intros y Hy. apply Hfresh. by right.
    + apply Hfresh. left.
Qed.

Lemma find_notebook_update_first (nbs : list Notebook) (oid : pystr)
    (u : NotebookUpdate) :
  find_notebook (update_first nbs oid u) oid
  = (fun nb => set_fields nb u) <$> find_notebook nbs oid.
Proof.
  induction nbs as [|x nbs IH]; [done|]. cbn [update_first]. unfold pystr_eqb.
  case_bool_decide as Hx.
  - rewrite !find_notebook_cons. cbn [set_fields n__id].
    by rewrite !decide_True.
  - rewrite !find_notebook_cons. by rewrite !decide_False, IH.
Qed.

Lemma update_first_other (nbs : list Notebook) (oid other : pystr)
    (u : NotebookUpdate) :
  other <> oid ->
  find_notebook (update_first nbs oid u) other = find_notebook nbs other.
Proof.
  intros Ho. induction nbs as [|x nbs IH]; [done|]. cbn [update_first].
  unfold pystr_eqb. case_bool_decide as Hx.
  - rewrite !find_notebook_cons. cbn [set_fields n__id].
    by rewrite !decide_False by congruence.
  - rewrite !find_notebook_cons. by rewrite IH.
Qed.

Lemma find_notebook_delete_first (nbs : list Notebook) (oid other : pystr) :
  NoDup (n__id <$> nbs) ->
  find_notebook (delete_first (has_id oid) nbs) other
  = if decide (other = oid) then None else find_notebook nbs other.
Proof.
  induction nbs as [|x nbs IH]; intros Hnd.
  - by case_decide.
  - rewrite fmap_cons in Hnd. apply NoDup_cons in Hnd as [Hx Hnd].
    cbn [delete_first]. destruct (has_id oid x) eqn:Hid';
      unfold has_id, pystr_eqb in Hid';
      [apply bool_decide_eq_true_1 in Hid' as Hid
      |apply bool_decide_eq_false_1 in Hid' as Hid].
    + case_decide as Ho.
      * subst other. apply find_notebook_none. intros nb Hnb Heq.
        apply Hx. rewrite Hid, <- Heq. apply list_elem_of_fmap. by exists nb.
      * rewrite find_notebook_cons. rewrite decide_False by congruence. done.
    + rewrite !find_notebook_cons. rewrite IH by done.
      case_decide as Hxo; [|done]. rewrite decide_False by congruence. done.
Qed.


Lemma find_by_doc_id_spec (docs : list Document) (doc_id : pystr) (doc : Document) :
  find_by_doc_id docs doc_id = Some doc -> d_doc_id doc = Some doc_id /\ doc ∈ docs.
Proof.
  unfold find_by_doc_id.
  destruct (list_find _ docs) as [[i y]|] eqn:Hf; [|done]. cbn. intros [= <-].
  apply list_find_Some in Hf as (Hi & Hy & _). split; [done|].
  by eapply list_elem_of_lookup_2.
Qed.

Section Endpoints.
Context (exn_str : exn -> pystr) (ObjectId : pystr -> option pystr)
        (index_delete : gmap pystr Vector -> (VectorMetadata -> bool)
                        -> result (gmap pystr Vector))
        (is_null : Document -> pystr -> bool).

(** X18: a notebook that was created is answered with its id, name,
    colour, icon and creation time and a document count of 0, and
    [get_notebook] with that id then returns the same notebook, the count
    being that of the documents which name the id; the id is one that the
    collection did not hold and that [ObjectId] reads back. *)
Theorem created_notebook_can_be_fetched (st : State) (notebook : NotebookCreate)
    (now inserted_id : pystr) :
  ObjectId inserted_id = Some inserted_id ->
  (forall nb, nb ∈ notebooks st -> n__id nb <> inserted_id) ->
  exists view,
    (create_notebook exn_str st notebook now inserted_id).2 = Ok view /\
    nv_id view = inserted_id /\ nv_name view = nc_name notebook /\
    nv_color view = nc_color notebook /\ nv_icon view = nc_icon notebook /\
    nv_created_at view = now /\ nv_document_count view = 0%Z /\
    get_notebook exn_str ObjectId
      (create_notebook exn_str st notebook now inserted_id).1 inserted_id
    = Ok {| nv_id := nv_id view; nv_name := nv_name view;
            nv_color := nv_color view; nv_icon := nv_icon view;
            nv_created_at := nv_created_at view;
            nv_document_count :=
              Z.of_nat (count_documents (documents st) inserted_id) |}.
Proof.
  intros Hoid Hfresh.
  set (nb := {| n__id := inserted_id; n_name := nc_name notebook;
                n_color := Some (nc_color notebook);
                n_icon := Some (nc_icon notebook); n_created_at := now;
                n_document_count := Some 0%Z |}).
  exists (notebook_helper nb). split; [reflexivity|].
  repeat (split; [reflexivity|]).
  pose proof (find_notebook_snoc_fresh (notebooks st) nb Hfresh) as Hfind.
  change (n__id nb) with inserted_id in Hfind.
  unfold get_notebook, create_notebook. cbn [fst notebooks documents].
  fold nb. by rewrite Hoid, Hfind.
Qed.

(** X19: a successful [update_notebook] answers with what [get_notebook]
    returns afterwards: each field given replaces the stored one, each
    field left out keeps its value, the creation time stays, no other
    notebook changes, and the document count is the live count. *)
Theorem update_notebook_agrees_with_get (st st' : State) (notebook_id : pystr)
    (u : NotebookUpdate) (view : NotebookView) :
  update_notebook exn_str ObjectId st notebook_id u = (st', Ok view) ->
  get_notebook exn_str ObjectId st' notebook_id = Ok view /\
  (exists oid old,
     ObjectId notebook_id = Some oid /\
     find_notebook (notebooks st) oid = Some old /\
     nv_name view = default (n_name old) (nu_name u) /\
     nv_color view = default (nv_color (notebook_helper old)) (nu_color u) /\
     nv_icon view = default (nv_icon (notebook_helper old)) (nu_icon u) /\
     nv_created_at view = n_created_at old /\
     forall other, other <> oid ->
       find_notebook (notebooks st') other = find_notebook (notebooks st) other) /\
  nv_document_count view = Z.of_nat (count_documents (documents st) notebook_id) /\
  documents st' = documents st /\ index st' = index st /\ disk st' = disk st.
Proof.
  unfold update_notebook.
  destruct (no_update_data u); [by intros [=]|].
  destruct (ObjectId notebook_id) as [oid|] eqn:Hoid; [|by intros [=]].
  destruct (find_notebook (notebooks st) oid) as [old|] eqn:Hold; [|by intros [=]].
  cbn [notebooks documents].
  rewrite find_notebook_update_first, Hold. cbn [fmap option_fmap option_map].
  cbn [wrap_500]. intros [= <- <-]. cbn [notebooks documents index disk].
  split.
  { unfold get_notebook. rewrite Hoid. cbn [notebooks documents].
    by rewrite find_notebook_update_first, Hold. }
  split; [|done].
  exists oid, old. split; [done|]. split; [done|]. cbn.
  split; [done|]. split; [by destruct (nu_color u)|].
  split; [by destruct (nu_icon u)|]. split; [done|].
  intros other Ho. by apply update_first_other.
Qed.


(** What [delete_notebook] leaves behind, by its answer. *)
Lemma delete_notebook_state (st : State) (notebook_id : pystr) :
  documents (delete_notebook exn_str ObjectId index_delete st notebook_id).1
  = filter (fun d => d_notebook_id d <> Some notebook_id) (documents st) /\
  index (delete_notebook exn_str ObjectId index_delete st notebook_id).1
  = try_index_delete index_delete (index st)
      (fun m => pystr_eqb (vm_notebook_id m) notebook_id) /\
  disk (delete_notebook exn_str ObjectId index_delete st notebook_id).1 = disk st /\
  quizzes_store (delete_notebook exn_str ObjectId index_delete st notebook_id).1
  = quizzes_store st /\
  match (delete_notebook exn_str ObjectId index_delete st notebook_id).2 with
  | Raise e =>
      status_of e = Some 500%Z /\
      notebooks (delete_notebook exn_str ObjectId index_delete st notebook_id).1
      = notebooks st /\
      (ObjectId notebook_id = None \/
       exists oid, ObjectId notebook_id = Some oid /\
                   find_notebook (notebooks st) oid = None)
  | Ok _ =>
      exists oid old,
        ObjectId notebook_id = Some oid /\
        find_notebook (notebooks st) oid = Some old /\
        notebooks (delete_notebook exn_str ObjectId index_delete st notebook_id).1
        = delete_first (has_id oid) (notebooks st)
  end.
Proof.
  unfold delete_notebook.
  destruct (ObjectId notebook_id) as [oid|] eqn:Hoid; cbn [notebooks].
  - destruct (find_notebook (notebooks st) oid) as [old|] eqn:Hold; cbn.
    + repeat (split; [done|]). by exists oid, old.
    + repeat (split; [done|]). right. by exists oid.
  - cbn. repeat (split; [done|]). by left.
Qed.


Lemma lookup_index_delete_where (idx : gmap pystr Vector)
    (p : VectorMetadata -> bool) (k : pystr) (v : Vector) :
  index_delete_where idx p !! k = Some v
  <-> idx !! k = Some v /\ p (v_metadata v) = false.
Proof. unfold index_delete_where. by rewrite map_lookup_filter_Some. Qed.


(** X22: in a collection without repeated ids, after a successful
    [delete_notebook] the notebook is not found any more ([get_notebook]
    and a second [delete_notebook] answer 500 for the 404 raised), and
    every other notebook is found as before. *)
Theorem deleted_notebook_is_gone (st st' : State) (notebook_id msg : pystr) :
  NoDup (n__id <$> notebooks st) ->
  delete_notebook exn_str ObjectId index_delete st notebook_id = (st', Ok msg) ->
  get_notebook exn_str ObjectId st' notebook_id
  = Raise (HTTPException 500
             (exn_str (HTTPException 404 (str "Notebook not found")))) /\
  (delete_notebook exn_str ObjectId index_delete st' notebook_id).2
  = Raise (HTTPException 500
             (exn_str (HTTPException 404 (str "Notebook not found")))) /\
  exists oid,
    ObjectId notebook_id = Some oid /\
    forall other, other <> oid ->
      find_notebook (notebooks st') other = find_notebook (notebooks st) other.
Proof.
  intros Hnd Hrun.
  destruct (delete_notebook_state st notebook_id) as (_ & _ & _ & _ & Hr).
  rewrite Hrun in Hr. cbn [fst snd] in Hr.
  destruct Hr as (oid & old & Hoid & Hold & Hnbs).
  assert (Hgone : find_notebook (notebooks st') oid = None).
  { rewrite Hnbs, find_notebook_delete_first by done. by rewrite decide_True. }
  split; [|split].
  - unfold get_notebook. by rewrite Hoid, Hgone.
  - unfold delete_notebook. rewrite Hoid. cbn [notebooks]. by rewrite Hgone.
  - exists oid. split; [done|]. intros other Ho.
    rewrite Hnbs, find_notebook_delete_first by done. by rewrite decide_False.
Qed.


End Endpoints.
(** A second notebook beside the example one. *)
Lemma created_notebook_can_be_fetched_witness :
  (forall nb, nb ∈ notebooks example_state -> n__id nb <> other_notebook_id) /\
  exists view,
    (create_notebook example_exn_str example_state example_create
                     (str "2024-03-02T09:00:00") other_notebook_id).2 = Ok view /\
    nv_name view = str "Graphs" /\
    nv_document_count <$>
      get_notebook example_exn_str Some
        (create_notebook example_exn_str example_state example_create
                         (str "2024-03-02T09:00:00") other_notebook_id).1
        other_notebook_id
    = Ok 0%Z.
Proof.
  assert (Hfresh : forall nb, nb ∈ notebooks example_state ->
                     n__id nb <> other_notebook_id).
  { intros nb Hnb. apply list_elem_of_singleton in Hnb as ->. done. }
  split; [exact Hfresh|].
  destruct (created_notebook_can_be_fetched example_exn_str Some example_state
              example_create (str "2024-03-02T09:00:00") other_notebook_id
              eq_refl Hfresh)
    as (view & Hview & _ & Hname & _ & _ & _ & _ & Hget).
  exists view. split; [exact Hview|]. split; [exact Hname|].
  rewrite Hget. reflexivity.
Defined.

(** The example notebook, renamed. *)
Lemma update_notebook_agrees_with_get_witness :
  exists st' view,
    update_notebook example_exn_str Some example_state example_notebook_id
                    rename_only = (st', Ok view) /\
    get_notebook example_exn_str Some st' example_notebook_id = Ok view /\
    nv_document_count view = 2%Z.
Proof.
  destruct (update_notebook example_exn_str Some example_state example_notebook_id
              rename_only) as [st' [view|e]] eqn:Hrun.
  - exists st', view. split; [reflexivity|].
    destruct (update_notebook_agrees_with_get example_exn_str Some _ _ _ _ _ Hrun)
      as (Hget & _ & Hcount & _).
    split; [exact Hget | exact Hcount].
  - vm_compute in Hrun. discriminate Hrun.
Defined.

(** The example notebook, deleted with an index that obeys. *)
Lemma deleted_notebook_is_gone_witness :
  NoDup (n__id <$> notebooks example_state) /\
  exists st' msg,
    delete_notebook example_exn_str Some index_delete_ok example_state
                    example_notebook_id = (st', Ok msg) /\
    get_notebook example_exn_str Some st' example_notebook_id
    = Raise (HTTPException 500
               (example_exn_str (HTTPException 404 (str "Notebook not found")))) /\
    documents st' = [].
Proof.
  assert (Hnd : NoDup (n__id <$> notebooks example_state))
    by apply NoDup_singleton.
  split; [exact Hnd|].
  destruct (delete_notebook example_exn_str Some index_delete_ok example_state
              example_notebook_id) as [st' [msg|e]] eqn:Hrun.
  - exists st', msg. split; [reflexivity|].
    destruct (deleted_notebook_is_gone example_exn_str Some index_delete_ok
                _ _ _ _ Hnd Hrun) as (Hget & _).
    split; [exact Hget|]. vm_compute in Hrun. by inversion Hrun.
  - vm_compute in Hrun. discriminate Hrun.
Defined.


End LibraryFacts.

Section RoundTrip.
Import Library Upload Notebooks Examples Scenarios.

Lemma delete_first_snoc_fresh (docs : list Document) (doc : Document)
    (doc_id : pystr) :
  (forall d, d ∈ docs -> d_doc_id d <> Some doc_id) ->
  d_doc_id doc = Some doc_id ->
  delete_first (has_doc_id doc_id) (docs ++ [doc]) = docs /\
  find_by_doc_id (docs ++ [doc]) doc_id = Some doc.
Proof.
  intros Hfresh Hdoc. unfold find_by_doc_id, has_doc_id.
  induction docs as [|x docs IH]; cbn [app delete_first list_find].
  - rewrite bool_decide_eq_true_2, decide_True by done. done.
  - assert (Hx : d_doc_id x <> Some doc_id) by (apply Hfresh; left).
    rewrite bool_decide_eq_false_2, decide_False by done.
    destruct IH as [IH1 IH2]; [intros d Hd; apply Hfresh; by right|].
    rewrite IH1. split; [done|].
    destruct (list_find _ (docs ++ [doc])) as [[i y]|]; [|done].
    cbn in *. by inversion IH2.
Qed.

Section Endpoints.
Context (exn_str : exn -> pystr) (ObjectId : pystr -> option pystr)
        (extract_text_from_pdf : pystr -> result pystr)
        (encode : pystr -> result (list float))
        (uuid4 now new_object_id : nat -> pystr)
        (fault : store_call -> option exn)
        (index_delete : gmap pystr Vector -> (VectorMetadata -> bool)
                        -> result (gmap pystr Vector))
        (is_null : Document -> pystr -> bool).

Lemma upload_one_state (notebook_id : pystr) (k : nat) (file : UploadFile)
    (st st' : State) (d : UploadedDoc) :
  upload_one extract_text_from_pdf encode uuid4 now new_object_id fault
             notebook_id k file st = (st', Ok d) ->
  exists text,
    extract_text_from_pdf (uf_content file) = Ok text /\
    notebooks st' = notebooks st /\
    documents st'
    = documents st ++ [document_of uuid4 now new_object_id notebook_id k file
                         (Chunker.chunk_text_default text)] /\
    index st' = index_upsert (index st)
                  (file_vectors extract_text_from_pdf encode uuid4 notebook_id k file) /\
    disk st' = <[path_div (path_div UPLOADS_DIR notebook_id) (uuid4 k ++ str ".pdf")
                 := uf_content file]> (disk st) /\
    quizzes_store st' = quizzes_store st.
Proof.
  unfold upload_one, file_vectors.
  destruct (negb (endswith _ _)); [done|].
  destruct (extract_text_from_pdf (uf_content file)) as [text|e]; [|done].
  destruct (fault (write_file k)); [done|].
  destruct (fault (insert_document k)); [done|].
  destruct (upsert_batches _ _ _ _ _) as [idx [e|]] eqn:Hbatches; [done|].
  apply upsert_batches_done in Hbatches. fold (upsert_in_batches (index st)
    (make_vectors encode (uuid4 k) notebook_id (uf_filename file)
       (enumerate (Chunker.chunk_text_default text)))) in Hbatches.
  intros [= <- _]. exists text. cbn. by rewrite Hbatches, upsert_in_batches_all.
Qed.

(** X24: deleting the document of a one-file upload undoes the upload:
    the documents, the files and the index are as before the upload and
    the stored counter of the notebook reads as before, provided the
    document id was new to the collection and to the index, the path was
    free, and the index carries the deletion out. *)
Theorem uploaded_document_can_be_deleted (st st1 : State) (notebook_id : pystr)
    (file : UploadFile) (resp : UploadResponse) :
  upload_pdfs exn_str ObjectId extract_text_from_pdf encode uuid4 now
              new_object_id fault st notebook_id [file] = (st1, Ok resp) ->
  (forall d, d ∈ documents st -> d_doc_id d <> Some (uuid4 0)) ->
  disk st !! path_div (path_div UPLOADS_DIR notebook_id) (uuid4 0 ++ str ".pdf")
  = None ->
  (forall key v, index st !! key = Some v ->
     vm_doc_id (v_metadata v) <> uuid4 0 /\ forall i, key <> vector_id (uuid4 0) i) ->
  (forall idx p, index_delete idx p = Ok (index_delete_where idx p)) ->
  (delete_document exn_str ObjectId index_delete is_null st1 (uuid4 0)).2
  = Ok (str "Document deleted successfully") /\
  documents (delete_document exn_str ObjectId index_delete is_null st1 (uuid4 0)).1
  = documents st /\
  disk (delete_document exn_str ObjectId index_delete is_null st1 (uuid4 0)).1 = disk st /\
  index (delete_document exn_str ObjectId index_delete is_null st1 (uuid4 0)).1 = index st /\
  quizzes_store (delete_document exn_str ObjectId index_delete is_null st1 (uuid4 0)).1
  = quizzes_store st /\
  exists oid old,
    ObjectId notebook_id = Some oid /\
    find_notebook (notebooks st) oid = Some old /\
    n_document_count
      <$> find_notebook
            (notebooks (delete_document exn_str ObjectId index_delete is_null st1 (uuid4 0)).1)
            oid
    = Some (Some (default 0%Z (n_document_count old))).
Proof.
  intros Hup Hfresh Hdisk Hidx Hdel. unfold upload_pdfs in Hup.
  destruct (ObjectId notebook_id) as [oid|] eqn:Hoid; [|done].
  destruct (find_notebook (notebooks st) oid) as [old|] eqn:Hold; [|done].
  destruct (fault make_dir); [done|].
  cbn [upload_loop] in Hup.
  destruct (upload_one _ _ _ _ _ _ _ _ _ _) as [st' [d|e]] eqn:Hone; [|done].
  destruct (fault update_count); [done|].
  apply upload_one_state in Hone
    as (text & Htext & Hnbs & Hdocs & Hindex & Hdisk' & Hq).
  cbn in Hup. inversion Hup as [[Hst1 Hresp]]. clear Hup Hresp.
  set (doc := document_of uuid4 now new_object_id notebook_id 0 file
                (Chunker.chunk_text_default text)) in *.
  destruct (delete_first_snoc_fresh (documents st) doc (uuid4 0) Hfresh eq_refl)
    as [Hdf Hfind].
  unfold delete_document, getitem_field, unlink_file_of.
  cbn [documents]. rewrite Hdocs, Hfind.
  change (d_notebook_id doc) with (Some notebook_id).
  change (d_file_path doc)
    with (Some (path_div (path_div UPLOADS_DIR notebook_id)
                         (uuid4 0 ++ str ".pdf"))).
  cbv iota. rewrite Hoid.
  cbn [fst snd wrap_500 notebooks documents index disk quizzes_store].
  rewrite Hdf, Hdisk', Hindex, Hq, Hnbs.
  split; [done|]. split; [done|]. split.
  { rewrite lookup_insert_eq.
    rewrite bool_decide_eq_true_2 by (by eexists).
    by rewrite delete_insert_id. }
  split.
  { unfold try_index_delete. rewrite Hdel. apply map_eq. intros key.
    apply option_eq. intros v. rewrite lookup_index_delete_where.
    unfold pystr_eqb. rewrite bool_decide_eq_false. split.
    - intros [Hv Hne]. apply index_upsert_changed in Hv as [[Hin _]|Hv]; [|done].
      exfalso. apply Hne.
      apply elem_of_file_vectors in Hin as (t & i & chunk & emb & _ & _ & _ & _ & ->).
      done.
    - intros Hv. destruct (Hidx key v Hv) as [Hne Hkey]. split; [|done].
      rewrite index_upsert_other; [done|].
      intros (w & -> & Hin)%list_elem_of_fmap.
      apply elem_of_file_vectors in Hin as (t & i & chunk & emb & _ & _ & _ & _ & ->).
      by apply (Hkey i). }
  split; [done|].
  exists oid, old. split; [done|]. split; [done|].
  rewrite (find_notebook_inc _ _ _ _ (find_notebook_inc _ _ _ _ Hold)). cbn.
  do 2 f_equal. lia.
Qed.
End Endpoints.
(** One PDF into the notebook without documents, then deleted. *)
Lemma uploaded_document_can_be_deleted_witness :
  exists st1 resp,
    upload_pdfs example_exn_str Some bytes_as_text embeds_all example_uuid4
                example_now example_object_id no_fault fresh_state example_notebook_id
                [example_file] = (st1, Ok resp) /\
    (delete_document example_exn_str Some index_delete_ok no_null_field st1 (example_uuid4 0)).2
    = Ok (str "Document deleted successfully") /\
    documents (delete_document example_exn_str Some index_delete_ok no_null_field st1
                 (example_uuid4 0)).1 = documents fresh_state /\
    disk (delete_document example_exn_str Some index_delete_ok no_null_field st1
            (example_uuid4 0)).1 = disk fresh_state /\
    index (delete_document example_exn_str Some index_delete_ok no_null_field st1
             (example_uuid4 0)).1 = index fresh_state.
Proof.
  destruct (upload_pdfs example_exn_str Some bytes_as_text embeds_all example_uuid4
              example_now example_object_id no_fault fresh_state example_notebook_id
              [example_file]) as [st1 [resp|e]] eqn:Hrun.
  - exists st1, resp. split; [reflexivity|].
    destruct (uploaded_document_can_be_deleted example_exn_str Some bytes_as_text
                embeds_all example_uuid4 example_now example_object_id
                no_fault index_delete_ok no_null_field _ _ _ _ _ Hrun
                ltac:(by intros d ?%elem_of_nil)
                ltac:(apply lookup_empty)
                ltac:(by intros key v ?)
                ltac:(reflexivity))
      as (Hok & Hdocs & Hdisk & Hindex & _).
    done.
  - vm_compute in Hrun. discriminate Hrun.
Defined.

End RoundTrip.

Section InterviewFacts.
Import Interview Examples Scenarios.

Lemma find_session_cons (s : Session) (sessions : list Session) (sid : pystr) :
  find_session (s :: sessions) sid
  = if decide (is_session_id s = sid) then Some s else find_session sessions sid.
Proof.
  unfold find_session. cbn [list_find]. case_decide; [done|].
  by destruct (list_find _ sessions) as [[i x]|].
Qed.

Lemma find_session_update (sessions : list Session) (sid : pystr)
    (f : Session -> Session) :
  (forall s, is_session_id (f s) = is_session_id s) ->
  forall other,
    find_session (update_session sessions sid f) other
    = if decide (other = sid) then f <$> find_session sessions sid
      else find_session sessions other.
Proof.
  intros Hf other. induction sessions as [|x sessions IH].
  - by case_decide.
  - cbn [update_session]. unfold pystr_eqb. case_bool_decide as Hx.
    + rewrite !find_session_cons, Hf. destruct (decide (other = sid)) as [->|Ho].
      * by rewrite !decide_True.
      * by rewrite !decide_False by congruence.
    + rewrite !find_session_cons, IH.
      destruct (decide (other = sid)) as [->|Ho].
      * by rewrite !decide_False.
      * done.
Qed.

Lemma find_session_snoc_fresh (sessions : list Session) (s : Session) :
  (forall x, x ∈ sessions -> is_session_id x <> is_session_id s) ->
  find_session (sessions ++ [s]) (is_session_id s) = Some s.
Proof.
  induction sessions as [|x sessions IH]; intros Hfresh; cbn [app].
  - rewrite find_session_cons. by rewrite decide_True.
  - rewrite find_session_cons. rewrite decide_False.
    + apply IH. intros y Hy. apply Hfresh. by right.
    + apply Hfresh. left.
Qed.

Lemma length_update_session (sessions : list Session) (sid : pystr)
    (f : Session -> Session) :
  length (update_session sessions sid f) = length sessions.
Proof.
  induction sessions as [|x sessions IH]; [done|]. cbn [update_session].
  destruct (pystr_eqb _ _); cbn; by rewrite ?IH.
Qed.

Lemma py_slice_last (A : Type) (l : list A) (start : Z) :
  (start < 0)%Z ->
  py_slice l start (Z.of_nat (length l)) = drop (length l - Z.to_nat (- start)) l.
Proof.
  intros Hn. unfold py_slice, slice_index.
  destruct (Z.ltb_spec start 0); [|lia].
  destruct (Z.ltb_spec (Z.of_nat (length l)) 0); [lia|].
  rewrite Z.min_id.
  replace (Z.to_nat (Z.max (start + Z.of_nat (length l)) 0))
    with (length l - Z.to_nat (- start))%nat by lia.
  apply take_ge. rewrite length_drop. lia.
Qed.

(** X25: the conversation sent to the model with a reply is the system
    prompt followed by the last eight stored messages, the reply
    included, so at most nine messages; it ends with the reply under the
    role [user], and every stored message goes out as [assistant] or
    [user]. *)
Theorem interview_context_is_the_last_eight (interview_type : pystr)
    (messages : list Message) (user_response now : pystr) :
  let reply := {| msg_role := str "user"; msg_content := user_response;
                  msg_timestamp := now |} in
  let sent := conversation_messages interview_type (messages ++ [reply]) in
  length sent = (1 + Nat.min 8 (length messages + 1))%nat /\
  (length sent <= 9)%nat /\
  head sent = Some {| cm_role := str "system";
                      cm_content := respond_system_prompt interview_type |} /\
  last sent = Some {| cm_role := str "user"; cm_content := user_response |} /\
  tail sent = chat_message_of <$> drop (length messages - 7) (messages ++ [reply]) /\
  Forall (fun m => cm_role m = str "assistant" \/ cm_role m = str "user") (tail sent).
Proof.
  intros reply sent. unfold sent, conversation_messages.
  rewrite py_slice_last by lia. rewrite length_app. cbn [length tail head].
  replace (length messages + 1 - Z.to_nat (- -8))%nat
    with (length messages - 7)%nat by lia.
  rewrite length_fmap, length_drop, length_app. cbn [length].
  split; [lia|]. split; [lia|]. split; [done|]. split; [|split; [done|]].
  - rewrite drop_app_le by lia. rewrite fmap_app. cbn [fmap list_fmap].
    change (?x :: ?l ++ [?y]) with ((x :: l) ++ [y]). by rewrite last_snoc.
  - apply Forall_fmap, Forall_forall. intros m _. unfold chat_message_of. cbn.
    destruct (pystr_eqb _ _); [by left | by right].
Qed.

Section Endpoints.
Context (exn_str : exn -> pystr) (json_loads : pystr -> option Json)
        (chat : list ChatMessage -> result pystr)
        (scoring_prompt : pystr -> pystr -> pystr -> pystr).

(** X26: after a successful reply the session holds its earlier messages
    followed by the reply of the user and the next question of the
    interviewer, which is the answer of the model to the conversation
    built from the session; nothing else of the session changes, no
    session is added or lost, and the other sessions are as before. *)
Theorem interview_reply_is_recorded (sessions sessions' : list Session)
    (session_id user_response now1 now2 next_question : pystr) :
  respond_to_interview exn_str chat sessions session_id user_response now1 now2
  = (sessions', Ok next_question) ->
  exists session,
    find_session sessions session_id = Some session /\
    find_session sessions' session_id
    = Some (set_messages
              (is_messages session
               ++ [ {| msg_role := str "user"; msg_content := user_response;
                       msg_timestamp := now1 |};
                    {| msg_role := str "interviewer"; msg_content := next_question;
                       msg_timestamp := now2 |} ]) session) /\
    chat (conversation_messages (is_interview_type session)
            (is_messages session
             ++ [ {| msg_role := str "user"; msg_content := user_response;
                     msg_timestamp := now1 |} ])) = Ok next_question /\
    length sessions' = length sessions /\
    forall other, other <> session_id ->
      find_session sessions' other = find_session sessions other.
Proof.
  unfold respond_to_interview.
  destruct (find_session sessions session_id) as [session|] eqn:Hfind;
    [|by intros [=]].
  destruct (chat _) as [q|e] eqn:Hchat.
  2: { cbn. destruct e; by intros [=]. }
  cbn [reraise_http_wrap_500]. intros [= <- <-].
  exists session. split; [done|]. split.
  { rewrite find_session_update by done. rewrite decide_True by done.
    rewrite Hfind. cbn. by rewrite <- app_assoc. }
  split; [done|]. split; [apply length_update_session|].
  intros other Ho. rewrite find_session_update by done. by rewrite decide_False.
Qed.

(** X27: a reply that fails stores nothing, not even the reply of the
    user; a session id that is not known is answered with status 404 as
    raised, and a failure of the model that is not an HTTP exception with
    status 500 and its text as detail. *)
Theorem interview_reply_failures (sessions : list Session)
    (session_id user_response now1 now2 : pystr) :
  (forall sessions' e,
     respond_to_interview exn_str chat sessions session_id user_response now1 now2
     = (sessions', Raise e) ->
     sessions' = sessions /\ is_Some (status_of e)) /\
  (find_session sessions session_id = None ->
   respond_to_interview exn_str chat sessions session_id user_response now1 now2
   = (sessions, Raise (HTTPException 404 (str "Interview session not found")))) /\
  (forall session e,
     find_session sessions session_id = Some session ->
     chat (conversation_messages (is_interview_type session)
             (is_messages session
              ++ [ {| msg_role := str "user"; msg_content := user_response;
                      msg_timestamp := now1 |} ])) = Raise e ->
     status_of e = None ->
     respond_to_interview exn_str chat sessions session_id user_response now1 now2
     = (sessions, Raise (HTTPException 500 (exn_str e)))).
Proof.
  unfold respond_to_interview. split; [|split].
  - intros sessions' e.
    destruct (find_session sessions session_id) as [session|] eqn:Hfind.
    2: { cbn. intros [= <- <-]. split; [done | by eexists]. }
    destruct (chat _) as [q|e0] eqn:Hchat; [by intros [=]|].
    cbn. destruct e0; intros [= <- <-]; (split; [done | by eexists]).
  - by intros ->.
  - intros session e -> -> He. cbn. by destruct e.
Qed.

(** X28: the scoring of [end_interview], once the session is found and
    the model has answered: a reply without an opening brace followed by
    a closing one gives the fixed fallback scoring (overall score 75) and
    completes the session with it; a reply whose text from the first
    opening to the last closing brace does not decode is answered with
    status 500 and leaves the sessions as they were; and when that text
    decodes to an object, the object is the score, its three lists (or
    empty lists) are the feedback, and the session is completed with
    it. *)
Theorem end_interview_scoring (sessions : list Session) (session_id now : pystr)
    (session : Session) (scoring_text : pystr) :
  find_session sessions session_id = Some session ->
  chat [ {| cm_role := str "user";
            cm_content := scoring_prompt (is_interview_type session)
                            (is_difficulty session)
                            (transcript_text (is_messages session)) |} ]
  = Ok scoring_text ->
  (first_to_last_brace scoring_text = None ->
   exists resp,
     (end_interview exn_str json_loads chat scoring_prompt sessions session_id now).2
     = Ok resp /\
     eo_score resp = fallback_scoring /\
     py_getitem (eo_score resp) (str "overall_score") = Ok (JInt 75) /\
     find_session
       (end_interview exn_str json_loads chat scoring_prompt sessions session_id now).1
       session_id
     = Some (set_completed fallback_scoring now session)) /\
  (forall text, first_to_last_brace scoring_text = Some text ->
     json_loads text = None ->
     end_interview exn_str json_loads chat scoring_prompt sessions session_id now
     = (sessions, Raise (HTTPException 500 (exn_str JSONDecodeError)))) /\
  (forall text kv, first_to_last_brace scoring_text = Some text ->
     json_loads text = Some (JDict kv) ->
     (end_interview exn_str json_loads chat scoring_prompt sessions session_id now).2
     = Ok {| eo_score := JDict kv;
             eo_strengths := default (JList []) (dict_lookup (str "strengths") kv);
             eo_improvements :=
               default (JList []) (dict_lookup (str "improvements") kv);
             eo_recommendations :=
               default (JList []) (dict_lookup (str "recommendations") kv) |} /\
     find_session
       (end_interview exn_str json_loads chat scoring_prompt sessions session_id now).1
       session_id
     = Some (set_completed (JDict kv) now session)).
Proof.
  intros Hfind Hchat. unfold end_interview. rewrite Hfind, Hchat.
  unfold scoring_json_text, Re.search.
  rewrite (search_object_spec scoring_text true).
  split; [|split].
  - intros ->. cbn [fst snd]. eexists. split; [reflexivity|].
    split; [done|]. split; [done|].
    rewrite find_session_update by done. rewrite decide_True by done.
    by rewrite Hfind.
  - intros text -> Hl. unfold MockTest.loads. by rewrite Hl.
  - intros text kv -> Hl. unfold MockTest.loads. rewrite Hl. cbn [fst snd].
    split; [done|].
    rewrite find_session_update by done. rewrite decide_True by done.
    by rewrite Hfind.
Qed.

(** X29: a started interview is stored under the session id of the
    response (an id that no stored session has), as an active session
    whose only message is the opening message of the interviewer; a reply
    to that id is never answered with "not found": the model is asked
    with the system prompt, the opening message as [assistant] and the
    reply as [user]. *)
Theorem started_interview_can_be_answered (sessions : list Session)
    (request : StartRequest) (session_id now1 now2 : pystr)
    (sessions' : list Session) (resp : StartResponse) :
  (forall s, s ∈ sessions -> is_session_id s <> session_id) ->
  start_interview exn_str chat sessions request session_id now1 now2
  = (sessions', Ok resp) ->
  so_session_id resp = session_id /\
  exists session,
    find_session sessions' (so_session_id resp) = Some session /\
    is_messages session
    = [ {| msg_role := str "interviewer";
           msg_content := so_initial_message resp; msg_timestamp := now1 |} ] /\
    is_status session = str "active" /\
    is_interview_type session = sr_interview_type request /\
    forall user_response t1 t2,
      (respond_to_interview exn_str chat sessions' (so_session_id resp)
                            user_response t1 t2).2
      = reraise_http_wrap_500 exn_str
          (chat [ {| cm_role := str "system";
                     cm_content :=
                       respond_system_prompt (sr_interview_type request) |};
                  {| cm_role := str "assistant";
                     cm_content := so_initial_message resp |};
                  {| cm_role := str "user"; cm_content := user_response |} ]).
Proof.
  intros Hfresh. unfold start_interview.
  destruct (chat _) as [initial_message|e] eqn:Hchat; [|by intros [=]].
  cbn [wrap_500]. intros [= <- <-]. cbn [so_session_id so_initial_message].
  split; [done|].
  set (session := {| is_session_id := session_id |}).
  pose proof (find_session_snoc_fresh sessions session Hfresh) as Hfind.
  change (is_session_id session) with session_id in Hfind.
  exists session. split; [done|]. split; [done|]. split; [done|].
  split; [done|].
  intros user_response t1 t2. unfold respond_to_interview. rewrite Hfind.
  change (conversation_messages _ _) with
    [ {| cm_role := str "system";
         cm_content := respond_system_prompt (sr_interview_type request) |};
      {| cm_role := str "assistant"; cm_content := initial_message |};
      {| cm_role := str "user"; cm_content := user_response |} ].
  by destruct (chat [_; _; _]).
Qed.
End Endpoints.
(** One reply in the example session. *)
Lemma interview_reply_is_recorded_witness :
  exists sessions' next_question,
    respond_to_interview example_exn_str example_chat [example_session] (str "s1")
      (str "A table of buckets.") (str "2024-03-01 10:01:00")
      (str "2024-03-01 10:01:05") = (sessions', Ok next_question) /\
    length <$> (is_messages <$> find_session sessions' (str "s1")) = Some 3%nat /\
    length sessions' = 1%nat.
Proof.
  destruct (respond_to_interview example_exn_str example_chat [example_session]
              (str "s1") (str "A table of buckets.") (str "2024-03-01 10:01:00")
              (str "2024-03-01 10:01:05")) as [sessions' [q|e]] eqn:Hrun.
  - exists sessions', q. split; [reflexivity|].
    destruct (interview_reply_is_recorded example_exn_str example_chat
                _ _ _ _ _ _ _ Hrun) as (session & Hold & Hnew & _ & Hlen & _).
    split; [|exact Hlen].
    rewrite Hnew. cbn [fmap option_fmap option_map is_messages set_messages].
    rewrite length_app. vm_compute in Hold. inversion Hold; subst session.
    reflexivity.
  - vm_compute in Hrun. discriminate Hrun.
Defined.

(** The example session, ended with a model that answers without any
    brace. *)
Lemma end_interview_scoring_witness :
  find_session [example_session] (str "s1") = Some example_session /\
  exists resp,
    (end_interview example_exn_str MockTest.example_json_loads example_chat
                   example_scoring_prompt [example_session] (str "s1")
                   (str "2024-03-01 10:30:00")).2 = Ok resp /\
    eo_score resp = fallback_scoring.
Proof.
  split; [reflexivity|].
  destruct (end_interview_scoring example_exn_str MockTest.example_json_loads
              example_chat example_scoring_prompt [example_session] (str "s1")
              (str "2024-03-01 10:30:00") example_session
              (str "Tell me more about that.") eq_refl eq_refl)
    as (Hfallback & _).
  destruct (Hfallback eq_refl) as (resp & Hresp & Hscore & _).
  exists resp. split; [exact Hresp | exact Hscore].
Defined.

(** A first interview, started and answered. *)
Lemma started_interview_can_be_answered_witness :
  exists sessions' resp,
    start_interview example_exn_str example_chat [] example_start (str "s1")
      (str "2024-03-01 10:00:00") (str "2024-03-01 10:00:01")
    = (sessions', Ok resp) /\
    so_session_id resp = str "s1" /\
    (respond_to_interview example_exn_str example_chat sessions'
       (so_session_id resp) (str "A table of buckets.")
       (str "2024-03-01 10:01:00") (str "2024-03-01 10:01:05")).2
    = Ok (str "Tell me more about that.").
Proof.
  destruct (start_interview example_exn_str example_chat [] example_start (str "s1")
              (str "2024-03-01 10:00:00") (str "2024-03-01 10:00:01"))
    as [sessions' [resp|e]] eqn:Hrun.
  - exists sessions', resp. split; [reflexivity|].
    destruct (started_interview_can_be_answered example_exn_str example_chat
                _ _ _ _ _ _ _ ltac:(by intros s ?%elem_of_nil) Hrun)
      as (Hid & session & _ & _ & _ & _ & Hanswer).
    split; [exact Hid|]. rewrite Hanswer. reflexivity.
  - vm_compute in Hrun. discriminate Hrun.
Defined.

End InterviewFacts.

Section PdfTextFacts.
Import PdfText Scenarios.

Lemma lstrip_app_space (s t : pystr) :
  all_space t = true ->
  lstrip (s ++ t) = if all_space s then [] else lstrip s ++ t.
Proof.
  intros Ht. induction s as [|a s IH]; cbn [app lstrip all_space].
  - induction t as [|b t IHt]; [done|]. cbn [lstrip all_space] in *.
    apply andb_prop in Ht as [-> Ht]. by apply IHt.
  - destruct (py_isspace a); cbn [andb]; [done|done].
Qed.

Lemma lstrip_all_space (s : pystr) : all_space s = true -> lstrip s = [].
Proof.
  induction s as [|a s IH]; [done|]. cbn. intros [-> Hs]%andb_prop. by apply IH.
Qed.

Lemma all_space_lstrip (s : pystr) : lstrip s = [] -> all_space s = true.
Proof.
  induction s as [|a s IH]; [done|]. cbn. destruct (py_isspace a); [done|].
  discriminate.
Qed.

Lemma lstrip_idem (s : pystr) : lstrip (lstrip s) = lstrip s.
Proof.
  induction s as [|a s IH]; [done|]. cbn. destruct (py_isspace a) eqn:Ha; [done|].
  cbn. by rewrite Ha.
Qed.

Lemma lstrip_suffix (s : pystr) : exists p, s = p ++ lstrip s /\ all_space p = true.
Proof.
  induction s as [|a s (p & Hp & Hs)]; [by exists []|]. cbn.
  destruct (py_isspace a) eqn:Ha.
  - exists (a :: p). cbn. rewrite Ha, Hs. by rewrite <- Hp.
  - by exists [].
Qed.

Lemma all_space_app (s t : pystr) :
  all_space (s ++ t) = all_space s && all_space t.
Proof.
  induction s as [|a s IH]; [done|]. cbn. by rewrite IH, andb_assoc.
Qed.

Lemma all_space_reverse (s : pystr) : all_space (reverse s) = all_space s.
Proof.
  induction s as [|a s IH]; [done|]. rewrite reverse_cons, all_space_app, IH.
  cbn. rewrite andb_true_r. apply andb_comm.
Qed.

Lemma lstrip_space_app (p s : pystr) :
  all_space p = true -> lstrip (p ++ s) = lstrip s.
Proof.
  induction p as [|a p IH]; [done|]. cbn. intros [-> Hp]%andb_prop. by apply IH.
Qed.

Lemma rstrip_app_space (s t : pystr) :
  all_space t = true -> rstrip (s ++ t) = rstrip s.
Proof.
  intros Ht. unfold rstrip. rewrite reverse_app.
  rewrite lstrip_space_app; [done|]. by rewrite all_space_reverse.
Qed.

Lemma strip_app_space (s t : pystr) :
  all_space t = true -> strip (s ++ t) = strip s.
Proof.
  intros Ht. unfold strip. rewrite lstrip_app_space by done.
  destruct (all_space s) eqn:Hs.
  - by rewrite (lstrip_all_space s Hs).
  - by apply rstrip_app_space.
Qed.

Lemma rstrip_prefix (s : pystr) : exists q, s = rstrip s ++ q /\ all_space q = true.
Proof.
  destruct (lstrip_suffix (reverse s)) as (p & Hp & Hs).
  exists (reverse p). split; [|by rewrite all_space_reverse].
  unfold rstrip. rewrite <- reverse_app, <- Hp. by rewrite reverse_involutive.
Qed.

Lemma rstrip_idem (s : pystr) : rstrip (rstrip s) = rstrip s.
Proof. unfold rstrip. by rewrite reverse_involutive, lstrip_idem. Qed.

Lemma lstrip_fixed (s : pystr) :
  lstrip s = s <-> match s with [] => True | a :: _ => py_isspace a = false end.
Proof.
  destruct s as [|a s]; [done|]. cbn. destruct (py_isspace a) eqn:Ha.
  - split; [|done]. intros H. destruct (lstrip_suffix s) as (p & Hp & _).
    apply (f_equal length) in H. rewrite Hp in H at 2.
    cbn in H. rewrite length_app in H. lia.
  - done.
Qed.

Lemma lstrip_rstrip (s : pystr) : lstrip s = s -> lstrip (rstrip s) = rstrip s.
Proof.
  intros Hs. destruct (rstrip_prefix s) as (q & Hq & _).
  apply lstrip_fixed. apply lstrip_fixed in Hs.
  destruct (rstrip s) as [|a r]; [done|]. rewrite Hq in Hs. done.
Qed.

Lemma strip_idem (s : pystr) : strip (strip s) = strip s.
Proof.
  unfold strip. rewrite lstrip_rstrip by apply lstrip_idem. apply rstrip_idem.
Qed.

Lemma strip_nil_iff (s : pystr) : strip s = [] <-> all_space s = true.
Proof.
  unfold strip. split.
  - intros H. destruct (rstrip_prefix (lstrip s)) as (q & Hq & Hsp).
    rewrite H in Hq. cbn in Hq. destruct (lstrip_suffix s) as (p & Hp & Hpp).
    rewrite Hp, all_space_app, Hpp, Hq. done.
  - intros H. by rewrite (lstrip_all_space s H).
Qed.

Lemma foldl_pages_plain (pages : list pystr) : forall text,
  foldl (fun text page_text => text ++ page_text) text pages = text ++ concat pages.
Proof.
  induction pages as [|p pages IH]; intros text; cbn.
  - by rewrite app_nil_r.
  - by rewrite IH, app_assoc.
Qed.

Lemma foldl_pages_lines (pages : list pystr) : forall text,
  foldl (fun text page_text =>
           if truthy page_text then text ++ page_text ++ LF else text) text pages
  = text ++ with_line_feeds pages.
Proof.
  unfold with_line_feeds.
  induction pages as [|p pages IH]; intros text; cbn [foldl].
  - by rewrite app_nil_r.
  - rewrite IH, filter_cons. destruct p as [|a p]; cbn [truthy].
    + by rewrite decide_False by (by intros H; apply H).
    + rewrite decide_True by done. cbn [fmap list_fmap concat].
      by rewrite <- !app_assoc.
Qed.

Lemma with_line_feeds_join (l : list pystr) :
  concat ((fun page_text => page_text ++ LF) <$> l)
  = match l with [] => [] | _ => QuizApi.join LF l ++ LF end.
Proof.
  induction l as [|p l IH]; [done|]. cbn [fmap list_fmap concat]. rewrite IH.
  destruct l as [|q l]; [by rewrite app_nil_r|].
  cbn [QuizApi.join]. by rewrite <- !app_assoc.
Qed.

Section Reader.
Context (PdfReader : pystr -> result Pdf).

(** X30: the text that [PDFProcessor.extract_text] returns has no
    whitespace at either end: it is the stripped join, with line feeds,
    of the pages that hold text, where [extract_text_from_pdf] of main.py
    returns the pages one after the other as they are; it is empty
    exactly when every page is blank, and for a document of one page it
    is the stripped text of main.py. *)
Theorem processor_text_is_stripped (pdf_file text : pystr) :
  extract_text PdfReader pdf_file = Ok text ->
  strip text = text /\
  exists pdf,
    PdfReader pdf_file = Ok pdf /\
    text = strip (QuizApi.join LF (filter (fun p => p <> []) (pdf_pages pdf))) /\
    extract_text_from_pdf PdfReader pdf_file = Ok (concat (pdf_pages pdf)) /\
    (text = [] <-> Forall (fun p => all_space p = true) (pdf_pages pdf)) /\
    (forall p, pdf_pages pdf = [p] -> text = strip (concat (pdf_pages pdf))).
Proof.
  unfold extract_text, extract_text_from_pdf.
  destruct (PdfReader pdf_file) as [pdf|e]; [|done].
  cbn [mbind result_bind]. intros [= <-]. split; [apply strip_idem|].
  exists pdf. split; [done|]. rewrite foldl_pages_lines, foldl_pages_plain.
  cbn [app]. unfold with_line_feeds.
  split; [|split; [done|split]].
  - rewrite with_line_feeds_join.
    destruct (filter _ (pdf_pages pdf)) as [|q l]; [done|].
    by apply strip_app_space.
  - rewrite strip_nil_iff. induction (pdf_pages pdf) as [|p pages IH].
    + split; [constructor | done].
    + rewrite filter_cons. destruct p as [|a p].
      * rewrite decide_False by (by intros H; apply H). rewrite IH.
        split; [by constructor | by inversion 1].
      * rewrite decide_True by done. cbn [fmap list_fmap concat].
        rewrite all_space_app, all_space_app. cbn [all_space LF].
        change (py_isspace "010") with true. cbn [andb].
        rewrite andb_true_r. rewrite andb_true_iff, IH. split.
        -- intros [? ?]. by constructor.
        -- inversion 1; by subst.
  - intros p ->. rewrite filter_cons. destruct p as [|a p].
    + by rewrite decide_False by (by intros H; apply H).
    + rewrite decide_True by done. cbn [filter fmap list_fmap concat].
      rewrite !app_nil_r. by apply strip_app_space.
Qed.
End Reader.
(** Three pages, the second without text. *)
Lemma processor_text_is_stripped_witness :
  exists text,
    extract_text example_pdf_reader (str "notes.pdf") = Ok text /\
    strip text = text /\
    text = str "Binary search" ++ LF ++ str "halves the range.".
Proof.
  destruct (extract_text example_pdf_reader (str "notes.pdf")) as [text|e] eqn:Hrun.
  - exists text. split; [reflexivity|].
    destruct (processor_text_is_stripped example_pdf_reader _ _ Hrun) as (Hs & _).
    split; [exact Hs|]. vm_compute in Hrun. by inversion Hrun.
  - vm_compute in Hrun. discriminate Hrun.
Defined.

End PdfTextFacts.
